(** * The analysis gateway of [backend/server.js]

    A shallow embedding of the Express application defined in
    [backend/server.js]: the CORS origin callback, the provider table, the
    [POST /api/analyze] route with its [try]/[catch], and the final error
    handler.  JavaScript values are an inductive type, numbers are IEEE 754
    binary64 floats (Rocq's primitive floats), [process.env] is a finite map,
    and what the route does to the outside world ([fetch], [console.log],
    [console.error]) is recorded in a trace. *)

From Stdlib Require Import Floats Ascii.
From stdpp Require Import gmap strings list pretty.

Set Warnings "-inexact-float,-register-all,-clear-no-such-hyp".
Local Open Scope string_scope.

(** ** JavaScript values and the coercions the server performs *)

Module JS.

(** Values as [JSON.parse] produces them, plus [undefined].  An object is a
    finite map from property names to values. *)
Inductive jsval :=
  | JUndefined
  | JNull
  | JBool (b : bool)
  | JNum (x : float)
  | JStr (s : string)
  | JArr (items : list jsval)
  | JObj (fields : gmap string jsval).

(** What a JavaScript computation can throw here. *)
Inductive js_exn :=
  | UserError (message : string)    (* [throw new Error(message)] of the source *)
  | TypeError (what : string)       (* raised by the engine *)
  | SyntaxError                     (* [response.json()] on a body that is not JSON *)
  | NetworkError (message : string) (* [fetch] rejected *).

(** The result of evaluating an expression.  [Unmodelled] marks what this
    embedding does not compute: an arithmetic operator applied to an object
    whose text cannot be made, and, in the page, [includes] and the spread
    applied to a string. *)
Inductive step (A : Type) :=
  | Ret (a : A)
  | Throw (e : js_exn)
  | Unmodelled.
Arguments Ret {A} a.
Arguments Throw {A} e.
Arguments Unmodelled {A}.

#[export] Instance step_ret : MRet step := @Ret.
#[export] Instance step_bind : MBind step := fun A B k m =>
  match m with
  | Ret a => k a
  | Throw e => Throw e
  | Unmodelled => Unmodelled
  end.

(** [!!v] is [negb (truthy v)]. *)
Definition truthy (v : jsval) : bool :=
  match v with
  | JUndefined | JNull => false
  | JBool b => b
  | JNum x => negb (PrimFloat.is_zero x || PrimFloat.is_nan x)
  | JStr s => negb (String.eqb s "")
  | JArr _ | JObj _ => true
  end.

Definition typeof (v : jsval) : string :=
  match v with
  | JUndefined => "undefined"
  | JBool _ => "boolean"
  | JNum _ => "number"
  | JStr _ => "string"
  | JNull | JArr _ | JObj _ => "object"
  end.

(** [v.k] for the property names the server reads ([responses], [provider],
    [error], [message], [content], [text], [usage], [choices] and the token
    counters): none of them is defined on a built-in prototype, so only an
    object's own fields can answer. *)
Definition get (v : jsval) (k : string) : step jsval :=
  match v with
  | JUndefined => Throw (TypeError ("Cannot read properties of undefined (reading '" ++ k ++ "')"))
  | JNull => Throw (TypeError ("Cannot read properties of null (reading '" ++ k ++ "')"))
  | JObj fields => Ret (default JUndefined (fields !! k))
  | JBool _ | JNum _ | JStr _ | JArr _ => Ret JUndefined
  end.

(** [v?.k] *)
Definition get_opt (v : jsval) (k : string) : step jsval :=
  match v with
  | JUndefined | JNull => Ret JUndefined
  | _ => get v k
  end.

(** [v[i]] with a literal index; a string answers with the one-character
    string at that position. *)
Definition get_index (v : jsval) (i : nat) : step jsval :=
  match v with
  | JUndefined | JNull => get v (pretty i)
  | JArr items => Ret (default JUndefined (items !! i))
  | JStr s => Ret (match String.get i s with
                   | Some c => JStr (String c EmptyString)
                   | None => JUndefined
                   end)
  | JObj fields => Ret (default JUndefined (fields !! pretty i))
  | JBool _ | JNum _ => Ret JUndefined
  end.

(** [a || b] where [b] is a value *)
Definition or_else (a b : jsval) : jsval := if truthy a then a else b.

(** *** The text of a number and the number of a text *)

(** The double nearest to [m * 2^e], ties to the even significand. *)
Definition nearest (m e : Z) : float := SF2Prim (SpecFloat.binary_normalize prec emax m e false).

(** *** [Number::toString] *)

Local Open Scope Z_scope.

(** A positive rational, as numerator and denominator. *)
Definition over10 (p : Z) (q : Z * Z) : Z * Z :=
  if 0 <=? p then (q.1, q.2 * 10 ^ p) else (q.1 * 10 ^ (- p), q.2).

Definition floor_q (q : Z * Z) : Z := q.1 / q.2.
Definition ceil_q (q : Z * Z) : Z := - ((- q.1) / q.2).
Definition integral (q : Z * Z) : bool := q.1 mod q.2 =? 0.

Fixpoint exponent_up (fuel : nat) (E : Z) (q : Z * Z) : Z :=
  match fuel with
  | O => E
  | S fuel => if 1 <=? floor_q (over10 (E + 1) q) then exponent_up fuel (E + 1) q else E
  end.

Fixpoint exponent_down (fuel : nat) (E : Z) (q : Z * Z) : Z :=
  match fuel with
  | O => E
  | S fuel => if 1 <=? floor_q (over10 E q) then E else exponent_down fuel (E - 1) q
  end.

(** The [E] with [10^E <= q < 10^(E+1)], for [q] between the least and the
    greatest double. *)
Definition decimal_exponent (q : Z * Z) : Z :=
  let guess := (Z.log2 q.1 - Z.log2 q.2) * 1233 / 4096 in
  exponent_down 700 (exponent_up 700 guess q) q.

(** The [k]-digit [s] with [s * 10^p] between [lo] and [hi] that is nearest
    to [v], the even one of two equally near. *)
Definition candidate (inclusive : bool) (lo v hi : Z * Z) (k p : Z) : option Z :=
  let hq := over10 p hi in
  let lq := over10 p lo in
  let vq := over10 p v in
  let smax := Z.min (floor_q hq - (if integral hq && negb inclusive then 1 else 0))
                    (10 ^ k - 1) in
  let smin := Z.max (ceil_q lq + (if integral lq && negb inclusive then 1 else 0))
                    (10 ^ (k - 1)) in
  if smin <=? smax then
    let clamp s := Z.max smin (Z.min smax s) in
    let a := clamp (floor_q vq) in
    let b := clamp (floor_q vq + 1) in
    let da := Z.abs (a * vq.2 - vq.1) in
    let db := Z.abs (b * vq.2 - vq.1) in
    Some (if da <? db then a else if db <? da then b else if Z.even a then a else b)
  else None.

Definition candidate_of_length (inclusive : bool) (lo v hi : Z * Z) (E k : Z)
  : option (Z * Z) :=
  let p1 := E - k + 1 in
  let p2 := E - k in
  match candidate inclusive lo v hi k p1, candidate inclusive lo v hi k p2 with
  | Some s1, Some s2 =>
      let vq := over10 p2 v in
      if Z.abs (s2 * vq.2 - vq.1) <? Z.abs (10 * s1 * vq.2 - vq.1)
      then Some (s2, p2) else Some (s1, p1)
  | Some s1, None => Some (s1, p1)
  | None, Some s2 => Some (s2, p2)
  | None, None => None
  end.

Fixpoint shortest_from (fuel : nat) (inclusive : bool) (lo v hi : Z * Z) (E k : Z)
  : Z * Z :=
  match fuel with
  | O => (0, 0)
  | S fuel =>
      match candidate_of_length inclusive lo v hi E k with
      | Some sp => sp
      | None => shortest_from fuel inclusive lo v hi E (k + 1)
      end
  end.

(** Step 5 of [Number::toString] for the double [m * 2^e]: the digits [s]
    and the exponent [p] with [s * 10^p] the shortest decimal that reads back
    as that double.  The decimals that read back are those between the
    midpoints to the neighbouring doubles, the midpoints included when [m]
    is even; the lower neighbour is half as far when [m] is a power of two
    above the subnormal range. *)
Definition shortest (m : positive) (e : Z) : Z * Z :=
  let m := Z.pos m in
  let narrow := (m =? 2 ^ 52) && (-1074 <? e) in
  let frac (n : Z) : Z * Z :=
    if 2 <=? e then (n * 2 ^ (e - 2), 1) else (n, 2 ^ (2 - e)) in
  let lo := frac (4 * m - (if narrow then 1 else 2)) in
  let v := frac (4 * m) in
  let hi := frac (4 * m + 2) in
  shortest_from 17 (Z.even m) lo v hi (decimal_exponent hi) 1.

Local Close Scope Z_scope.

Fixpoint zeros (n : nat) : string :=
  match n with
  | O => ""
  | S n => "0" ++ zeros n
  end.

(** Steps 6 to 10: plain digits up to 21 places, a leading "0." down to six
    zeros, the exponent form otherwise. *)
Definition decimal_text (s p : Z) : string :=
  let ds := pretty s in
  let k := Z.of_nat (String.length ds) in
  let n := (p + k)%Z in
  if ((k <=? n) && (n <=? 21))%Z then ds ++ zeros (Z.to_nat (n - k))
  else if ((0 <? n) && (n <=? 21))%Z then
    String.substring 0 (Z.to_nat n) ds ++ "."
    ++ String.substring (Z.to_nat n) (Z.to_nat (k - n)) ds
  else if ((-6 <? n) && (n <=? 0))%Z then "0." ++ zeros (Z.to_nat (- n)) ++ ds
  else
    let e := (n - 1)%Z in
    let es := (if (0 <=? e)%Z then "+" else "-") ++ pretty (Z.abs e) in
    if (k =? 1)%Z then ds ++ "e" ++ es
    else String.substring 0 1 ds ++ "." ++ String.substring 1 (Z.to_nat (k - 1)) ds
         ++ "e" ++ es.

(** [String(x)] for a number. *)
Definition number_to_string (x : float) : string :=
  match Prim2SF x with
  | S754_nan => "NaN"
  | S754_zero _ => "0"
  | S754_infinity negative => if negative then "-Infinity" else "Infinity"
  | S754_finite negative m e =>
      let sp := shortest m e in
      (if negative then "-" else "") ++ decimal_text sp.1 sp.2
  end.

(** *** [StringToNumber] *)

Definition bytes (l : list nat) : list ascii := map ascii_of_nat l.

(** WhiteSpace and LineTerminator, a string being held in UTF-8: tab, line
    feed, vertical tab, form feed, carriage return, space, U+00A0, U+1680,
    U+2000 to U+200A, U+2028, U+2029, U+202F, U+205F, U+3000, U+FEFF. *)
Definition white_space : list (list ascii) :=
  map bytes [[9]; [10]; [11]; [12]; [13]; [32]; [194; 160]; [225; 154; 128];
             [226; 128; 128]; [226; 128; 129]; [226; 128; 130]; [226; 128; 131];
             [226; 128; 132]; [226; 128; 133]; [226; 128; 134]; [226; 128; 135];
             [226; 128; 136]; [226; 128; 137]; [226; 128; 138]; [226; 128; 168];
             [226; 128; 169]; [226; 128; 175]; [226; 129; 159]; [227; 128; 128];
             [239; 187; 191]]%nat.

Fixpoint strip (p l : list ascii) : option (list ascii) :=
  match p, l with
  | [], _ => Some l
  | a :: p, b :: l => if Ascii.eqb a b then strip p l else None
  | _ :: _, [] => None
  end.

Fixpoint strip_any (ps : list (list ascii)) (l : list ascii) : option (list ascii) :=
  match ps with
  | [] => None
  | p :: ps => match strip p l with Some r => Some r | None => strip_any ps l end
  end.

Fixpoint skip (fuel : nat) (ps : list (list ascii)) (l : list ascii) : list ascii :=
  match fuel with
  | O => l
  | S fuel => match strip_any ps l with Some r => skip fuel ps r | None => l end
  end.

Definition trim (l : list ascii) : list ascii :=
  let l := skip (List.length l) white_space l in
  rev (skip (List.length l) (map (@rev ascii) white_space) (rev l)).

Definition digit_value (base : Z) (c : ascii) : option Z :=
  let n := Z.of_N (N_of_ascii c) in
  let d := if ((48 <=? n) && (n <=? 57))%Z then (n - 48)%Z
           else if ((97 <=? n) && (n <=? 102))%Z then (n - 87)%Z
           else if ((65 <=? n) && (n <=? 70))%Z then (n - 55)%Z
           else 16%Z in
  if (d <? base)%Z then Some d else None.

(** The longest run of digits at the head of [l]: its value after [acc], its
    length, and what follows. *)
Fixpoint digits (base : Z) (l : list ascii) (acc : Z) : Z * nat * list ascii :=
  match l with
  | [] => (acc, O, [])
  | c :: rest =>
      match digit_value base c with
      | Some d => let '(v, n, r) := digits base rest (acc * base + d)%Z in (v, S n, r)
      | None => (acc, O, l)
      end
  end.

(** StrUnsignedDecimalLiteral other than Infinity, as [mantissa * 10^exponent]. *)
Definition unsigned_decimal (l : list ascii) : option (Z * Z) :=
  let '(i, ni, r1) := digits 10 l 0 in
  let '(m, nf, r2) :=
    match r1 with
    | "."%char :: r => digits 10 r i
    | _ => (i, O, r1)
    end in
  if Nat.eqb (ni + nf) 0 then None
  else match r2 with
       | [] => Some (m, (- Z.of_nat nf)%Z)
       | c :: r3 =>
           if Ascii.eqb c "e" || Ascii.eqb c "E" then
             let '(negative, r4) :=
               match r3 with
               | "+"%char :: r => (false, r)
               | "-"%char :: r => (true, r)
               | _ => (false, r3)
               end in
             let '(x, nx, r5) := digits 10 r4 0 in
             match nx, r5 with
             | S _, [] => Some (m, ((if negative then - x else x) - Z.of_nat nf)%Z)
             | _, _ => None
             end
           else None
       end.

(** The double nearest to [m * 10^e].  For a negative [e] the quotient is
    taken with more than 60 bits and one more bit that tells whether
    anything was left over. *)
Definition decimal_value (m e : Z) : float :=
  if (0 <=? e)%Z then nearest (m * 10 ^ e) 0
  else if (m =? 0)%Z then 0%float
  else
    let d := (10 ^ (- e))%Z in
    let sh := Z.max 0 (64 + Z.log2 d - Z.log2 m) in
    let n := (m * 2 ^ sh)%Z in
    nearest (2 * (n / d) + (if (n mod d =? 0)%Z then 0 else 1)) (- sh - 1).

Definition non_decimal (l : list ascii) : option (Z * list ascii) :=
  match l with
  | "0"%char :: c :: rest =>
      if Ascii.eqb c "x" || Ascii.eqb c "X" then Some (16%Z, rest)
      else if Ascii.eqb c "o" || Ascii.eqb c "O" then Some (8%Z, rest)
      else if Ascii.eqb c "b" || Ascii.eqb c "B" then Some (2%Z, rest)
      else None
  | _ => None
  end.

(** [Number(s)] for a string: white space around is dropped; nothing left is
    0; a literal in base 16, 8 or 2 takes no sign; anything that is not a
    numeric literal is NaN. *)
Definition string_to_number (s : string) : float :=
  let l := trim (String.list_ascii_of_string s) in
  match l with
  | [] => 0%float
  | _ =>
      match non_decimal l with
      | Some (base, rest) =>
          match digits base rest 0 with
          | (v, S _, []) => nearest v 0
          | _ => nan
          end
      | None =>
          let '(negative, body) :=
            match l with
            | "+"%char :: r => (false, r)
            | "-"%char :: r => (true, r)
            | _ => (false, l)
            end in
          let magnitude :=
            if String.eqb (String.string_of_list_ascii body) "Infinity" then infinity
            else match unsigned_decimal body with
                 | Some (m, e) => decimal_value m e
                 | None => nan
                 end in
          if negative then (- magnitude)%float else magnitude
      end
  end.

(** *** Conversions *)

(** [String(v)], also the conversion of a computed property key and of the
    argument of [new Error].  An array joins its items with commas, [null]
    and [undefined] items giving the empty string.  A parsed object has no
    callable [toString] of its own: the inherited one answers
    "[object Object]", and an own field of that name makes the conversion fail. *)
Fixpoint to_string (v : jsval) : step string :=
  match v with
  | JUndefined => Ret "undefined"
  | JNull => Ret "null"
  | JBool b => Ret (if b then "true" else "false")
  | JNum x => Ret (number_to_string x)
  | JStr s => Ret s
  | JArr items =>
      let item (x : jsval) : step string :=
        match x with
        | JUndefined | JNull => Ret ""
        | _ => to_string x
        end in
      (fix join (l : list jsval) : step string :=
         match l with
         | [] => Ret ""
         | [x] => item x
         | x :: rest => a ← item x; b ← join rest; Ret (a ++ "," ++ b)
         end) items
  | JObj fields =>
      match fields !! "toString" with
      | Some _ => Throw (TypeError "Cannot convert object to primitive value")
      | None => Ret "[object Object]"
      end
  end.

(** [ToPrimitive]: an array or an object becomes its text, no [valueOf]
    within reach giving a primitive. *)
Definition to_primitive (v : jsval) : step jsval :=
  match v with
  | JArr _ | JObj _ => s ← to_string v; Ret (JStr s)
  | _ => Ret v
  end.

(** [Number(v)], the conversion applied by [/].  The number of an array or
    of an object is that of its text.  Where that text cannot be made the
    operator throws from inside the arithmetic of line 417: this embedding
    does not follow that case. *)
Definition to_number (v : jsval) : step float :=
  match v with
  | JUndefined => Ret nan
  | JNull => Ret 0%float
  | JBool b => Ret (if b then 1%float else 0%float)
  | JNum x => Ret x
  | JStr s => Ret (string_to_number s)
  | JArr _ | JObj _ =>
      match to_string v with
      | Ret s => Ret (string_to_number s)
      | Throw _ | Unmodelled => Unmodelled
      end
  end.

(** [a + b]: both sides are made primitive; when either is then a string
    the texts of the two are joined, otherwise their numbers are added. *)
Definition add (a b : jsval) : step jsval :=
  p ← to_primitive a;
  q ← to_primitive b;
  match p, q with
  | JStr s, _ => t ← to_string q; Ret (JStr (s ++ t))
  | _, JStr t => s ← to_string p; Ret (JStr (s ++ t))
  | _, _ => x ← to_number p; y ← to_number q; Ret (JNum (x + y)%float)
  end.

End JS.
Import JS.

(** ** The world the server runs in *)

(** The outbound request built for [fetch]: URL, headers in the order of the
    source, and the JSON body.  The prompt is a fixed template around
    [JSON.stringify(responses, null, 2)], so the body records [responses]. *)
Record fetch_request := {
  url : string;
  headers : list (string * string);
  body_model : string;
  body_max_tokens : Z;
  body_answers : jsval;
}.

(** What [fetch] settles to: a rejection, or a response with its status and
    its body ([None] when the body is not JSON). *)
Inductive fetch_result :=
  | NetworkFailure (message : string)
  | Reply (status : Z) (payload : option jsval).

Record world := {
  env : gmap string string;                 (* process.env *)
  upstream : fetch_request -> fetch_result; (* the provider behind fetch *)
  clock_start : Z;                          (* Date.now() on entry *)
  clock_end : Z;                            (* Date.now() on completion *)
  iso_time : string;                        (* new Date().toISOString() *)
}.

(** [process.env[k]] is usable when it is a non-empty string. *)
Definition env_truthy (w : world) (k : string) : option string :=
  match env w !! k with
  | Some v => if String.eqb v "" then None else Some v
  | None => None
  end.

Inductive event :=
  | Fetch (req : fetch_request)
  | LogMissingKey (provider : jsval)             (* console.error, line 124 *)
  | LogProcessing (provider : jsval)             (* console.log, line 131 *)
  | LogCompleted (provider : jsval) (duration : Z) (totalCost : float)
  | LogAnalysisError (e : js_exn)                (* console.error, line 448 *)
  | LogServerError (e : js_exn)                  (* console.error, line 484 *).

(** The [message] field of an error body: a string of the source or of the
    upstream, or the engine's wording for one of its own exceptions. *)
Inductive message :=
  | Msg (s : string)
  | EngineMsg (e : js_exn).

Record token_usage := {
  tokens_input : jsval;
  tokens_output : jsval;
  tokens_total : jsval;
}.

Record cost_estimate := {
  cost_input : float;
  cost_output : float;
  cost_total : float;
}.

Record metadata := {
  meta_provider : string;
  meta_model : string;
  meta_tokens : token_usage;
  meta_cost : cost_estimate;   (* with currency: 'USD' *)
  meta_duration : Z;
  meta_timestamp : string;
}.

Inductive body :=
  | ErrorBody (error : string) (msg : message) (timestamp : option string)
  | SuccessBody (analysis : jsval) (meta : metadata).

Record response := {
  status : Z;
  content : body;
}.

(** An evaluation that also performs effects: the trace so far goes in, the
    extended trace comes out, together with a value or an exception. *)
Definition M (A : Type) : Type := list event -> step A * list event.

Definition ret {A} (a : A) : M A := fun tr => (Ret a, tr).
Definition throw {A} (e : js_exn) : M A := fun tr => (Throw e, tr).
Definition lift {A} (s : step A) : M A := fun tr => (s, tr).
Definition emit (e : event) : M unit := fun tr => (Ret tt, (tr ++ [e])%list).
Definition bind {A B} (m : M A) (k : A -> M B) : M B := fun tr =>
  match m tr with
  | (Ret a, tr') => k a tr'
  | (Throw e, tr') => (Throw e, tr')
  | (Unmodelled, tr') => (Unmodelled, tr')
  end.

Notation "'let*' x := m 'in' k" := (bind m (fun x => k))
  (at level 10, x name, m at level 100, k at level 200).
Notation "m ;;; k" := (bind m (fun _ => k))
  (at level 100, k at level 200, right associativity).

(** ** CORS (lines 17-33) and the final error handler (lines 483-490) *)

Definition allowedOrigins (w : world) : list string :=
  (["https://godagoo.github.io"; "http://localhost:3000"; "http://127.0.0.1:3000"]
   ++ match env_truthy w "FRONTEND_URL" with
      | Some u => [u]
      | None => []
      end)%list.

(** The [origin] callback: [None] is [callback(null, true)], [Some e] is
    [callback(e)].  The header is absent ([None]) or a string. *)
Definition cors_origin (w : world) (origin : option string) : option js_exn :=
  match origin with
  | None => None
  | Some o =>
      if String.eqb o "" || bool_decide (o ∈ allowedOrigins w) then None
      else Some (UserError "Not allowed by CORS")
  end.

(** [err.message] *)
Definition exn_message (e : js_exn) : message :=
  match e with
  | UserError m | NetworkError m => Msg m
  | TypeError _ | SyntaxError => EngineMsg e
  end.

Definition error_handler (w : world) (err : js_exn) : response * list event :=
  ({| status := 500;
      content := ErrorBody "Internal server error"
                   (if bool_decide (env w !! "NODE_ENV" = Some "development")
                    then exn_message err
                    else Msg "An unexpected error occurred")
                   None |},
   [LogServerError err]).

(** The [cors] middleware hands the callback's error to [next], which Express
    routes to the error handler; without an error the request goes on. *)
Definition cors_middleware (w : world) (origin : option string)
  : option (response * list event) :=
  match cors_origin w origin with
  | Some err => Some (error_handler w err)
  | None => None
  end.

(** ** The provider table (lines 66-95) *)

Record provider_config := {
  name : string;
  apiUrl : string;
  model : string;
  costPer1M_input : float;
  costPer1M_output : float;
  envKey : string;
}.

Definition PROVIDERS : list (string * provider_config) := [
  ("claude",
    {| name := "Claude (Direct)";
       apiUrl := "https://api.anthropic.com/v1/messages";
       model := "claude-sonnet-4-20250514";
       costPer1M_input := 3.00; costPer1M_output := 15.00;
       envKey := "ANTHROPIC_API_KEY" |});
  ("openrouter_claude",
    {| name := "Claude (via OpenRouter)";
       apiUrl := "https://openrouter.ai/api/v1/chat/completions";
       model := "anthropic/claude-sonnet-4";
       costPer1M_input := 3.00; costPer1M_output := 15.00;
       envKey := "OPENROUTER_API_KEY" |});
  ("openrouter_gpt4",
    {| name := "GPT-4 Turbo (via OpenRouter)";
       apiUrl := "https://openrouter.ai/api/v1/chat/completions";
       model := "openai/gpt-4-turbo";
       costPer1M_input := 10.00; costPer1M_output := 30.00;
       envKey := "OPENROUTER_API_KEY" |});
  ("openrouter_haiku",
    {| name := "Claude Haiku (via OpenRouter)";
       apiUrl := "https://openrouter.ai/api/v1/chat/completions";
       model := "anthropic/claude-3.5-haiku";
       costPer1M_input := 0.80; costPer1M_output := 4.00;
       envKey := "OPENROUTER_API_KEY" |})
].

(** [Object.keys(PROVIDERS)] *)
Definition provider_ids : list string := PROVIDERS.*1.

(** The property names every object literal inherits from
    [Object.prototype]; each of them reads as a function or an object. *)
Definition object_prototype_keys : list string := [
  "constructor"; "__defineGetter__"; "__defineSetter__"; "hasOwnProperty";
  "__lookupGetter__"; "__lookupSetter__"; "isPrototypeOf";
  "propertyIsEnumerable"; "toString"; "valueOf"; "__proto__"; "toLocaleString"
].

(** What [PROVIDERS[provider]] evaluates to. *)
Inductive provider_lookup :=
  | Own (cfg : provider_config)   (* an entry of the table *)
  | Inherited (key : string)      (* a built-in found on the prototype chain *)
  | Absent                        (* undefined *).

Fixpoint assoc {A} (k : string) (l : list (string * A)) : option A :=
  match l with
  | [] => None
  | (k', a) :: rest => if String.eqb k k' then Some a else assoc k rest
  end.

Definition lookup_key (key : string) : provider_lookup :=
  match assoc key PROVIDERS with
  | Some cfg => Own cfg
  | None => if bool_decide (key ∈ object_prototype_keys) then Inherited key else Absent
  end.

(** The key is [String(provider)].  The text of a number is made of digits,
    signs, a point and an exponent, or is NaN or Infinity: it names nothing. *)
Definition lookup_provider (provider : jsval) : step provider_lookup :=
  match provider with
  | JNum _ => Ret Absent
  | _ => key ← to_string provider; Ret (lookup_key key)
  end.

(** ** The route [POST /api/analyze] (lines 98-456) *)

Definition invalid_request : response :=
  {| status := 400;
     content := ErrorBody "Invalid request" (Msg "Missing or invalid responses object") None |}.

Definition invalid_provider : response :=
  {| status := 400;
     content := ErrorBody "Invalid provider"
                  (Msg ("Provider must be one of: " ++ String.concat ", " provider_ids)) None |}.

Definition configuration_error : response :=
  {| status := 500;
     content := ErrorBody "Configuration error"
                  (Msg "Server is not properly configured. Please contact administrator.") None |}.

(** Which arm of the [if ... else if ...] of line 356 runs.  [startsWith] is
    a method of strings only. *)
Inductive branch := ClaudeBranch | OpenRouterBranch | NoBranch.

Definition dispatch_branch (provider : jsval) : step branch :=
  match provider with
  | JStr s =>
      Ret (if String.eqb s "claude" then ClaudeBranch
           else if String.prefix "openrouter_" s then OpenRouterBranch
           else NoBranch)
  | JUndefined | JNull => _ ← get provider "startsWith"; Ret NoBranch
  | JBool _ | JNum _ | JArr _ | JObj _ =>
      Throw (TypeError "provider.startsWith is not a function")
  end.

Definition claude_request (cfg : provider_config) (apiKey : string) (responses : jsval)
  : fetch_request :=
  {| url := apiUrl cfg;
     headers := [("Content-Type", "application/json");
                 ("x-api-key", apiKey);
                 ("anthropic-version", "2023-06-01")];
     body_model := model cfg;
     body_max_tokens := 4000;
     body_answers := responses |}.

Definition openrouter_request (w : world) (cfg : provider_config) (apiKey : string)
    (responses : jsval) : fetch_request :=
  {| url := apiUrl cfg;
     headers := [("Content-Type", "application/json");
                 ("Authorization", "Bearer " ++ apiKey);
                 ("HTTP-Referer", default "https://godagoo.github.io" (env_truthy w "FRONTEND_URL"));
                 ("X-Title", "AI Business Assessment Tool")];
     body_model := model cfg;
     body_max_tokens := 4000;
     body_answers := responses |}.

(** [response.ok] *)
Definition response_ok (status : Z) : bool := (200 <=? status)%Z && (status <=? 299)%Z.

(** The message of the error thrown on a response that is not ok
    (lines 375-378 and 405-408). *)
Definition upstream_error_message (status : Z) (payload : option jsval) : step string :=
  let errorData := default (JObj ∅) payload in
  err ← get errorData "error";
  m ← get_opt err "message";
  if truthy m then to_string m else Ret ("API error: " ++ pretty status).

(** [fetch], the check of [response.ok], and [response.json()]. *)
Definition call_upstream (w : world) (req : fetch_request) : M jsval :=
  emit (Fetch req);;;
  match upstream w req with
  | NetworkFailure m => throw (NetworkError m)
  | Reply st payload =>
      if response_ok st then
        match payload with
        | Some data => ret data
        | None => throw SyntaxError
        end
      else
        let* m := lift (upstream_error_message st payload) in
        throw (UserError m)
  end.

Record normalized := {
  analysisText : jsval;
  inputTokens : jsval;
  outputTokens : jsval;
}.

(** Lines 351-353: the three variables before either arm has run. *)
Definition unassigned : normalized :=
  {| analysisText := JUndefined; inputTokens := JNum 0; outputTokens := JNum 0 |}.

(** Lines 380-383 and 410-413. *)
Definition normalize (br : branch) (data : jsval) : step normalized :=
  match br with
  | ClaudeBranch =>
      blocks ← get data "content";
      first ← get_index blocks 0;
      text ← get first "text";
      usage ← get data "usage";
      i ← get_opt usage "input_tokens";
      o ← get_opt usage "output_tokens";
      Ret {| analysisText := text;
             inputTokens := or_else i (JNum 0);
             outputTokens := or_else o (JNum 0) |}
  | OpenRouterBranch =>
      choices ← get data "choices";
      first ← get_index choices 0;
      msg ← get first "message";
      text ← get msg "content";
      usage ← get data "usage";
      i ← get_opt usage "prompt_tokens";
      o ← get_opt usage "completion_tokens";
      Ret {| analysisText := text;
             inputTokens := or_else i (JNum 0);
             outputTokens := or_else o (JNum 0) |}
  | NoBranch => Ret unassigned
  end.

(** Lines 417-419. *)
Definition estimate (n : normalized) (cfg : provider_config) : step cost_estimate :=
  i ← to_number (inputTokens n);
  o ← to_number (outputTokens n);
  let inputCost := (i / 1000000 * costPer1M_input cfg)%float in
  let outputCost := (o / 1000000 * costPer1M_output cfg)%float in
  Ret {| cost_input := inputCost;
         cost_output := outputCost;
         cost_total := (inputCost + outputCost)%float |}.

Definition request_for (w : world) (br : branch) (cfg : provider_config)
    (apiKey : string) (responses : jsval) : option fetch_request :=
  match br with
  | ClaudeBranch => Some (claude_request cfg apiKey responses)
  | OpenRouterBranch => Some (openrouter_request w cfg apiKey responses)
  | NoBranch => None
  end.

(** The object passed to [res.json] on line 425. *)
Definition success (w : world) (cfg : provider_config) (n : normalized)
    (c : cost_estimate) (total : jsval) : response :=
  {| status := 200;
     content := SuccessBody (analysisText n)
       {| meta_provider := name cfg;
          meta_model := model cfg;
          meta_tokens := {| tokens_input := inputTokens n;
                            tokens_output := outputTokens n;
                            tokens_total := total |};
          meta_cost := c;
          meta_duration := (clock_end w - clock_start w)%Z;
          meta_timestamp := iso_time w |} |}.

(** Lines 131-445, for an entry of the table whose key is configured. *)
Definition run_provider (w : world) (provider responses : jsval)
    (cfg : provider_config) (apiKey : string) : M response :=
  emit (LogProcessing provider);;;
  let* br := lift (dispatch_branch provider) in
  let* n :=
    match request_for w br cfg apiKey responses with
    | Some req => let* data := call_upstream w req in lift (normalize br data)
    | None => ret unassigned
    end in
  let* c := lift (estimate n cfg) in
  emit (LogCompleted provider (clock_end w - clock_start w)%Z (cost_total c));;;
  let* total := lift (add (inputTokens n) (outputTokens n)) in
  ret (success w cfg n c total).

(** [const { responses, provider = 'claude' } = req.body] *)
Definition destructure (reqBody : jsval) : step (jsval * jsval) :=
  responses ← get reqBody "responses";
  p ← get reqBody "provider";
  Ret (responses, match p with JUndefined => JStr "claude" | _ => p end).

(** The test of line 105. *)
Definition invalid_responses (responses : jsval) : bool :=
  negb (truthy responses) || negb (String.eqb (typeof responses) "object").

(** Lines 112-445, once [responses] has passed line 105.  When
    [providerConfig] is a built-in inherited from [Object.prototype], each of
    [envKey], [name] and [costPer1M] reads as undefined: the key looked up in
    [process.env] is "undefined", and line 417 throws. *)
Definition analyze_valid (w : world) (responses provider : jsval) : M response :=
  let* providerConfig := lift (lookup_provider provider) in
  match providerConfig with
  | Absent => ret invalid_provider
  | Own cfg =>
      match env_truthy w (envKey cfg) with
      | None => emit (LogMissingKey provider);;; ret configuration_error
      | Some apiKey => run_provider w provider responses cfg apiKey
      end
  | Inherited _ =>
      match env_truthy w "undefined" with
      | None => emit (LogMissingKey provider);;; ret configuration_error
      | Some _ =>
          emit (LogProcessing provider);;;
          let* _ := lift (dispatch_branch provider) in
          throw (TypeError "Cannot read properties of undefined (reading 'input')")
      end
  end.

(** The body of the [try]. *)
Definition analyze_try (w : world) (reqBody : jsval) : M response :=
  let* rp := lift (destructure reqBody) in
  if invalid_responses rp.1 then ret invalid_request
  else analyze_valid w rp.1 rp.2.

(** [error.message || 'An unexpected error occurred'] (line 452) *)
Definition catch_message (e : js_exn) : message :=
  match exn_message e with
  | Msg m => if String.eqb m "" then Msg "An unexpected error occurred" else Msg m
  | EngineMsg e' => EngineMsg e'
  end.

Definition analysis_failed (w : world) (e : js_exn) : response :=
  {| status := 500;
     content := ErrorBody "Analysis failed" (catch_message e) (Some (iso_time w)) |}.

(** What the route did: the response it sent and the trace of its effects. *)
Inductive outcome :=
  | Responded (r : response) (tr : list event)
  | OutsideModel.

(** The [catch] of lines 447-455, applied to what the [try] came to. *)
Definition settle (w : world) (res : step response * list event) : outcome :=
  match res with
  | (Ret r, tr) => Responded r tr
  | (Throw e, tr) => Responded (analysis_failed w e) (tr ++ [LogAnalysisError e])%list
  | (Unmodelled, _) => OutsideModel
  end.

(** The route handler. *)
Definition analyze (w : world) (reqBody : jsval) : outcome :=
  settle w (analyze_try w reqBody []).

(** The values of lines 381-383 or 411-413 as the success response shows them. *)
Definition normalized_of (o : outcome) : option normalized :=
  match o with
  | Responded {| status := _; content := SuccessBody text meta |} _ =>
      Some {| analysisText := text;
              inputTokens := tokens_input (meta_tokens meta);
              outputTokens := tokens_output (meta_tokens meta) |}
  | _ => None
  end.

(** A request that reaches the provider call: it destructures, [responses]
    passes line 105, the provider is an entry of the table, and its key is
    set in the environment. *)
Record ready (w : world) (reqBody responses provider : jsval)
    (cfg : provider_config) (apiKey : string) : Prop := {
  ready_body : destructure reqBody = Ret (responses, provider);
  ready_responses : invalid_responses responses = false;
  ready_provider : lookup_provider provider = Ret (Own cfg);
  ready_key : env_truthy w (envKey cfg) = Some apiKey;
}.

(** ** The rate limiter mounted on [/api/analyze] (lines 36-47) *)

Module RateLimiter.

(** [windowMs] and [max] of the options object of line 36. *)
Definition windowMs : Z := 15 * 60 * 1000.
Definition max : Z := 10.

Record client_state := {
  windowStart : Z;
  count : Z;
}.

Inductive decision :=
  | Allowed
  | Rejected (retryAfter : Z).

(** Modelled from the spec: the body of [rateLimit] belongs to the
    express-rate-limit package and is not part of the sources, so [admit_request]
    follows the fixed-window counter of section 4.3.  Without state, or once
    [now - windowStart >= windowLength], the window restarts at [now] with a
    count of zero; the count is incremented; a count above the maximum is
    rejected with [retryAfter = windowLength - (now - windowStart)]. *)
Definition admit_request (now : Z) (client : string) (store : gmap string client_state)
  : decision * gmap string client_state :=
  let current :=
    match store !! client with
    | Some s =>
        if (windowMs <=? now - windowStart s)%Z
        then {| windowStart := now; count := 0 |}
        else s
    | None => {| windowStart := now; count := 0 |}
    end in
  let s' := {| windowStart := windowStart current; count := count current + 1 |} in
  (if (max <? count s')%Z
   then Rejected (windowMs - (now - windowStart s'))
   else Allowed,
   <[client := s']> store).

(** The store after a sequence of requests, each a client and its arrival time. *)
Definition run (requests : list (string * Z)) (store : gmap string client_state)
  : gmap string client_state :=
  foldl (fun st r => (admit_request r.2 r.1 st).2) store requests.

(** How many of the requests come from [client]. *)
Definition requests_of (client : string) (requests : list (string * Z)) : Z :=
  Z.of_nat (length (filter (fun r => r.1 = client) requests)).

(** A request of [client] at [t0] starts a window: nothing is recorded for
    the client, or the recorded window has elapsed. *)
Definition opens_window (store : gmap string client_state) (client : string) (t0 : Z) : Prop :=
  match store !! client with
  | Some s => (windowMs <= t0 - windowStart s)%Z
  | None => True
  end.

End RateLimiter.

(** ** Requests and worlds used as examples *)

Module Samples.

Definition answers : jsval := JObj {[ "industry" := JArr [JStr "saas"] ]}.

Definition request_claude : jsval :=
  JObj {[ "responses" := answers; "provider" := JStr "claude" ]}.

Definition request_haiku : jsval :=
  JObj {[ "responses" := answers; "provider" := JStr "openrouter_haiku" ]}.

Definition request_empty_answers : jsval := JObj {[ "responses" := JObj ∅ ]}.

Definition request_constructor : jsval :=
  JObj {[ "responses" := answers; "provider" := JStr "constructor" ]}.

Definition message_reply : jsval :=
  JObj {[ "content" := JArr [JObj {[ "type" := JStr "text"; "text" := JStr "Report body" ]}];
          "usage" := JObj {[ "input_tokens" := JNum 500; "output_tokens" := JNum 800 ]} ]}.

Definition message_reply_no_usage : jsval :=
  JObj {[ "content" := JArr [JObj {[ "type" := JStr "text"; "text" := JStr "Report body" ]}] ]}.

Definition chat_reply : jsval :=
  JObj {[ "choices" := JArr [JObj {[ "message" :=
            JObj {[ "role" := JStr "assistant"; "content" := JStr "Report body" ]} ]}];
          "usage" := JObj {[ "prompt_tokens" := JNum 700; "completion_tokens" := JNum 900 ]} ]}.

Definition overloaded : jsval :=
  JObj {[ "error" := JObj {[ "type" := JStr "overloaded_error"; "message" := JStr "Overloaded" ]} ]}.

Definition world_with (vars : gmap string string) (reply : fetch_result) : world :=
  {| env := vars;
     upstream := fun _ => reply;
     clock_start := 1000;
     clock_end := 4000;
     iso_time := "2025-01-01T00:00:00.000Z" |}.

Definition keys : gmap string string :=
  {[ "ANTHROPIC_API_KEY" := "sk-ant-test"; "OPENROUTER_API_KEY" := "sk-or-test" ]}.

End Samples.

(** ** What a run shows, and [GET /api/providers] (lines 459-472) *)

Definition is_fetch (e : event) : bool :=
  match e with
  | Fetch _ => true
  | _ => false
  end.

(** The lines written by [console.log] and [console.error]. *)
Definition console (tr : list event) : list event :=
  List.filter (fun e => negb (is_fetch e)) tr.

(** What the client and the operator see of a run: the response and the console. *)
Definition observable (o : outcome) : option (response * list event) :=
  match o with
  | Responded r tr => Some (r, console tr)
  | OutsideModel => None
  end.

(** Two outbound requests that differ at most in their headers. *)
Definition same_but_headers (a b : fetch_request) : Prop :=
  url a = url b ∧ body_model a = body_model b
  ∧ body_max_tokens a = body_max_tokens b ∧ body_answers a = body_answers b.

(** [!!process.env[config.envKey]] *)
Definition available (w : world) (config : provider_config) : bool :=
  match env_truthy w (envKey config) with
  | Some _ => true
  | None => false
  end.

(** One element of [providers]. *)
Definition provider_entry (w : world) (key : string) (config : provider_config) : jsval :=
  JObj {[ "id" := JStr key;
          "name" := JStr (name config);
          "model" := JStr (model config);
          "costPer1M" := JObj {[ "input" := JNum (costPer1M_input config);
                                 "output" := JNum (costPer1M_output config) ]};
          "available" := JBool (available w config) ]}.

(** The object passed to [res.json] on line 468. *)
Definition providers_listing (w : world) : jsval :=
  JObj {[ "providers" := JArr (map (fun p => provider_entry w p.1 p.2) PROVIDERS);
          "default" := JStr "claude" ]}.

(** ** The questionnaire ([src/AIBusinessAssessmentEnhanced.jsx]) *)

Module Frontend.

(** A value after [JSON.stringify] and [JSON.parse], the way a body travels
    between the browser and the server: [NaN] and the infinities become
    [null], the negative zero becomes zero, an [undefined] field is dropped
    and an [undefined] item becomes [null]. *)
Definition json_number (x : float) : jsval :=
  if PrimFloat.is_nan x || PrimFloat.is_infinity x then JNull
  else if PrimFloat.is_zero x then JNum 0
  else JNum x.

Fixpoint jsonify (v : jsval) : jsval :=
  match v with
  | JNum x => json_number x
  | JArr items =>
      JArr (map (fun x => match x with JUndefined => JNull | _ => jsonify x end) items)
  | JObj fields =>
      JObj (omap (fun x => match x with JUndefined => None | _ => Some (jsonify x) end) fields)
  | JUndefined | JNull | JBool _ | JStr _ => v
  end.

(** [questions] (lines 569-737): the id of each question and whether its
    [type] is 'multiple'. *)
Definition questions : list (string * bool) := [
  ("company_stage", false);
  ("industry", true);
  ("business_location", false);
  ("customer_locations", true);
  ("ai_usage_type", true);
  ("use_cases", true);
  ("data_sensitivity", true);
  ("compliance", true);
  ("technical_capability", false);
  ("budget", false);
  ("timeline", false)
].

(** What [analysis] holds: a value received from the server, or the error
    page built around [error.message] (line 784). *)
Inductive report :=
  | Text (v : jsval)
  | Failure (msg : message).

(** The state of the component (lines 157-165). *)
Record ui := {
  currentStep : nat;
  responses : gmap string jsval;
  loading : bool;
  analysis : report;
  showReport : bool;
  selectedProvider : jsval;
  availableProviders : list jsval;
  analysisMetadata : jsval;
}.

Definition initial : ui :=
  {| currentStep := 0;
     responses := ∅;
     loading := false;
     analysis := Text (JStr "");
     showReport := false;
     selectedProvider := JStr "claude";
     availableProviders := [];
     analysisMetadata := JNull |}.

(** [v === value] for a string [value] *)
Definition is_value (value : string) (v : jsval) : bool :=
  match v with
  | JStr s => String.eqb s value
  | _ => false
  end.

(** [handleResponse] (lines 740-751), as the function given to
    [setResponses].  [prev[questionId]] finds a recorded answer, or a built-in
    when the id is a property name of [Object.prototype].  A string found
    where a list is expected would be searched as text and then spread into
    its characters: that case is left out. *)
Definition handleResponse (questionId value : string) (isMultiple : bool)
    (prev : gmap string jsval) : step (gmap string jsval) :=
  if isMultiple then
    match prev !! questionId with
    | None =>
        if bool_decide (questionId ∈ object_prototype_keys)
        then Throw (TypeError "current.includes is not a function")
        else Ret (<[questionId := JArr [JStr value]]> prev)
    | Some v =>
        match or_else v (JArr []) with
        | JArr current =>
            if existsb (is_value value) current
            then Ret (<[questionId :=
                          JArr (List.filter (fun x => negb (is_value value x)) current)]> prev)
            else Ret (<[questionId := JArr (current ++ [JStr value])]> prev)
        | JStr _ => Unmodelled
        | JUndefined | JNull | JBool _ | JNum _ | JObj _ =>
            Throw (TypeError "current.includes is not a function")
        end
    end
  else Ret (<[questionId := JStr value]> prev).

(** Lines 802-808. *)
Definition currentQuestion (st : ui) : option (string * bool) :=
  questions !! currentStep st.

Definition isLastStep (st : ui) : bool :=
  Nat.eqb (currentStep st) (List.length questions - 1).

Definition currentResponse (st : ui) : jsval :=
  default JUndefined
    (responses st !! match currentQuestion st with
                     | Some (id, _) => id
                     | None => "undefined"
                     end).

(** [v.length > 0] *)
Definition has_items (v : jsval) : step bool :=
  match v with
  | JArr items => Ret (negb (Nat.eqb (List.length items) 0))
  | JStr s => Ret (negb (Nat.eqb (String.length s) 0))
  | JObj fields =>
      x ← to_number (default JUndefined (fields !! "length")); Ret (0 <? x)%float
  | JUndefined | JNull => _ ← get v "length"; Ret false
  | JBool _ | JNum _ => Ret false
  end.

(** [canProceed], read as a condition. *)
Definition canProceed (st : ui) : step bool :=
  match currentQuestion st with
  | Some (_, true) =>
      if truthy (currentResponse st) then has_items (currentResponse st) else Ret false
  | _ =>
      Ret (match currentResponse st with JUndefined => false | _ => true end)
  end.

(** The body of the request of line 757. *)
Definition request_body (st : ui) : jsval :=
  jsonify (JObj {[ "responses" := JObj (responses st);
                   "provider" := selectedProvider st ]}).

(** What the [try] of [analyzeWithClaude] comes to once [fetch] has settled
    (lines 768-780): the analysis and its metadata, or an exception. *)
Definition read_analysis (reply : fetch_result) : step (jsval * jsval) :=
  match reply with
  | NetworkFailure m => Throw (NetworkError m)
  | Reply st payload =>
      if response_ok st then
        match payload with
        | None => Throw SyntaxError
        | Some data =>
            ok ← get data "success";
            if truthy ok then
              a ← get data "analysis"; m ← get data "metadata"; Ret (a, m)
            else
              msg ← get data "message";
              text ← (if truthy msg then to_string msg else Ret "Analysis failed");
              Throw (UserError text)
        end
      else
        let errorData := default (JObj ∅) payload in
        msg ← get errorData "message";
        text ← (if truthy msg then to_string msg
                else err ← get errorData "error";
                     if truthy err then to_string err
                     else Ret ("Server error: " ++ pretty st));
        Throw (UserError text)
  end.

(** [analyzeWithClaude] from the moment [fetch] settles, with its [catch]
    and [finally]. *)
Definition analyze_settled (reply : fetch_result) (st : ui) : option ui :=
  match read_analysis reply with
  | Ret (a, m) =>
      Some {| currentStep := currentStep st; responses := responses st;
              loading := false; analysis := Text a; showReport := true;
              selectedProvider := selectedProvider st;
              availableProviders := availableProviders st;
              analysisMetadata := m |}
  | Throw e =>
      Some {| currentStep := currentStep st; responses := responses st;
              loading := false; analysis := Failure (exn_message e); showReport := true;
              selectedProvider := selectedProvider st;
              availableProviders := availableProviders st;
              analysisMetadata := analysisMetadata st |}
  | Unmodelled => None
  end.

(** [data.providers.filter(p => p.available)] *)
Fixpoint keep_available (items : list jsval) : step (list jsval) :=
  match items with
  | [] => Ret []
  | p :: rest =>
      a ← get p "available";
      kept ← keep_available rest;
      Ret (if truthy a then p :: kept else kept)
  end.

Definition filter_available (providers : jsval) : step (list jsval) :=
  match providers with
  | JArr items => keep_available items
  | JUndefined | JNull => _ ← get providers "filter"; Ret []
  | JBool _ | JNum _ | JStr _ | JObj _ =>
      Throw (TypeError "data.providers.filter is not a function")
  end.

(** [fetchProviders] from the moment [fetch] settles (lines 557-564): an
    exception is logged and leaves the state as it is. *)
Definition providers_settled (reply : fetch_result) (st : ui) : option ui :=
  match reply with
  | NetworkFailure _ => Some st
  | Reply status payload =>
      if response_ok status then
        match payload with
        | None => Some st
        | Some data =>
            match (ps ← get data "providers"; filter_available ps) with
            | Ret kept =>
                Some {| currentStep := currentStep st; responses := responses st;
                        loading := loading st; analysis := analysis st;
                        showReport := showReport st;
                        selectedProvider :=
                          match get data "default" with
                          | Ret d => d
                          | _ => selectedProvider st
                          end;
                        availableProviders := kept;
                        analysisMetadata := analysisMetadata st |}
            | Throw _ => Some st
            | Unmodelled => None
            end
        end
      else Some st
  end.

(** What the user and the network can do to the component. *)
Inductive action :=
  | ClickOption (value : string)            (* line 993 *)
  | ClickNext                               (* line 1087 *)
  | ClickPrevious                           (* line 1068 *)
  | ClickProvider (i : nat)                 (* line 1039 *)
  | ClickGenerate                           (* line 1078 *)
  | AnalysisSettles (reply : fetch_result)  (* the fetch of line 757 *)
  | ProvidersSettle (reply : fetch_result)  (* the fetch of line 556 *)
  | ClickStartNew                           (* line 827 *).

Definition with_step (st : ui) (n : nat) : ui :=
  {| currentStep := n; responses := responses st; loading := loading st;
     analysis := analysis st; showReport := showReport st;
     selectedProvider := selectedProvider st;
     availableProviders := availableProviders st;
     analysisMetadata := analysisMetadata st |}.

Definition with_responses (st : ui) (r : gmap string jsval) : ui :=
  {| currentStep := currentStep st; responses := r; loading := loading st;
     analysis := analysis st; showReport := showReport st;
     selectedProvider := selectedProvider st;
     availableProviders := availableProviders st;
     analysisMetadata := analysisMetadata st |}.

(** One event handler run to its end.  [None] when the control is not on
    the page or is disabled in this state, or when the handler leaves the
    modelled fragment.  The options are shown while neither the report nor
    the loader is; the buttons below them while the report is not; a render
    that throws is not modelled, which only adds states. *)
Definition react (a : action) (st : ui) : option ui :=
  match a with
  | ClickOption value =>
      if showReport st || loading st then None
      else match currentQuestion st with
           | Some (id, multiple) =>
               match handleResponse id value multiple (responses st) with
               | Ret next => Some (with_responses st next)
               | _ => None
               end
           | None => None
           end
  | ClickNext =>
      if showReport st || isLastStep st then None
      else match canProceed st with
           | Ret true => Some (with_step st (currentStep st + 1))
           | _ => None
           end
  | ClickPrevious =>
      if showReport st || Nat.eqb (currentStep st) 0 then None
      else Some (with_step st (Nat.max 0 (currentStep st - 1)))
  | ClickProvider i =>
      if showReport st || negb (isLastStep st) then None
      else match availableProviders st !! i with
           | Some p =>
               match get p "id" with
               | Ret id =>
                   Some {| currentStep := currentStep st; responses := responses st;
                           loading := loading st; analysis := analysis st;
                           showReport := showReport st;
                           selectedProvider := id;
                           availableProviders := availableProviders st;
                           analysisMetadata := analysisMetadata st |}
               | _ => None
               end
           | None => None
           end
  | ClickGenerate =>
      if showReport st || negb (isLastStep st) then None
      else match canProceed st with
           | Ret true =>
               Some {| currentStep := currentStep st; responses := responses st;
                       loading := true; analysis := analysis st;
                       showReport := showReport st;
                       selectedProvider := selectedProvider st;
                       availableProviders := availableProviders st;
                       analysisMetadata := analysisMetadata st |}
           | _ => None
           end
  | AnalysisSettles reply => analyze_settled reply st
  | ProvidersSettle reply => providers_settled reply st
  | ClickStartNew =>
      if showReport st
      then Some {| currentStep := 0; responses := ∅; loading := loading st;
                   analysis := analysis st; showReport := false;
                   selectedProvider := selectedProvider st;
                   availableProviders := availableProviders st;
                   analysisMetadata := analysisMetadata st |}
      else None
  end.

(** A session: the actions in order, from a given state. *)
Fixpoint session (actions : list action) (st : ui) : option ui :=
  match actions with
  | [] => Some st
  | a :: rest =>
      match react a st with
      | Some st' => session rest st'
      | None => None
      end
  end.

(** The "Generate My Report" button is on the page and enabled. *)
Definition can_generate (st : ui) : Prop :=
  showReport st = false ∧ isLastStep st = true ∧ canProceed st = Ret true.

(** An answer as the questionnaire records it: a string for a question with
    one choice, a list of distinct strings for a question with several. *)
Definition well_formed (multiple : bool) (v : jsval) : Prop :=
  if multiple
  then ∃ values : list string, v = JArr (JStr <$> values) ∧ NoDup values
  else ∃ value : string, v = JStr value.

(** A recorded answer that lets the user go on. *)
Definition answered (multiple : bool) (v : option jsval) : Prop :=
  if multiple
  then ∃ (first : string) (others : list string), v = Some (JArr (JStr <$> first :: others))
  else ∃ value : string, v = Some (JStr value).

(** The sessions in which the list of providers, when it arrives, comes
    from the server of world [w]. *)
Definition served_by (w : world) (actions : list action) : Prop :=
  Forall (fun a =>
            match a with
            | ProvidersSettle (Reply st payload) =>
                st = 200%Z ∧ payload = Some (jsonify (providers_listing w))
            | _ => True
            end) actions.

(** What every state of a session satisfies: the step names a question,
    the questions before it are answered, and whatever is recorded is the
    answer to one of the questions, in the form of its type. *)
Record consistent (st : ui) : Prop := {
  step_in_range : (currentStep st < List.length questions)%nat;
  earlier_answered : ∀ i id multiple,
    (i < currentStep st)%nat → questions !! i = Some (id, multiple) →
    answered multiple (responses st !! id);
  answers_well_formed : ∀ id v,
    responses st !! id = Some v →
    ∃ multiple, (id, multiple) ∈ questions ∧ well_formed multiple v;
}.

(** An element of [availableProviders] that the server of [w] lists as available. *)
Definition offered (w : world) (p : jsval) : Prop :=
  ∃ id cfg, (id, cfg) ∈ PROVIDERS ∧ available w cfg = true ∧ get p "id" = Ret (JStr id).

(** The selected provider is the default, or one the server offers. *)
Record provider_consistent (w : world) (st : ui) : Prop := {
  selected_known :
    selectedProvider st = JStr "claude"
    ∨ ∃ id cfg, selectedProvider st = JStr id ∧ (id, cfg) ∈ PROVIDERS ∧ available w cfg = true;
  offered_available : Forall (offered w) (availableProviders st);
}.

End Frontend.

(** ** From [res.json] to the browser *)

(** [duration] as a number: the difference of two results of [Date.now()],
    rounded to the nearest double. *)
Definition number_of_Z (z : Z) : float :=
  SF2Prim (SpecFloat.binary_normalize prec emax z 0 false).

(** The [metadata] object of lines 428-443. *)
Definition metadata_json (m : metadata) : jsval :=
  JObj {[ "provider" := JStr (meta_provider m);
          "model" := JStr (meta_model m);
          "tokens" := JObj {[ "input" := tokens_input (meta_tokens m);
                              "output" := tokens_output (meta_tokens m);
                              "total" := tokens_total (meta_tokens m) ]};
          "cost" := JObj {[ "input" := JNum (cost_input (meta_cost m));
                            "output" := JNum (cost_output (meta_cost m));
                            "total" := JNum (cost_total (meta_cost m));
                            "currency" := JStr "USD" ]};
          "duration" := JNum (number_of_Z (meta_duration m));
          "timestamp" := JStr (meta_timestamp m) ]}.

(** The object given to [res.json].  The wording of an engine's own
    exception is not modelled, so an error body that carries one has no
    image here. *)
Definition body_json (b : body) : option jsval :=
  match b with
  | ErrorBody error (Msg text) None =>
      Some (JObj {[ "error" := JStr error; "message" := JStr text ]})
  | ErrorBody error (Msg text) (Some t) =>
      Some (JObj {[ "error" := JStr error; "message" := JStr text; "timestamp" := JStr t ]})
  | ErrorBody _ (EngineMsg _) _ => None
  | SuccessBody text meta =>
      Some (JObj {[ "success" := JBool true; "analysis" := text;
                    "metadata" := metadata_json meta ]})
  end.

(** What the [fetch] of the page settles to when the route has answered [r]. *)
Definition received (r : response) : option fetch_result :=
  match body_json (content r) with
  | Some b => Some (Reply (status r) (Some (Frontend.jsonify b)))
  | None => None
  end.

(** ** Further scenarios *)

Module Scenarios.
Import Frontend.

Definition claude_config : provider_config :=
  {| name := "Claude (Direct)";
     apiUrl := "https://api.anthropic.com/v1/messages";
     model := "claude-sonnet-4-20250514";
     costPer1M_input := 3.00; costPer1M_output := 15.00;
     envKey := "ANTHROPIC_API_KEY" |}.

(** The upstream answers with a report. *)
Definition served : world :=
  Samples.world_with Samples.keys (Reply 200 (Some Samples.message_reply)).

(** The upstream cannot be reached. *)
Definition offline : world :=
  Samples.world_with Samples.keys (NetworkFailure "fetch failed").

(** The upstream answers 200 with a body that is not JSON. *)
Definition garbled : world := Samples.world_with Samples.keys (Reply 200 None).

(** The upstream answers with a block that carries no text, and no usage. *)
Definition tool_block : gmap string jsval := {[ "type" := JStr "tool_use" ]}.

Definition textless_fields : gmap string jsval :=
  {[ "content" := JArr [JObj tool_block] ]}.

Definition textless : world :=
  Samples.world_with Samples.keys (Reply 200 (Some (JObj textless_fields))).

(** The same deployment after both keys have been replaced. *)
Definition rotated_keys : gmap string string :=
  {[ "ANTHROPIC_API_KEY" := "sk-ant-next"; "OPENROUTER_API_KEY" := "sk-or-next" ]}.

Definition rotated : world :=
  Samples.world_with rotated_keys (Reply 200 (Some Samples.message_reply)).

(** Only the OpenRouter key is configured. *)
Definition openrouter_only : world :=
  Samples.world_with {[ "OPENROUTER_API_KEY" := "sk-or-test" ]}
    (Reply 200 (Some Samples.chat_reply)).

Definition request_array : jsval :=
  JObj {[ "responses" := Samples.answers; "provider" := JArr [JStr "claude"] ]}.

(** A message-style reply whose input counter is a string. *)
Definition text_counter : jsval :=
  JObj {[ "content" := JArr [JObj {[ "type" := JStr "text"; "text" := JStr "Report body" ]}];
          "usage" := JObj {[ "input_tokens" := JStr "5"; "output_tokens" := JNum 7 ]} ]}.

(** A visitor answers every question, naming two customer locations. *)
Definition all_answers : list action :=
  [ClickOption "startup_seed"; ClickNext;
   ClickOption "saas"; ClickNext;
   ClickOption "eu"; ClickNext;
   ClickOption "eu"; ClickOption "us"; ClickNext;
   ClickOption "in_product"; ClickNext;
   ClickOption "customer_support"; ClickNext;
   ClickOption "pii"; ClickNext;
   ClickOption "gdpr"; ClickNext;
   ClickOption "small_it"; ClickNext;
   ClickOption "10k_50k"; ClickNext;
   ClickOption "fast"].

(** The same visit, the list of providers arriving first and the visitor
    choosing the second provider offered at the end. *)
Definition visit (w : world) : list action :=
  (ProvidersSettle (Reply 200 (Some (jsonify (providers_listing w))))
   :: all_answers ++ [ClickProvider 1])%list.

End Scenarios.

(** Unfolds the operations of [M] in the goal and the hypotheses. *)
Ltac unfold_M := unfold bind, lift, emit, ret, throw in *.

(** * Properties *)

(** ** Conversions *)

(** [String(v)] is always computed: it gives a text or throws. *)
Lemma to_string_modelled v : to_string v ≠ Unmodelled.
Proof.
  revert v. fix IH 1. intros v.
  destruct v as [| | b | x | s | items | fields];
    [discriminate | discriminate | discriminate | discriminate | discriminate | |].
  - cbn [to_string]. revert items. fix IHl 1. intros [| a rest]; [discriminate |].
    assert (Ha : match a with JUndefined | JNull => Ret "" | _ => to_string a end
                 ≠ (Unmodelled : step string)).
    { pose proof (IH a) as Hia. destruct a; first [discriminate | exact Hia]. }
    pose proof (IHl rest) as Hrest.
    destruct rest as [| b rest]; [exact Ha |].
    destruct (match a with JUndefined | JNull => Ret "" | _ => to_string a end);
      [| discriminate | by destruct Ha].
    cbn [mbind step_bind].
    match goal with
    | H : ?j ≠ Unmodelled |- _ => destruct j; [discriminate | discriminate | by destruct H]
    end.
  - cbn [to_string]. destruct (fields !! "toString"); discriminate.
Qed.

(** The one exception [String(v)] throws. *)
Lemma to_string_throws v e :
  to_string v = Throw e → e = TypeError "Cannot convert object to primitive value".
Proof.
  revert v. fix IH 1. intros v.
  destruct v as [| | b | x | s | items | fields];
    [discriminate | discriminate | discriminate | discriminate | discriminate | |].
  - cbn [to_string]. revert items. fix IHl 1. intros [| a rest]; [discriminate |].
    assert (Ha : match a with JUndefined | JNull => Ret "" | _ => to_string a end = Throw e
                 → e = TypeError "Cannot convert object to primitive value").
    { pose proof (IH a) as Hia. destruct a; first [discriminate | exact Hia]. }
    pose proof (IHl rest) as Hrest.
    destruct rest as [| b rest]; [exact Ha |].
    destruct (match a with JUndefined | JNull => Ret "" | _ => to_string a end);
      [| exact Ha | discriminate].
    cbn [mbind step_bind]. clear Ha.
    match goal with
    | H : ?j = Throw e → _ |- _ => destruct j; [discriminate | exact H | discriminate]
    end.
  - cbn [to_string]. destruct (fields !! "toString"); [| discriminate].
    intros Heq. injection Heq as Heq. symmetry. exact Heq.
Qed.

Lemma get_opt_modelled v k : ∃ x, get_opt v k = Ret x.
Proof. destruct v; simpl; eauto. Qed.

Lemma to_number_never_throws v e : to_number v ≠ Throw e.
Proof.
  destruct v; cbn [to_number]; try done.
  - by destruct (to_string (JArr items)).
  - by destruct (to_string (JObj fields)).
Qed.

Lemma to_primitive_of_number v x :
  to_number v = Ret x →
  ∃ p, to_primitive v = Ret p ∧ to_number p = Ret x
       ∧ match p with JArr _ | JObj _ => False | _ => True end.
Proof.
  destruct v; cbn [to_number to_primitive]; try (intros [= <-]; eexists; done).
  - destruct (to_string (JArr items)) as [s | |]; [| done ..].
    intros [= <-]. by exists (JStr s).
  - destruct (to_string (JObj fields)) as [s | |]; [| done ..].
    intros [= <-]. by exists (JStr s).
Qed.

(** After the two divisions of lines 417-418 the sum of line 434 does not throw. *)
Lemma add_of_numbers a b x y :
  to_number a = Ret x → to_number b = Ret y → ∃ total, add a b = Ret total.
Proof.
  intros (p & Hp & Hpx & Hpp)%to_primitive_of_number
         (q & Hq & Hqy & Hqp)%to_primitive_of_number.
  unfold add. rewrite Hp, Hq. simpl.
  destruct p, q; simpl in *; try done; eauto.
Qed.

(** [a + b] when one side is a string. *)
Lemma add_string_left s o t :
  add (JStr s) o = Ret t → ∃ u, to_string o = Ret u ∧ t = JStr (s ++ u).
Proof.
  unfold add. cbn [to_primitive mbind step_bind].
  destruct o as [| | b | x | u | items | fields]; cbn [to_primitive mbind step_bind].
  1-5: intros [= <-]; eexists; split; reflexivity.
  - destruct (to_string (JArr items)) as [u | |]; cbn [mbind step_bind]; [| done ..].
    intros [= <-]. by exists u.
  - destruct (to_string (JObj fields)) as [u | |]; cbn [mbind step_bind]; [| done ..].
    intros [= <-]. by exists u.
Qed.

Lemma add_string_right i u t :
  add i (JStr u) = Ret t → ∃ s, to_string i = Ret s ∧ t = JStr (s ++ u).
Proof.
  unfold add.
  destruct i as [| | b | x | s | items | fields]; cbn [to_primitive mbind step_bind].
  1-5: intros [= <-]; eexists; split; reflexivity.
  - destruct (to_string (JArr items)) as [s | |]; cbn [mbind step_bind]; [| done ..].
    intros [= <-]. by exists s.
  - destruct (to_string (JObj fields)) as [s | |]; cbn [mbind step_bind]; [| done ..].
    intros [= <-]. by exists s.
Qed.

(** The one way out of the model: a division of lines 417-418 applied to a
    counter whose text cannot be made. *)
Lemma to_number_unmodelled v :
  to_number v = Unmodelled → ∃ e, to_string v = Throw e.
Proof.
  destruct v; cbn [to_number]; try done.
  - pose proof (to_string_modelled (JArr items)).
    destruct (to_string (JArr items)); [done | eauto | done].
  - pose proof (to_string_modelled (JObj fields)).
    destruct (to_string (JObj fields)); [done | eauto | done].
Qed.

(** ** The rate limiter *)

Section limiter.
Import RateLimiter.
Local Open Scope Z_scope.

Implicit Types (store : gmap string client_state) (client : string).

Lemma admit_lookup_other now client other store :
  other ≠ client → (admit_request now client store).2 !! other = store !! other.
Proof. intros Hne. unfold admit_request. simpl. by rewrite lookup_insert_ne. Qed.

Lemma admit_in_window now client store t0 k :
  store !! client = Some {| windowStart := t0; count := k |} →
  now - t0 < windowMs →
  admit_request now client store =
    (if max <? k + 1 then Rejected (windowMs - (now - t0)) else Allowed,
     <[client := {| windowStart := t0; count := k + 1 |}]> store).
Proof.
  intros Hs Hlt. unfold admit_request. rewrite Hs. simpl.
  destruct (Z.leb_spec windowMs (now - t0)); [lia | done].
Qed.

Lemma admit_opens now client store :
  opens_window store client now →
  admit_request now client store =
    (Allowed, <[client := {| windowStart := now; count := 1 |}]> store).
Proof.
  unfold opens_window, admit_request. destruct (store !! client) as [s|] eqn:Hs; simpl.
  - intros Hle. destruct (Z.leb_spec windowMs (now - windowStart s)); [done | lia].
  - done.
Qed.

Lemma run_cons c t rest store :
  run ((c, t) :: rest) store = run rest (admit_request t c store).2.
Proof. reflexivity. Qed.

(** Inside a window the record of a client keeps its start and counts the
    client's requests; requests of other clients leave it alone. *)
Lemma run_in_window client t0 requests : ∀ store k,
  store !! client = Some {| windowStart := t0; count := k |} →
  Forall (λ r, r.2 - t0 < windowMs) requests →
  run requests store !! client =
    Some {| windowStart := t0; count := k + requests_of client requests |}.
Proof.
  induction requests as [|[c t] rest IH]; intros store k Hs Hall.
  - unfold requests_of. simpl. by rewrite Z.add_0_r.
  - apply Forall_cons in Hall as [Ht Hall]. simpl in Ht.
    rewrite run_cons.
    destruct (decide (c = client)) as [->|Hne].
    + rewrite (admit_in_window _ _ _ t0 k) by done. simpl.
      rewrite (IH _ (k + 1)); [| by rewrite lookup_insert_eq | done].
      unfold requests_of. rewrite filter_cons_True by done. simpl length.
      do 2 f_equal. lia.
    + rewrite (IH _ k); [| by rewrite admit_lookup_other | done].
      unfold requests_of. by rewrite filter_cons_False.
Qed.

(** C2. A request of [client] at [t0] opens a 15-minute window and is
    admitted.  Let [later] be any requests, of any clients, that arrive in
    that window, and let [n] count those [client] has made so far, the first
    included.  The next request of [client] in the window is admitted while
    [n < 10], that is up to its tenth; from the eleventh on ([10 <= n]) it is
    rejected with [retryAfter = windowMs - (t - t0)], which is positive; and a
    request at or after [t0 + windowMs] is admitted again. *)
Theorem limiter_window store client t0 later t :
  opens_window store client t0 →
  Forall (λ r, t0 ≤ r.2 < t0 + windowMs) later →
  let store' := run ((client, t0) :: later) store in
  let n := 1 + requests_of client later in
  (admit_request t0 client store).1 = Allowed
  ∧ (t0 ≤ t < t0 + windowMs → n < 10 → (admit_request t client store').1 = Allowed)
  ∧ (t0 ≤ t < t0 + windowMs → 10 ≤ n →
       (admit_request t client store').1 = Rejected (windowMs - (t - t0))
       ∧ 0 < windowMs - (t - t0))
  ∧ (t0 + windowMs ≤ t → (admit_request t client store').1 = Allowed).
Proof.
  intros Hopen Hall store' n.
  assert (Hst : store' !! client = Some {| windowStart := t0; count := n |}).
  { unfold store'. rewrite run_cons, admit_opens by done. simpl.
    apply run_in_window; [by rewrite lookup_insert_eq |].
    eapply Forall_impl; [done |]. simpl. intros; lia. }
  split; [by rewrite admit_opens |].
  split; [| split].
  - intros Ht Hn. rewrite (admit_in_window _ _ _ t0 n) by (done || lia). simpl.
    destruct (Z.ltb_spec max (n + 1)); [unfold max in *; lia | done].
  - intros Ht Hn. rewrite (admit_in_window _ _ _ t0 n) by (done || lia). simpl.
    destruct (Z.ltb_spec max (n + 1)); [| unfold max in *; lia].
    split; [done | lia].
  - intros Ht. rewrite admit_opens; [done |].
    unfold opens_window. rewrite Hst. simpl. lia.
Qed.

(** Eleven requests of one client within eleven seconds, another client in
    between: the eleventh is rejected, fourteen minutes and fifty seconds
    before the window ends. *)
Lemma limiter_window_eleventh :
  (admit_request 10000 "203.0.113.7"
     (run [("203.0.113.7", 0); ("203.0.113.7", 1000); ("203.0.113.7", 2000);
           ("198.51.100.2", 2500); ("203.0.113.7", 3000); ("203.0.113.7", 4000);
           ("203.0.113.7", 5000); ("203.0.113.7", 6000); ("203.0.113.7", 7000);
           ("203.0.113.7", 8000); ("203.0.113.7", 9000)] ∅)).1
  = Rejected 890000
  ∧ 0 < 890000.
Proof.
  refine (proj1 (proj2 (proj2
    (limiter_window ∅ "203.0.113.7" 0
       [("203.0.113.7", 1000); ("203.0.113.7", 2000); ("198.51.100.2", 2500);
        ("203.0.113.7", 3000); ("203.0.113.7", 4000); ("203.0.113.7", 5000);
        ("203.0.113.7", 6000); ("203.0.113.7", 7000); ("203.0.113.7", 8000);
        ("203.0.113.7", 9000)] 10000 _ _))) _ _).
  - exact I.
  - repeat (constructor; [unfold windowMs; simpl; lia |]). constructor.
  - unfold windowMs. lia.
  - vm_compute. discriminate.
Defined.

End limiter.

(** ** The route: how [fetch] and the provider call come out *)

Section route.
Context (w : world).

Lemma call_upstream_ok req st data tr0 :
  upstream w req = Reply st (Some data) → response_ok st = true →
  call_upstream w req tr0 = (Ret data, (tr0 ++ [Fetch req])%list).
Proof. intros Hup Hok. unfold call_upstream. unfold_M. by rewrite Hup, Hok. Qed.

Lemma call_upstream_error req st payload tr0 :
  upstream w req = Reply st payload → response_ok st = false →
  call_upstream w req tr0 =
    (m ← upstream_error_message st payload; Throw (UserError m), (tr0 ++ [Fetch req])%list).
Proof.
  intros Hup Hok. unfold call_upstream. unfold_M. rewrite Hup, Hok.
  by destruct (upstream_error_message st payload).
Qed.

Lemma call_upstream_inv req tr0 data tr :
  call_upstream w req tr0 = (Ret data, tr) →
  ∃ st, upstream w req = Reply st (Some data) ∧ response_ok st = true
        ∧ tr = (tr0 ++ [Fetch req])%list.
Proof.
  unfold call_upstream. unfold_M. intros H.
  destruct (upstream w req) as [m | st payload]; [done |].
  destruct (response_ok st) eqn:Hok.
  - destruct payload as [d |]; [| done]. injection H as <- <-. eauto.
  - by destruct (upstream_error_message st payload).
Qed.

Lemma run_provider_inv provider responses cfg apiKey tr0 r tr :
  run_provider w provider responses cfg apiKey tr0 = (Ret r, tr) →
  ∃ br n c total,
    dispatch_branch provider = Ret br
    ∧ estimate n cfg = Ret c
    ∧ add (inputTokens n) (outputTokens n) = Ret total
    ∧ r = success w cfg n c total
    ∧ match request_for w br cfg apiKey responses with
      | Some req =>
          ∃ st data, upstream w req = Reply st (Some data) ∧ response_ok st = true
            ∧ normalize br data = Ret n
            ∧ tr = (tr0 ++ [LogProcessing provider; Fetch req;
                            LogCompleted provider (clock_end w - clock_start w) (cost_total c)])%list
      | None =>
          n = unassigned
          ∧ tr = (tr0 ++ [LogProcessing provider;
                          LogCompleted provider (clock_end w - clock_start w) (cost_total c)])%list
      end.
Proof.
  unfold run_provider. intros H. unfold bind at 1 2 in H. unfold emit at 1, lift at 1 in H.
  destruct (dispatch_branch provider) as [br | |] eqn:Hbr; try done.
  unfold bind at 1 in H.
  destruct (request_for w br cfg apiKey responses) as [req |] eqn:Hreq.
  - unfold bind at 1 in H.
    destruct (call_upstream w req _) as [[data | |] tr1] eqn:Hcall; try done.
    apply call_upstream_inv in Hcall as (st & Hup & Hok & ->).
    unfold_M. destruct (normalize br data) as [n | |] eqn:Hn; try done.
    destruct (estimate n cfg) as [c | |] eqn:Hc; try done.
    destruct (add (inputTokens n) (outputTokens n)) as [total | |] eqn:Ht; try done.
    injection H as <- <-. exists br, n, c, total. rewrite Hreq.
    repeat split; try done. exists st, data. repeat split; try done.
    by rewrite <- !app_assoc.
  - unfold_M.
    destruct (estimate unassigned cfg) as [c | |] eqn:Hc; try done.
    destruct (add (inputTokens unassigned) (outputTokens unassigned)) as [total | |] eqn:Ht; try done.
    injection H as <- <-. exists br, unassigned, c, total. rewrite Hreq.
    repeat split; try done. by rewrite <- !app_assoc.
Qed.

Lemma analyze_unfold reqBody responses provider :
  destructure reqBody = Ret (responses, provider) →
  analyze w reqBody =
    if invalid_responses responses then Responded invalid_request []
    else settle w (analyze_valid w responses provider []).
Proof.
  intros Hd. unfold analyze, analyze_try. unfold bind at 1, lift at 1.
  rewrite Hd. simpl. by destruct (invalid_responses responses).
Qed.

Lemma analyze_ready reqBody responses provider cfg apiKey :
  ready w reqBody responses provider cfg apiKey →
  analyze w reqBody = settle w (run_provider w provider responses cfg apiKey []).
Proof.
  intros [Hd Hv Hp Hk]. rewrite (analyze_unfold _ _ _ Hd), Hv.
  unfold analyze_valid. unfold bind at 1, lift at 1. by rewrite Hp, Hk.
Qed.

(** The three ways in which [analyze_valid] answers without an exception. *)
Lemma analyze_valid_inv responses provider tr0 r tr :
  analyze_valid w responses provider tr0 = (Ret r, tr) →
  (r = invalid_provider ∧ tr = tr0 ∧ lookup_provider provider = Ret Absent)
  ∨ (r = configuration_error ∧ tr = (tr0 ++ [LogMissingKey provider])%list)
  ∨ (∃ cfg apiKey, lookup_provider provider = Ret (Own cfg)
       ∧ env_truthy w (envKey cfg) = Some apiKey
       ∧ run_provider w provider responses cfg apiKey tr0 = (Ret r, tr)).
Proof.
  unfold analyze_valid. unfold bind at 1, lift at 1.
  destruct (lookup_provider provider) as [[cfg | key |] | |] eqn:Hl; try done.
  - destruct (env_truthy w (envKey cfg)) as [apiKey |] eqn:Hk.
    + intros H. right; right. eauto.
    + unfold_M. intros [= <- <-]. right; left. done.
  - destruct (env_truthy w "undefined") as [apiKey |] eqn:Hk.
    + unfold_M. by destruct (dispatch_branch provider).
    + unfold_M. intros [= <- <-]. right; left. done.
  - unfold_M. intros [= <- <-]. left. done.
Qed.

Lemma analyze_success_inv reqBody r tr :
  analyze w reqBody = Responded r tr → status r = 200%Z →
  ∃ responses provider cfg apiKey,
    ready w reqBody responses provider cfg apiKey
    ∧ run_provider w provider responses cfg apiKey [] = (Ret r, tr).
Proof.
  intros Ha Hs.
  destruct (destructure reqBody) as [[responses provider] | e |] eqn:Hd.
  - rewrite (analyze_unfold _ _ _ Hd) in Ha.
    destruct (invalid_responses responses) eqn:Hv.
    { injection Ha as <- <-. done. }
    destruct (analyze_valid w responses provider []) as [[x | e |] tr1] eqn:Hav;
      simpl in Ha; try done.
    + injection Ha as <- <-.
      apply analyze_valid_inv in Hav as [(-> & _) | [(-> & _) | (cfg & apiKey & Hl & Hk & Hrun)]];
        try done.
      exists responses, provider, cfg, apiKey. split; [by constructor | done].
    + injection Ha as <- <-. done.
  - unfold analyze, analyze_try in Ha. unfold bind at 1, lift at 1 in Ha.
    rewrite Hd in Ha. simpl in Ha. injection Ha as <- <-. done.
  - unfold analyze, analyze_try in Ha. unfold bind at 1, lift at 1 in Ha.
    rewrite Hd in Ha. done.
Qed.
End route.

(** ** Validation of [responses] (line 105) *)

Lemma invalid_responses_spec responses :
  invalid_responses responses = true ↔
  truthy responses = false ∨ typeof responses ≠ "object".
Proof.
  unfold invalid_responses. rewrite orb_true_iff, !negb_true_iff.
  destruct (String.eqb_spec (typeof responses) "object"); naive_solver.
Qed.

Lemma destructure_ret reqBody responses :
  get reqBody "responses" = Ret responses →
  ∃ provider, destructure reqBody = Ret (responses, provider).
Proof.
  unfold destructure. intros H. rewrite H. simpl.
  destruct reqBody; try done; simpl; eauto.
Qed.

Lemma destructure_responses reqBody responses provider :
  destructure reqBody = Ret (responses, provider) → get reqBody "responses" = Ret responses.
Proof.
  unfold destructure. destruct (get reqBody "responses") as [r | |]; simpl; try done.
  destruct (get reqBody "provider"); simpl; try done. by intros [= <- _].
Qed.

Lemma run_provider_status w provider responses cfg apiKey tr0 r tr :
  run_provider w provider responses cfg apiKey tr0 = (Ret r, tr) → status r = 200%Z.
Proof. intros H. apply run_provider_inv in H as (? & ? & ? & ? & _ & _ & _ & -> & _). done. Qed.

(** C1 (amended). The route answers 400 "Invalid request" exactly when
    [responses] reads as a falsy value (absent, [null], [false], [0], [NaN]
    or the empty string) or as a value whose [typeof] is not "object"; it has
    then performed no effect, so no upstream call.  Every object passes the
    test of line 105, the empty one included, and so does every array. *)
Theorem invalid_request_exactly (w : world) (reqBody : jsval) (tr : list event) :
  (analyze w reqBody = Responded invalid_request tr ↔
   tr = [] ∧ ∃ responses, get reqBody "responses" = Ret responses
                ∧ (truthy responses = false ∨ typeof responses ≠ "object"))
  ∧ (∀ fields, invalid_responses (JObj fields) = false)
  ∧ (∀ items, invalid_responses (JArr items) = false).
Proof.
  split; [| done]. split.
  - intros Ha. destruct (destructure reqBody) as [[responses provider] | e |] eqn:Hd.
    + rewrite (analyze_unfold _ _ _ _ Hd) in Ha.
      destruct (invalid_responses responses) eqn:Hv.
      * injection Ha as <-. split; [done |]. exists responses.
        split; [by eapply destructure_responses | by apply invalid_responses_spec].
      * destruct (analyze_valid w responses provider []) as [[x | e |] tr1] eqn:Hav;
          simpl in Ha; try done.
        injection Ha as -> <-.
        apply analyze_valid_inv in Hav as [(? & _) | [(? & _) | (? & ? & _ & _ & Hrun)]];
          try done.
        by apply run_provider_status in Hrun.
    + unfold analyze, analyze_try in Ha. unfold bind at 1, lift at 1 in Ha.
      rewrite Hd in Ha. done.
    + unfold analyze, analyze_try in Ha. unfold bind at 1, lift at 1 in Ha.
      rewrite Hd in Ha. done.
  - intros (-> & responses & Hg & Hv). apply invalid_responses_spec in Hv.
    destruct (destructure_ret _ _ Hg) as [provider Hd].
    by rewrite (analyze_unfold _ _ _ _ Hd), Hv.
Qed.

(** C1, counterexample: with [responses] the empty object and the key of
    the default provider configured, the request is dispatched upstream and
    answered with status 200. *)
Lemma empty_answers_dispatched :
  get Samples.request_empty_answers "responses" = Ret (JObj ∅)
  ∧ ∃ r tr req,
      analyze (Samples.world_with Samples.keys (Reply 200 (Some Samples.message_reply)))
        Samples.request_empty_answers = Responded r tr
      ∧ status r = 200%Z ∧ Fetch req ∈ tr.
Proof.
  split; [reflexivity |]. eexists _, _, _. split; [vm_compute; reflexivity |].
  split; [reflexivity |]. apply list_elem_of_further, list_elem_of_here.
Qed.

(** ** CORS *)

(** C3 (amended). The origin callback lets the request through exactly
    when the [Origin] header is absent, empty, or equal to an entry of
    [allowedOrigins].  Any other origin is answered by the error handler with
    status 500 and one of two fixed messages, chosen by [NODE_ENV] alone:
    neither names an origin of the allow-list. *)
Theorem cors_policy (w : world) (origin : option string) :
  (cors_middleware w origin = None ↔
     origin = None ∨ origin = Some "" ∨ ∃ o, origin = Some o ∧ o ∈ allowedOrigins w)
  ∧ (∀ r tr, cors_middleware w origin = Some (r, tr) →
       status r = 500%Z
       ∧ content r = ErrorBody "Internal server error"
                       (if bool_decide (env w !! "NODE_ENV" = Some "development")
                        then Msg "Not allowed by CORS"
                        else Msg "An unexpected error occurred") None).
Proof.
  unfold cors_middleware, cors_origin. destruct origin as [o |].
  - destruct (String.eqb_spec o "") as [-> | Hne]; simpl.
    + split; [naive_solver | done].
    + destruct (bool_decide_reflect (o ∈ allowedOrigins w)) as [Hin | Hout]; simpl.
      * split; [naive_solver | done].
      * split; [naive_solver |]. intros r tr [= <- <-]. simpl.
        split; [done |]. by case_bool_decide.
  - split; [naive_solver | done].
Qed.

(** C3, counterexample: an origin outside the allow-list is answered with
    status 500, which is neither 400 nor 403. *)
Lemma foreign_origin_gets_500 :
  ∃ r tr, cors_middleware (Samples.world_with Samples.keys (Reply 200 None))
            (Some "https://evil.example") = Some (r, tr)
          ∧ status r = 500%Z ∧ status r ≠ 400%Z ∧ status r ≠ 403%Z.
Proof. eexists _, _. split; [vm_compute; reflexivity |]. done. Qed.

(** ** Upstream failures *)

Lemma run_provider_upstream_error w provider responses cfg apiKey br req st payload tr0 :
  dispatch_branch provider = Ret br →
  request_for w br cfg apiKey responses = Some req →
  upstream w req = Reply st payload →
  response_ok st = false →
  run_provider w provider responses cfg apiKey tr0 =
    (m ← upstream_error_message st payload; Throw (UserError m),
     (tr0 ++ [LogProcessing provider; Fetch req])%list).
Proof.
  intros Hbr Hreq Hup Hok. unfold run_provider.
  unfold bind at 1 2, emit at 1, lift at 1. rewrite Hbr.
  unfold bind at 1. rewrite Hreq. unfold bind at 1.
  rewrite (call_upstream_error _ _ _ _ _ Hup Hok), <- app_assoc. simpl.
  by destruct (upstream_error_message st payload).
Qed.

Lemma generic_message_nonempty (st : Z) : String.eqb ("API error: " ++ pretty st) "" = false.
Proof. reflexivity. Qed.

Lemma upstream_error_message_none (st : Z) :
  upstream_error_message st None = Ret ("API error: " ++ pretty st).
Proof. reflexivity. Qed.

(** The message of lines 375-378 on a JSON body. *)
Lemma upstream_error_message_json (st : Z) data :
  data ≠ JNull → data ≠ JUndefined →
  ∃ err v, get data "error" = Ret err ∧ get_opt err "message" = Ret v
    ∧ upstream_error_message st (Some data)
      = if truthy v then to_string v else Ret ("API error: " ++ pretty st).
Proof.
  intros Hn Hu. unfold upstream_error_message. cbn [default from_option id].
  assert (He : ∃ err, get data "error" = Ret err) by (destruct data; simpl; eauto; done).
  destruct He as [err He]. destruct (get_opt_modelled err "message") as [v Hv].
  exists err, v. split_and!; [done | done |]. rewrite He. cbn [mbind step_bind].
  rewrite Hv. done.
Qed.

Lemma upstream_error_message_modelled (st : Z) payload :
  upstream_error_message st payload ≠ Unmodelled.
Proof.
  destruct payload as [data |]; [| done].
  assert (Hd : data = JNull ∨ data = JUndefined ∨ (data ≠ JNull ∧ data ≠ JUndefined))
    by (destruct data; auto).
  destruct Hd as [-> | [-> | [Hn Hu]]]; [done | done |].
  destruct (upstream_error_message_json st data Hn Hu) as (err & v & _ & _ & ->).
  destruct (truthy v); [apply to_string_modelled | done].
Qed.

(** C4 (amended). When the upstream answers a dispatched request with a
    status outside 200-299, the route always responds with status 500 and
    error "Analysis failed", after the processing log, the fetch and the
    error log.  The message is the generic "API error: <status>" when the
    body is not JSON, or is a JSON value other than [null] without a truthy
    [error.message]; it is the upstream's [error.message] when that is a
    non-empty string, and the text of that value when it is another truthy
    value (the decimal text of a number, say), with "An unexpected error
    occurred" in place of an empty text and the engine's message when the
    text cannot be made; and it is the engine's message for reading [error]
    of [null] when the body is the JSON [null]. *)
Theorem upstream_failure_is_500 (w : world) (reqBody responses provider : jsval)
    (cfg : provider_config) (apiKey : string) (br : branch) (req : fetch_request)
    (st : Z) (payload : option jsval) :
  ready w reqBody responses provider cfg apiKey →
  dispatch_branch provider = Ret br →
  request_for w br cfg apiKey responses = Some req →
  upstream w req = Reply st payload →
  response_ok st = false →
  let failed msg e :=
    Responded {| status := 500;
                 content := ErrorBody "Analysis failed" msg (Some (iso_time w)) |}
              [LogProcessing provider; Fetch req; LogAnalysisError e] in
  let generic := "API error: " ++ pretty st in
  (∃ msg e, analyze w reqBody = failed msg e)
  ∧ (payload = None → analyze w reqBody = failed (Msg generic) (UserError generic))
  ∧ (payload = Some JNull →
       let e := TypeError "Cannot read properties of null (reading 'error')" in
       analyze w reqBody = failed (EngineMsg e) e)
  ∧ (∀ data, payload = Some data → data ≠ JNull → data ≠ JUndefined →
       ∃ err v, get data "error" = Ret err ∧ get_opt err "message" = Ret v
         ∧ (truthy v = false →
            analyze w reqBody = failed (Msg generic) (UserError generic))
         ∧ (∀ m, v = JStr m → m ≠ "" →
            analyze w reqBody = failed (Msg m) (UserError m))
         ∧ (∀ text, truthy v = true → to_string v = Ret text →
            analyze w reqBody
            = failed (Msg (if String.eqb text "" then "An unexpected error occurred"
                           else text))
                     (UserError text))
         ∧ (∀ e, truthy v = true → to_string v = Throw e →
            ∃ what, e = TypeError what ∧ analyze w reqBody = failed (EngineMsg e) e)
         ∧ to_string v ≠ Unmodelled).
Proof.
  intros Hready Hbr Hreq Hup Hok failed generic.
  rewrite (analyze_ready _ _ _ _ _ _ Hready).
  rewrite (run_provider_upstream_error _ _ _ _ _ _ _ _ _ _ Hbr Hreq Hup Hok).
  unfold failed, generic. split_and!.
  - pose proof (upstream_error_message_modelled st payload) as Hm.
    destruct (upstream_error_message st payload) as [m | e |]; [| | done];
      simpl; eauto.
  - intros ->. by rewrite upstream_error_message_none.
  - by intros ->.
  - intros data -> Hn Hu.
    destruct (upstream_error_message_json st data Hn Hu) as (err & v & He & Hv & ->).
    exists err, v. split_and!; [done | done | | | | |].
    + by intros ->.
    + intros m -> Hne. cbn [truthy to_string].
      apply String.eqb_neq in Hne. rewrite Hne. simpl.
      unfold analysis_failed, catch_message. simpl. by rewrite Hne.
    + intros text -> ->. simpl. unfold analysis_failed, catch_message. simpl.
      by destruct (String.eqb text "").
    + intros e -> He'. rewrite He'. simpl.
      rewrite (to_string_throws _ _ He'). eauto.
    + apply to_string_modelled.
Qed.

(** The route on a 503 that carries the provider's own message, on a 429
    whose message is a number, and on a 502 whose body is [null]. *)
Lemma upstream_failure_is_500_witness :
  let claude :=
    claude_request Scenarios.claude_config "sk-ant-test" Samples.answers in
  let failed msg e :=
    Responded {| status := 500;
                 content := ErrorBody "Analysis failed" msg
                              (Some "2025-01-01T00:00:00.000Z") |}
      [LogProcessing (JStr "claude"); Fetch claude; LogAnalysisError e] in
  analyze (Samples.world_with Samples.keys (Reply 503 (Some Samples.overloaded)))
    Samples.request_claude
  = failed (Msg "Overloaded") (UserError "Overloaded")
  ∧ analyze (Samples.world_with Samples.keys
               (Reply 429 (Some (JObj {[ "error" := JObj {[ "message" := JNum 429 ]} ]}))))
      Samples.request_claude
    = failed (Msg "429") (UserError "429")
  ∧ analyze (Samples.world_with Samples.keys (Reply 502 (Some JNull)))
      Samples.request_claude
    = failed (EngineMsg (TypeError "Cannot read properties of null (reading 'error')"))
        (TypeError "Cannot read properties of null (reading 'error')").
Proof.
  cbv zeta. split_and!.
  - destruct (proj2 (proj2 (proj2
      (upstream_failure_is_500
         (Samples.world_with Samples.keys (Reply 503 (Some Samples.overloaded)))
         Samples.request_claude Samples.answers (JStr "claude") Scenarios.claude_config
         "sk-ant-test" ClaudeBranch _ 503%Z (Some Samples.overloaded)
         ltac:(constructor; reflexivity) eq_refl eq_refl eq_refl eq_refl)))
      Samples.overloaded eq_refl ltac:(discriminate) ltac:(discriminate))
      as (err & v & He & Hv & _ & Hm & _).
    vm_compute in He. injection He as <-. vm_compute in Hv. injection Hv as <-.
    exact (Hm "Overloaded" eq_refl ltac:(discriminate)).
  - destruct (proj2 (proj2 (proj2
      (upstream_failure_is_500
         (Samples.world_with Samples.keys
            (Reply 429 (Some (JObj {[ "error" := JObj {[ "message" := JNum 429 ]} ]}))))
         Samples.request_claude Samples.answers (JStr "claude") Scenarios.claude_config
         "sk-ant-test" ClaudeBranch _ 429%Z _
         ltac:(constructor; reflexivity) eq_refl eq_refl eq_refl eq_refl)))
      _ eq_refl ltac:(discriminate) ltac:(discriminate))
      as (err & v & He & Hv & _ & _ & Ht & _).
    vm_compute in He. injection He as <-. vm_compute in Hv. injection Hv as <-.
    exact (Ht "429" eq_refl ltac:(vm_compute; reflexivity)).
  - exact (proj1 (proj2 (proj2
      (upstream_failure_is_500
         (Samples.world_with Samples.keys (Reply 502 (Some JNull)))
         Samples.request_claude Samples.answers (JStr "claude") Scenarios.claude_config
         "sk-ant-test" ClaudeBranch _ 502%Z (Some JNull)
         ltac:(constructor; reflexivity) eq_refl eq_refl eq_refl eq_refl))) eq_refl).
Defined.

(** C4, counterexample: an upstream 503 with a JSON error body is answered
    with status 500, not 502. *)
Lemma overloaded_upstream_gets_500 :
  ∃ tr, analyze (Samples.world_with Samples.keys (Reply 503 (Some Samples.overloaded)))
          Samples.request_claude
        = Responded {| status := 500;
                       content := ErrorBody "Analysis failed" (Msg "Overloaded")
                                    (Some "2025-01-01T00:00:00.000Z") |} tr.
Proof. eexists. vm_compute. reflexivity. Qed.

(** ** Provider lookup *)

Lemma assoc_elem_of {A} (k : string) (l : list (string * A)) (a : A) :
  assoc k l = Some a → (k, a) ∈ l.
Proof.
  induction l as [|[k' a'] rest IH]; simpl; [done |].
  destruct (String.eqb_spec k k') as [-> | Hne].
  - intros [= ->]. apply list_elem_of_here.
  - intros H. apply list_elem_of_further. auto.
Qed.

Lemma lookup_provider_own provider cfg :
  lookup_provider provider = Ret (Own cfg) →
  ∃ id, to_string provider = Ret id ∧ assoc id PROVIDERS = Some cfg.
Proof.
  unfold lookup_provider. intros H.
  assert (Hk : (key ← to_string provider; Ret (lookup_key key)) = Ret (Own cfg)).
  { by destruct provider. }
  clear H. destruct (to_string provider) as [id | |]; simpl in Hk; try done.
  exists id. split; [done |]. injection Hk as Hk. unfold lookup_key in Hk.
  destruct (assoc id PROVIDERS); [by injection Hk as -> |].
  by case_bool_decide.
Qed.

Lemma lookup_provider_string id :
  lookup_provider (JStr id) = Ret (lookup_key id).
Proof. reflexivity. Qed.

Lemma inherited_no_branch provider key :
  lookup_provider provider = Ret (Inherited key) →
  ∀ br, dispatch_branch provider = Ret br → br = NoBranch.
Proof.
  intros Hl br Hbr. destruct provider as [| | b | x | s | items | fields]; try done.
  rewrite lookup_provider_string in Hl. injection Hl as Hl.
  unfold lookup_key in Hl. destruct (assoc s PROVIDERS) eqn:Ha; [done |].
  case_bool_decide as Hin; [| done].
  injection Hbr as <-.
  unfold object_prototype_keys in Hin.
  repeat (apply elem_of_cons in Hin as [-> | Hin]; [reflexivity |]).
  by apply elem_of_nil in Hin.
Qed.

(** C5, the failing input.  "constructor" is not an id of the table, yet
    [PROVIDERS["constructor"]] finds the built-in of [Object.prototype] and
    the guard of line 114 lets it through: in every environment the answer
    has status 500, and it is "Configuration error" whenever no variable
    named "undefined" is set. *)
Theorem inherited_key_is_not_rejected (w : world) :
  ("constructor" ∉ provider_ids)
  ∧ lookup_provider (JStr "constructor") = Ret (Inherited "constructor")
  ∧ ∃ r tr, analyze w Samples.request_constructor = Responded r tr
            ∧ status r = 500%Z
            ∧ (env_truthy w "undefined" = None →
               r = configuration_error ∧ tr = [LogMissingKey (JStr "constructor")]).
Proof.
  split.
  { intros Hin. unfold provider_ids in Hin. simpl in Hin.
    repeat (apply elem_of_cons in Hin as [Heq | Hin]; [discriminate Heq |]).
    by apply elem_of_nil in Hin. }
  split; [reflexivity |].
  assert (Hd : destructure Samples.request_constructor
               = Ret (Samples.answers, JStr "constructor")) by reflexivity.
  rewrite (analyze_unfold _ _ _ _ Hd).
  change (invalid_responses Samples.answers) with false. simpl.
  unfold analyze_valid. unfold bind at 1, lift at 1.
  change (lookup_provider (JStr "constructor")) with (Ret (Inherited "constructor")).
  simpl. destruct (env_truthy w "undefined") as [k |].
  - unfold_M. simpl. eexists _, _. split; [reflexivity |]. done.
  - unfold_M. simpl. eexists _, _. split; [reflexivity |]. done.
Qed.

(** An id found neither in the table nor on the prototype chain is
    answered with 400 and the list of the table's ids. *)
Lemma unknown_provider_rejected (w : world) reqBody responses id :
  destructure reqBody = Ret (responses, JStr id) →
  invalid_responses responses = false →
  lookup_key id = Absent →
  analyze w reqBody = Responded invalid_provider [].
Proof.
  intros Hd Hv Hl. rewrite (analyze_unfold _ _ _ _ Hd), Hv.
  unfold analyze_valid. unfold bind at 1, lift at 1.
  by rewrite lookup_provider_string, Hl.
Qed.

Lemma invalid_provider_message :
  content invalid_provider =
    ErrorBody "Invalid provider"
      (Msg "Provider must be one of: claude, openrouter_claude, openrouter_gpt4, openrouter_haiku")
      None.
Proof. reflexivity. Qed.

Lemma default_provider fields responses :
  fields !! "responses" = Some responses → fields !! "provider" = None →
  destructure (JObj fields) = Ret (responses, JStr "claude").
Proof. intros Hr Hp. unfold destructure. simpl. by rewrite Hr, Hp. Qed.

(** ** Missing credential *)

(** C6. For a request that passes validation and names an entry of the
    table whose environment variable is unset or empty, the route answers
    status 500 with the fixed "Configuration error" body, the same in both
    cases; it logs the provider and calls no upstream. *)
Theorem missing_credential (w : world) (reqBody responses provider : jsval)
    (cfg : provider_config) :
  destructure reqBody = Ret (responses, provider) →
  invalid_responses responses = false →
  lookup_provider provider = Ret (Own cfg) →
  env w !! envKey cfg = None ∨ env w !! envKey cfg = Some "" →
  analyze w reqBody =
    Responded {| status := 500;
                 content := ErrorBody "Configuration error"
                   (Msg "Server is not properly configured. Please contact administrator.")
                   None |}
              [LogMissingKey provider]
  ∧ ∀ req, Fetch req ∉ [LogMissingKey provider].
Proof.
  intros Hd Hv Hl Hk. split.
  - rewrite (analyze_unfold _ _ _ _ Hd), Hv.
    unfold analyze_valid. unfold bind at 1, lift at 1. rewrite Hl.
    assert (env_truthy w (envKey cfg) = None) as ->.
    { unfold env_truthy. by destruct Hk as [-> | ->]. }
    reflexivity.
  - intros req Hin. apply list_elem_of_singleton in Hin. done.
Qed.

(** The default provider with an empty environment. *)
Lemma missing_credential_witness :
  analyze (Samples.world_with ∅ (Reply 200 (Some Samples.message_reply)))
    Samples.request_claude
  = Responded {| status := 500;
                 content := ErrorBody "Configuration error"
                   (Msg "Server is not properly configured. Please contact administrator.")
                   None |}
              [LogMissingKey (JStr "claude")].
Proof.
  refine (proj1
    (missing_credential
       (Samples.world_with ∅ (Reply 200 (Some Samples.message_reply)))
       Samples.request_claude Samples.answers (JStr "claude") _ _ _ _ _)).
  - reflexivity.
  - reflexivity.
  - reflexivity.
  - left. reflexivity.
Defined.

(** ** Cost *)

Lemma estimate_inv n cfg c :
  estimate n cfg = Ret c →
  ∃ i o, to_number (inputTokens n) = Ret i ∧ to_number (outputTokens n) = Ret o
    ∧ cost_input c = (i / 1000000 * costPer1M_input cfg)%float
    ∧ cost_output c = (o / 1000000 * costPer1M_output cfg)%float
    ∧ cost_total c = (cost_input c + cost_output c)%float.
Proof.
  unfold estimate. destruct (to_number (inputTokens n)) as [i | |]; simpl; try done.
  destruct (to_number (outputTokens n)) as [o | |]; simpl; try done.
  intros [= <-]. exists i, o. done.
Qed.

(** C7. In every success response the cost figures follow from the token
    counts of the same response and the prices of an entry of the table:
    input tokens / 1,000,000 * input price, output tokens / 1,000,000 *
    output price, and their sum, all in binary64 arithmetic.  With 1000 and
    2000 tokens at 3 and 15 per million the three figures are the doubles
    nearest to 0.003, 0.03 and 0.033.  With zero tokens the estimate is zero
    for every entry of the table. *)
Theorem cost_of_success :
  (∀ w reqBody text meta tr,
     analyze w reqBody = Responded {| status := 200; content := SuccessBody text meta |} tr →
     ∃ id cfg i o,
       (id, cfg) ∈ PROVIDERS ∧ meta_provider meta = name cfg
       ∧ to_number (tokens_input (meta_tokens meta)) = Ret i
       ∧ to_number (tokens_output (meta_tokens meta)) = Ret o
       ∧ cost_input (meta_cost meta) = (i / 1000000 * costPer1M_input cfg)%float
       ∧ cost_output (meta_cost meta) = (o / 1000000 * costPer1M_output cfg)%float
       ∧ cost_total (meta_cost meta)
         = (cost_input (meta_cost meta) + cost_output (meta_cost meta))%float)
  ∧ (∀ text cfg, costPer1M_input cfg = 3%float → costPer1M_output cfg = 15%float →
       estimate {| analysisText := text; inputTokens := JNum 1000; outputTokens := JNum 2000 |} cfg
       = Ret {| cost_input := 0.003; cost_output := 0.03; cost_total := 0.033 |})
  ∧ Forall (λ p, ∀ text,
       estimate {| analysisText := text; inputTokens := JNum 0; outputTokens := JNum 0 |} p.2
       = Ret {| cost_input := 0; cost_output := 0; cost_total := 0 |}) PROVIDERS.
Proof.
  split; [| split].
  - intros w reqBody text meta tr Ha.
    apply analyze_success_inv in Ha as (responses & provider & cfg & apiKey & Hready & Hrun);
      [| done].
    apply run_provider_inv in Hrun as (br & n & c & total & _ & Hc & _ & Hr & _).
    injection Hr as -> ->. simpl.
    destruct (lookup_provider_own _ _ (ready_provider _ _ _ _ _ _ Hready)) as (id & _ & Hid).
    apply estimate_inv in Hc as (i & o & Hi & Ho & Hci & Hco & Hct).
    exists id, cfg, i, o. split; [by apply assoc_elem_of |]. done.
  - intros text cfg Hin Hout. unfold estimate. simpl. rewrite Hin, Hout.
    vm_compute. reflexivity.
  - repeat constructor.
Qed.

(** The scenario of a message-style reply with 500 and 800 tokens, priced
    for the direct provider. *)
Example claude_scenario :
  ∃ meta tr,
    analyze (Samples.world_with Samples.keys (Reply 200 (Some Samples.message_reply)))
      Samples.request_claude
    = Responded {| status := 200; content := SuccessBody (JStr "Report body") meta |} tr
    ∧ tokens_total (meta_tokens meta) = JNum 1300
    ∧ cost_total (meta_cost meta) = 0.0135%float.
Proof. eexists _, _. split; [vm_compute; reflexivity |]. split; reflexivity. Qed.

(** ** Normalization *)

Lemma run_provider_success w provider responses cfg apiKey br req st data n c total tr0 :
  dispatch_branch provider = Ret br →
  request_for w br cfg apiKey responses = Some req →
  upstream w req = Reply st (Some data) →
  response_ok st = true →
  normalize br data = Ret n →
  estimate n cfg = Ret c →
  add (inputTokens n) (outputTokens n) = Ret total →
  run_provider w provider responses cfg apiKey tr0 =
    (Ret (success w cfg n c total),
     (tr0 ++ [LogProcessing provider; Fetch req;
              LogCompleted provider (clock_end w - clock_start w) (cost_total c)])%list).
Proof.
  intros Hbr Hreq Hup Hok Hn Hc Ht. unfold run_provider.
  unfold bind at 1 2, emit at 1, lift at 1. rewrite Hbr.
  unfold bind at 1. rewrite Hreq. unfold bind at 1.
  rewrite (call_upstream_ok _ _ _ _ _ Hup Hok). unfold_M.
  rewrite Hn, Hc, Ht. by rewrite <- !app_assoc.
Qed.

(** What [run_provider] comes to once the upstream has answered with a
    JSON body and an ok status: a function of the branch, the body and the
    prices only, whatever the exception or the value. *)
Lemma run_provider_fetched w provider responses cfg apiKey br req st data tr0 :
  dispatch_branch provider = Ret br →
  request_for w br cfg apiKey responses = Some req →
  upstream w req = Reply st (Some data) →
  response_ok st = true →
  (run_provider w provider responses cfg apiKey tr0).1 =
    (n ← normalize br data;
     c ← estimate n cfg;
     total ← add (inputTokens n) (outputTokens n);
     Ret (success w cfg n c total)).
Proof.
  intros Hbr Hreq Hup Hok. unfold run_provider.
  unfold bind at 1 2, emit at 1, lift at 1. rewrite Hbr.
  unfold bind at 1. rewrite Hreq. unfold bind at 1.
  rewrite (call_upstream_ok _ _ _ _ _ Hup Hok). unfold_M.
  destruct (normalize br data) as [n | |]; simpl; try done.
  destruct (estimate n cfg) as [c | |]; simpl; try done.
  by destruct (add (inputTokens n) (outputTokens n)).
Qed.

Lemma normalize_message_style data blocks first text usage vi vo :
  get data "content" = Ret blocks → get_index blocks 0 = Ret first →
  get first "text" = Ret text → get data "usage" = Ret usage →
  get_opt usage "input_tokens" = Ret vi → get_opt usage "output_tokens" = Ret vo →
  normalize ClaudeBranch data
  = Ret {| analysisText := text;
           inputTokens := or_else vi (JNum 0); outputTokens := or_else vo (JNum 0) |}.
Proof.
  intros Hc Hf Ht Hu Hi Ho. unfold normalize.
  rewrite Hc. cbn [mbind step_bind]. rewrite Hf. cbn [mbind step_bind].
  rewrite Ht. cbn [mbind step_bind]. rewrite Hu. cbn [mbind step_bind].
  rewrite Hi. cbn [mbind step_bind]. by rewrite Ho.
Qed.

Lemma normalize_chat_style data choices first msg text usage vi vo :
  get data "choices" = Ret choices → get_index choices 0 = Ret first →
  get first "message" = Ret msg → get msg "content" = Ret text →
  get data "usage" = Ret usage →
  get_opt usage "prompt_tokens" = Ret vi → get_opt usage "completion_tokens" = Ret vo →
  normalize OpenRouterBranch data
  = Ret {| analysisText := text;
           inputTokens := or_else vi (JNum 0); outputTokens := or_else vo (JNum 0) |}.
Proof.
  intros Hc Hf Hm Ht Hu Hi Ho. unfold normalize.
  rewrite Hc. cbn [mbind step_bind]. rewrite Hf. cbn [mbind step_bind].
  rewrite Hm. cbn [mbind step_bind]. rewrite Ht. cbn [mbind step_bind].
  rewrite Hu. cbn [mbind step_bind]. rewrite Hi. cbn [mbind step_bind]. by rewrite Ho.
Qed.

(** The converse: what a normalized value was read from. *)
Lemma normalize_inv br data n :
  normalize br data = Ret n →
  match br with
  | ClaudeBranch =>
      ∃ blocks first usage vi vo,
        get data "content" = Ret blocks ∧ get_index blocks 0 = Ret first
        ∧ get first "text" = Ret (analysisText n) ∧ get data "usage" = Ret usage
        ∧ get_opt usage "input_tokens" = Ret vi ∧ get_opt usage "output_tokens" = Ret vo
        ∧ inputTokens n = or_else vi (JNum 0) ∧ outputTokens n = or_else vo (JNum 0)
  | OpenRouterBranch =>
      ∃ choices first msg usage vi vo,
        get data "choices" = Ret choices ∧ get_index choices 0 = Ret first
        ∧ get first "message" = Ret msg ∧ get msg "content" = Ret (analysisText n)
        ∧ get data "usage" = Ret usage
        ∧ get_opt usage "prompt_tokens" = Ret vi
        ∧ get_opt usage "completion_tokens" = Ret vo
        ∧ inputTokens n = or_else vi (JNum 0) ∧ outputTokens n = or_else vo (JNum 0)
  | NoBranch => n = unassigned
  end.
Proof.
  destruct br; unfold normalize.
  - destruct (get data "content") as [blocks | |] eqn:E1; cbn [mbind step_bind]; [| done ..].
    destruct (get_index blocks 0) as [first | |] eqn:E2; cbn [mbind step_bind]; [| done ..].
    destruct (get first "text") as [text | |] eqn:E3; cbn [mbind step_bind]; [| done ..].
    destruct (get data "usage") as [usage | |] eqn:E4; cbn [mbind step_bind]; [| done ..].
    destruct (get_opt usage "input_tokens") as [vi | |] eqn:E5; cbn [mbind step_bind]; [| done ..].
    destruct (get_opt usage "output_tokens") as [vo | |] eqn:E6; cbn [mbind step_bind]; [| done ..].
    intros [= <-]. eexists _, _, _, _, _. by split_and!.
  - destruct (get data "choices") as [choices | |] eqn:E7; cbn [mbind step_bind]; [| done ..].
    destruct (get_index choices 0) as [first | |] eqn:E8; cbn [mbind step_bind]; [| done ..].
    destruct (get first "message") as [msg | |] eqn:E9; cbn [mbind step_bind]; [| done ..].
    destruct (get msg "content") as [text | |] eqn:E10; cbn [mbind step_bind]; [| done ..].
    destruct (get data "usage") as [usage | |] eqn:E11; cbn [mbind step_bind]; [| done ..].
    destruct (get_opt usage "prompt_tokens") as [vi | |] eqn:E12; cbn [mbind step_bind]; [| done ..].
    destruct (get_opt usage "completion_tokens") as [vo | |] eqn:E13;
      cbn [mbind step_bind]; [| done ..].
    intros [= <-]. eexists _, _, _, _, _, _. by split_and!.
  - by intros [= <-].
Qed.

Lemma normalize_modelled br data : normalize br data ≠ Unmodelled.
Proof.
  assert (Hg : ∀ v k, get v k ≠ Unmodelled) by (by intros []).
  assert (Hi : ∀ v i, get_index v i ≠ Unmodelled) by (by intros []).
  assert (Ho : ∀ v k, get_opt v k ≠ Unmodelled) by (by intros []).
  destruct br; unfold normalize; [| | done].
  - pose proof (Hg data "content").
    destruct (get data "content") as [blocks | |]; cbn [mbind step_bind]; [| done ..].
    pose proof (Hi blocks 0%nat).
    destruct (get_index blocks 0) as [first | |]; cbn [mbind step_bind]; [| done ..].
    pose proof (Hg first "text").
    destruct (get first "text") as [text | |]; cbn [mbind step_bind]; [| done ..].
    pose proof (Hg data "usage").
    destruct (get data "usage") as [usage | |]; cbn [mbind step_bind]; [| done ..].
    pose proof (Ho usage "input_tokens").
    destruct (get_opt usage "input_tokens") as [vi | |]; cbn [mbind step_bind]; [| done ..].
    pose proof (Ho usage "output_tokens").
    by destruct (get_opt usage "output_tokens") as [vo | |].
  - pose proof (Hg data "choices").
    destruct (get data "choices") as [choices | |]; cbn [mbind step_bind]; [| done ..].
    pose proof (Hi choices 0%nat).
    destruct (get_index choices 0) as [first | |]; cbn [mbind step_bind]; [| done ..].
    pose proof (Hg first "message").
    destruct (get first "message") as [msg | |]; cbn [mbind step_bind]; [| done ..].
    pose proof (Hg msg "content").
    destruct (get msg "content") as [text | |]; cbn [mbind step_bind]; [| done ..].
    pose proof (Hg data "usage").
    destruct (get data "usage") as [usage | |]; cbn [mbind step_bind]; [| done ..].
    pose proof (Ho usage "prompt_tokens").
    destruct (get_opt usage "prompt_tokens") as [vi | |]; cbn [mbind step_bind]; [| done ..].
    pose proof (Ho usage "completion_tokens").
    by destruct (get_opt usage "completion_tokens") as [vo | |].
Qed.

Lemma normalized_of_settle w (s : step response) tr :
  normalized_of (settle w (s, tr)) =
    match s with
    | Ret r => normalized_of (Responded r tr)
    | _ => None
    end.
Proof. by destruct s. Qed.

(** Whether the cost and the total can be computed depends on the token
    values alone, not on the provider. *)
Lemma priced_cases w cfg n :
  match to_number (inputTokens n), to_number (outputTokens n) with
  | Ret _, Ret _ =>
      ∃ c total,
        (c ← estimate n cfg; total ← add (inputTokens n) (outputTokens n);
         Ret (success w cfg n c total)) = Ret (success w cfg n c total)
  | _, _ =>
      (c ← estimate n cfg; total ← add (inputTokens n) (outputTokens n);
       Ret (success w cfg n c total)) = Unmodelled
  end.
Proof.
  destruct n as [text i o]. unfold estimate. simpl.
  destruct (to_number i) as [x | e |] eqn:Hi; simpl;
    [| by apply to_number_never_throws in Hi | done].
  destruct (to_number o) as [y | e |] eqn:Ho; simpl;
    [| by apply to_number_never_throws in Ho | done].
  destruct (add_of_numbers _ _ _ _ Hi Ho) as [total ->]. simpl. eauto.
Qed.

(** C9. Take two requests, in any two worlds, that reach the same arm of
    the dispatch and receive the same JSON body with an ok status.  The text
    and the token counts of their responses are the same, and they are those
    [normalize] computes from the arm and the body: nothing else (environment,
    clock, answers, provider prices, an earlier request) enters. *)
Theorem normalization_depends_on_payload_only
    (w1 w2 : world) (body1 body2 responses1 responses2 provider1 provider2 : jsval)
    (cfg1 cfg2 : provider_config) (key1 key2 : string) (br : branch)
    (req1 req2 : fetch_request) (st1 st2 : Z) (data : jsval) :
  ready w1 body1 responses1 provider1 cfg1 key1 →
  ready w2 body2 responses2 provider2 cfg2 key2 →
  dispatch_branch provider1 = Ret br → dispatch_branch provider2 = Ret br →
  request_for w1 br cfg1 key1 responses1 = Some req1 →
  request_for w2 br cfg2 key2 responses2 = Some req2 →
  upstream w1 req1 = Reply st1 (Some data) → response_ok st1 = true →
  upstream w2 req2 = Reply st2 (Some data) → response_ok st2 = true →
  normalized_of (analyze w1 body1) = normalized_of (analyze w2 body2)
  ∧ (∀ n, normalized_of (analyze w1 body1) = Some n → normalize br data = Ret n)
  ∧ (∀ n, normalize br data = Ret n →
       analyze w1 body1 = OutsideModel ∨ normalized_of (analyze w1 body1) = Some n).
Proof.
  intros Hr1 Hr2 Hb1 Hb2 Hq1 Hq2 Hu1 Ho1 Hu2 Ho2.
  rewrite (analyze_ready _ _ _ _ _ _ Hr1), (analyze_ready _ _ _ _ _ _ Hr2).
  pose proof (run_provider_fetched _ _ _ _ _ _ _ _ _ [] Hb1 Hq1 Hu1 Ho1) as H1.
  pose proof (run_provider_fetched _ _ _ _ _ _ _ _ _ [] Hb2 Hq2 Hu2 Ho2) as H2.
  destruct (run_provider w1 provider1 responses1 cfg1 key1 []) as [x1 tr1].
  destruct (run_provider w2 provider2 responses2 cfg2 key2 []) as [x2 tr2].
  simpl in H1, H2. subst x1 x2.
  rewrite !normalized_of_settle.
  destruct (normalize br data) as [n | e |]; simpl; [| naive_solver | naive_solver].
  pose proof (priced_cases w1 cfg1 n) as P1. pose proof (priced_cases w2 cfg2 n) as P2.
  destruct (to_number (inputTokens n)), (to_number (outputTokens n));
    try (rewrite P1, P2; simpl; naive_solver).
  destruct P1 as (c1 & t1 & ->), P2 as (c2 & t2 & ->). destruct n. simpl. naive_solver.
Qed.

(** Two OpenRouter providers, different answers, environments and clocks,
    the same upstream body. *)
Lemma normalization_depends_on_payload_only_witness :
  normalized_of
    (analyze (Samples.world_with Samples.keys (Reply 200 (Some Samples.chat_reply)))
       Samples.request_haiku)
  = normalized_of
      (analyze {| env := {[ "OPENROUTER_API_KEY" := "another-key";
                            "FRONTEND_URL" := "https://example.org" ]};
                  upstream := λ _, Reply 201 (Some Samples.chat_reply);
                  clock_start := 5; clock_end := 6; iso_time := "later" |}
         (JObj {[ "responses" := JArr []; "provider" := JStr "openrouter_gpt4" ]})).
Proof.
  refine (proj1
    (normalization_depends_on_payload_only
       (Samples.world_with Samples.keys (Reply 200 (Some Samples.chat_reply)))
       {| env := {[ "OPENROUTER_API_KEY" := "another-key";
                    "FRONTEND_URL" := "https://example.org" ]};
          upstream := λ _, Reply 201 (Some Samples.chat_reply);
          clock_start := 5; clock_end := 6; iso_time := "later" |}
       Samples.request_haiku
       (JObj {[ "responses" := JArr []; "provider" := JStr "openrouter_gpt4" ]})
       Samples.answers (JArr []) (JStr "openrouter_haiku") (JStr "openrouter_gpt4")
       _ _ "sk-or-test" "another-key" OpenRouterBranch _ _ 200%Z 201%Z Samples.chat_reply
       _ _ _ _ _ _ _ _ _ _)).
  - constructor; reflexivity.
  - constructor; reflexivity.
  - reflexivity.
  - reflexivity.
  - reflexivity.
  - reflexivity.
  - reflexivity.
  - reflexivity.
  - reflexivity.
  - reflexivity.
Defined.

(** ** Dispatch *)

Lemma registered_branch id :
  id ∈ provider_ids →
  (id = "claude" ∧ String.prefix "openrouter_" id = false
     ∧ dispatch_branch (JStr id) = Ret ClaudeBranch)
  ∨ (id ≠ "claude" ∧ String.prefix "openrouter_" id = true
     ∧ dispatch_branch (JStr id) = Ret OpenRouterBranch).
Proof.
  unfold provider_ids. simpl. intros Hin.
  apply elem_of_cons in Hin as [-> | Hin]; [by left |].
  repeat (apply elem_of_cons in Hin as [-> | Hin]; [by right |]).
  by apply elem_of_nil in Hin.
Qed.

(** C10. Every id of the table is "claude", without the prefix
    "openrouter_", or carries that prefix and is not "claude"; the dispatch
    takes the first arm for the former and the second for the latter, never
    neither.  A success response to a request naming an id of the table
    therefore comes after exactly one [fetch], authenticated by [x-api-key]
    on the first arm and by a Bearer [Authorization] on the second, and its
    [analysis] is the value the arm has assigned: [data.content[0].text] of
    the upstream body on the first arm, [data.choices[0].message.content] on
    the second. *)
Theorem registered_providers_take_one_branch :
  Forall (λ id,
      (id = "claude" ∧ String.prefix "openrouter_" id = false
         ∧ dispatch_branch (JStr id) = Ret ClaudeBranch)
      ∨ (id ≠ "claude" ∧ String.prefix "openrouter_" id = true
         ∧ dispatch_branch (JStr id) = Ret OpenRouterBranch)) provider_ids
  ∧ (∀ w reqBody responses id r tr,
       destructure reqBody = Ret (responses, JStr id) → id ∈ provider_ids →
       analyze w reqBody = Responded r tr → status r = 200%Z →
       ∃ cfg apiKey br req st data n c text meta,
         assoc id PROVIDERS = Some cfg
         ∧ env_truthy w (envKey cfg) = Some apiKey
         ∧ dispatch_branch (JStr id) = Ret br
         ∧ request_for w br cfg apiKey responses = Some req
         ∧ (br = ClaudeBranch
              ∧ assoc "x-api-key" (headers req) = Some apiKey
              ∧ assoc "Authorization" (headers req) = None
              ∧ (∃ blocks first,
                   get data "content" = Ret blocks ∧ get_index blocks 0 = Ret first
                   ∧ get first "text" = Ret text)
            ∨ br = OpenRouterBranch
              ∧ assoc "Authorization" (headers req) = Some ("Bearer " ++ apiKey)
              ∧ assoc "x-api-key" (headers req) = None
              ∧ (∃ choices first msg,
                   get data "choices" = Ret choices ∧ get_index choices 0 = Ret first
                   ∧ get first "message" = Ret msg ∧ get msg "content" = Ret text))
         ∧ upstream w req = Reply st (Some data)
         ∧ normalize br data = Ret n
         ∧ analysisText n = text
         ∧ tr = [LogProcessing (JStr id); Fetch req;
                 LogCompleted (JStr id) (clock_end w - clock_start w) (cost_total c)]
         ∧ content r = SuccessBody text meta).
Proof.
  split.
  - apply Forall_forall. intros id Hin. by apply registered_branch.
  - intros w reqBody responses id r tr Hd Hin Ha Hs.
    apply analyze_success_inv in Ha as (responses' & provider & cfg & apiKey & Hready & Hrun);
      [| done].
    destruct Hready as [Hd' _ Hl Hk]. rewrite Hd in Hd'. injection Hd' as <- <-.
    rewrite lookup_provider_string in Hl. injection Hl as Hl. unfold lookup_key in Hl.
    destruct (assoc id PROVIDERS) as [cfg' |] eqn:Hid; [| by case_bool_decide].
    injection Hl as ->.
    apply run_provider_inv in Hrun as (br & n & c & total & Hbr & _ & _ & -> & Hreq).
    exists cfg, apiKey, br.
    destruct (registered_branch _ Hin) as [(_ & _ & Hb) | (_ & _ & Hb)];
      rewrite Hb in Hbr; injection Hbr as <-; cbn [request_for] in Hreq;
      destruct Hreq as (st & data & Hup & _ & Hn & ->);
      pose proof (normalize_inv _ _ _ Hn) as Hinv; cbn beta iota in Hinv.
    + destruct Hinv as (blocks & first & usage & vi & vo & ? & ? & ? & _).
      eexists _, st, data, n, c, (analysisText n), _.
      split_and!; [done | done | done | reflexivity | | done | done | done | done
                   | reflexivity].
      left. split_and!; [done | done | done |]. by exists blocks, first.
    + destruct Hinv as (choices & first & msg & usage & vi & vo & ? & ? & ? & ? & _).
      eexists _, st, data, n, c, (analysisText n), _.
      split_and!; [done | done | done | reflexivity | | done | done | done | done
                   | reflexivity].
      right. split_and!; [done | done | done |]. by exists choices, first, msg.
Qed.

(** * Further properties of the route *)

(** ** Traces *)

Lemma filter_fetch_app (a b : list event) :
  List.filter is_fetch (a ++ b) = (List.filter is_fetch a ++ List.filter is_fetch b)%list.
Proof. apply List.filter_app. Qed.

Lemma elem_of_fetch_filter (req : fetch_request) (tr : list event) :
  Fetch req ∈ tr ↔ Fetch req ∈ List.filter is_fetch tr.
Proof.
  rewrite !list_elem_of_In, List.filter_In. naive_solver.
Qed.

(** Whatever the provider call comes to, it has fetched at most once, and
    then the request of the arm it took. *)
Lemma run_provider_fetches w provider responses cfg apiKey tr0 x tr :
  run_provider w provider responses cfg apiKey tr0 = (x, tr) →
  ∃ mid, tr = (tr0 ++ mid)%list
    ∧ (List.filter is_fetch mid = []
       ∨ ∃ br req, dispatch_branch provider = Ret br
           ∧ request_for w br cfg apiKey responses = Some req
           ∧ List.filter is_fetch mid = [Fetch req]).
Proof.
  unfold run_provider. unfold bind at 1 2, emit at 1, lift at 1.
  destruct (dispatch_branch provider) as [br | e |] eqn:Hbr;
    try (intros [= <- <-]; exists [LogProcessing provider]; split; [done | by left]).
  unfold bind at 1.
  destruct (request_for w br cfg apiKey responses) as [req |] eqn:Hreq.
  - unfold bind at 1, call_upstream. unfold_M.
    destruct (upstream w req) as [m | st payload].
    { intros [= <- <-]. exists [LogProcessing provider; Fetch req].
      rewrite <- app_assoc. split; [done |]. right. eauto. }
    destruct (response_ok st).
    + destruct payload as [data |].
      * destruct (normalize br data) as [n | |];
          [| intros [= <- <-]; exists [LogProcessing provider; Fetch req];
             rewrite <- app_assoc; split; [done | right; eauto] ..].
        destruct (estimate n cfg) as [c | |];
          [| intros [= <- <-]; exists [LogProcessing provider; Fetch req];
             rewrite <- app_assoc; split; [done | right; eauto] ..].
        destruct (add (inputTokens n) (outputTokens n)) as [total | |];
          intros [= <- <-];
          exists [LogProcessing provider; Fetch req;
                  LogCompleted provider (clock_end w - clock_start w) (cost_total c)];
          rewrite <- !app_assoc; (split; [done | right; eauto]).
      * intros [= <- <-]. exists [LogProcessing provider; Fetch req].
        rewrite <- app_assoc. split; [done | right; eauto].
    + destruct (upstream_error_message st payload);
        intros [= <- <-]; exists [LogProcessing provider; Fetch req];
        rewrite <- app_assoc; (split; [done | right; eauto]).
  - unfold_M.
    destruct (estimate unassigned cfg) as [c | |];
      [| intros [= <- <-]; exists [LogProcessing provider]; split; [done | by left] ..].
    destruct (add (inputTokens unassigned) (outputTokens unassigned)) as [total | |];
      intros [= <- <-];
      exists [LogProcessing provider;
              LogCompleted provider (clock_end w - clock_start w) (cost_total c)];
      rewrite <- !app_assoc; (split; [done | by left]).
Qed.

(** The same for everything after line 105: a fetch needs an entry of the
    table and its key. *)
Lemma analyze_valid_fetches w responses provider x tr :
  analyze_valid w responses provider [] = (x, tr) →
  List.filter is_fetch tr = []
  ∨ ∃ cfg apiKey br req,
      lookup_provider provider = Ret (Own cfg)
      ∧ env_truthy w (envKey cfg) = Some apiKey
      ∧ dispatch_branch provider = Ret br
      ∧ request_for w br cfg apiKey responses = Some req
      ∧ List.filter is_fetch tr = [Fetch req].
Proof.
  unfold analyze_valid. unfold bind at 1, lift at 1.
  destruct (lookup_provider provider) as [[cfg | key |] | |] eqn:Hl;
    try (intros [= <- <-]; by left).
  - destruct (env_truthy w (envKey cfg)) as [apiKey |] eqn:Hk.
    + intros H. apply run_provider_fetches in H as (mid & -> & [Hn | (br & req & ? & ? & Hf)]).
      * by left.
      * right. exists cfg, apiKey, br, req. done.
    + unfold_M. intros [= <- <-]. by left.
  - destruct (env_truthy w "undefined") as [apiKey |].
    + unfold_M. destruct (dispatch_branch provider); intros [= <- <-]; by left.
    + unfold_M. intros [= <- <-]. by left.
Qed.

Lemma analyze_cases w reqBody :
  (∃ e, destructure reqBody = Throw e
        ∧ analyze w reqBody = Responded (analysis_failed w e) [LogAnalysisError e])
  ∨ (destructure reqBody = Unmodelled ∧ analyze w reqBody = OutsideModel)
  ∨ (∃ responses provider, destructure reqBody = Ret (responses, provider)
       ∧ invalid_responses responses = true
       ∧ analyze w reqBody = Responded invalid_request [])
  ∨ (∃ responses provider, destructure reqBody = Ret (responses, provider)
       ∧ invalid_responses responses = false
       ∧ analyze w reqBody = settle w (analyze_valid w responses provider [])).
Proof.
  destruct (destructure reqBody) as [[responses provider] | e |] eqn:Hd.
  - rewrite (analyze_unfold _ _ _ _ Hd).
    destruct (invalid_responses responses) eqn:Hv; [right; right; left | right; right; right];
      eauto.
  - left. exists e. split; [done |].
    unfold analyze, analyze_try. unfold bind at 1, lift at 1. by rewrite Hd.
  - right; left. split; [done |].
    unfold analyze, analyze_try. unfold bind at 1, lift at 1. by rewrite Hd.
Qed.

(** X1. Whatever the route answers, it has called [fetch] at most once; and
    a call is made only for a request that destructures, whose [responses]
    pass line 105, whose provider is an own entry of [PROVIDERS] and whose
    key is set.  The request sent is the one of the arm taken: the URL and
    the model of that entry, [max_tokens] 4000, and the answers received. *)
Theorem upstream_called_only_when_ready (w : world) (reqBody : jsval)
    (r : response) (tr : list event) :
  analyze w reqBody = Responded r tr →
  (List.length (List.filter is_fetch tr) ≤ 1)%nat
  ∧ ∀ req, Fetch req ∈ tr →
      ∃ responses provider cfg apiKey br,
        ready w reqBody responses provider cfg apiKey
        ∧ dispatch_branch provider = Ret br
        ∧ request_for w br cfg apiKey responses = Some req
        ∧ url req = apiUrl cfg ∧ body_model req = model cfg
        ∧ body_max_tokens req = 4000%Z ∧ body_answers req = responses.
Proof.
  intros Ha.
  destruct (analyze_cases w reqBody)
    as [(e & _ & H) | [(_ & H) | [(? & ? & _ & _ & H) | (responses & provider & Hd & Hv & H)]]];
    rewrite H in Ha; try done.
  - injection Ha as <- <-. split; [simpl; lia |]. intros req Hin.
    apply list_elem_of_singleton in Hin. done.
  - injection Ha as <- <-. split; [simpl; lia |]. intros req Hin. by apply elem_of_nil in Hin.
  - destruct (analyze_valid w responses provider []) as [x tr1] eqn:Hav.
    assert (Hf : List.filter is_fetch tr = List.filter is_fetch tr1).
    { destruct x; simpl in Ha; try done; injection Ha as <- <-; [done |].
      rewrite filter_fetch_app. simpl. by rewrite app_nil_r. }
    apply analyze_valid_fetches in Hav as [Hn | (cfg & apiKey & br & req0 & Hl & Hk & Hbr & Hreq & Hone)].
    + rewrite Hf, Hn. split; [simpl; lia |]. intros req Hin.
      apply elem_of_fetch_filter in Hin. rewrite Hf, Hn in Hin. by apply elem_of_nil in Hin.
    + rewrite Hf, Hone. split; [simpl; lia |]. intros req Hin.
      apply elem_of_fetch_filter in Hin. rewrite Hf, Hone in Hin.
      apply list_elem_of_singleton in Hin. injection Hin as ->.
      exists responses, provider, cfg, apiKey, br. split; [by constructor |].
      split; [done |]. split; [done |].
      destruct br; simpl in Hreq; try done; by injection Hreq as <-.
Qed.

(** ** Status codes *)

Lemma settle_inv w (x : step response) tr1 r tr :
  settle w (x, tr1) = Responded r tr →
  (x = Ret r ∧ tr = tr1)
  ∨ (∃ e, x = Throw e ∧ r = analysis_failed w e ∧ tr = (tr1 ++ [LogAnalysisError e])%list).
Proof. destruct x; simpl; intros [= <- <-]; eauto. Qed.

(** The responses of the route. *)
Lemma analyze_responses w reqBody r tr :
  analyze w reqBody = Responded r tr →
  (r = invalid_request ∧ tr = []) ∨ (r = invalid_provider ∧ tr = [])
  ∨ r = configuration_error
  ∨ (∃ e, r = analysis_failed w e ∧ last tr = Some (LogAnalysisError e))
  ∨ (∃ cfg n c total, r = success w cfg n c total).
Proof.
  intros Ha.
  destruct (analyze_cases w reqBody)
    as [(e & _ & H) | [(_ & H) | [(? & ? & _ & _ & H) | (responses & provider & Hd & Hv & H)]]];
    rewrite H in Ha; try done.
  - injection Ha as <- <-. right; right; right; left. eauto.
  - injection Ha as <- <-. by left.
  - destruct (analyze_valid w responses provider []) as [x tr1] eqn:Hav.
    apply settle_inv in Ha as [(-> & ->) | (e & -> & -> & ->)].
    + apply analyze_valid_inv in Hav
        as [(-> & -> & _) | [(-> & _) | (cfg & apiKey & _ & _ & Hrun)]].
      * right; left. done.
      * right; right; left. done.
      * apply run_provider_inv in Hrun as (? & n & c & total & _ & _ & _ & -> & _).
        right; right; right; right. eauto.
    + right; right; right; left. exists e. split; [done |]. by rewrite last_snoc.
Qed.

(** X2. The route answers with 200, 400 or 500 and nothing else.  200 comes
    with the success body and only with it; 400 is one of the two validation
    responses and comes with no effect at all (no log, no fetch); 500 is the
    configuration error or the response of the [catch], whose last effect is
    the [console.error] of the exception caught. *)
Theorem route_status_codes (w : world) (reqBody : jsval) (r : response) (tr : list event) :
  analyze w reqBody = Responded r tr →
  (status r = 200 ∨ status r = 400 ∨ status r = 500)%Z
  ∧ (status r = 200%Z ↔ ∃ text meta, content r = SuccessBody text meta)
  ∧ (status r = 400%Z → tr = [] ∧ (r = invalid_request ∨ r = invalid_provider))
  ∧ (status r = 500%Z →
       r = configuration_error
       ∨ ∃ e, r = analysis_failed w e ∧ last tr = Some (LogAnalysisError e)).
Proof.
  intros Ha. pose proof (analyze_responses _ _ _ _ Ha) as Hcases.
  destruct Hcases as [(-> & ->) | [(-> & ->) | [-> | [(e & -> & Hl) | (cfg & n & c & total & ->)]]]];
    simpl.
  - split; [auto |]. split; [split; [done | by intros (? & ? & ?)] |].
    split; [auto | done].
  - split; [auto |]. split; [split; [done | by intros (? & ? & ?)] |].
    split; [auto | done].
  - split; [auto |]. split; [split; [done | by intros (? & ? & ?)] |].
    split; [done | auto].
  - split; [auto |]. split; [split; [done | by intros (? & ? & ?)] |].
    split; [done |]. intros _. right. eauto.
  - split; [auto |]. split; [split; [eauto | done] |]. split; done.
Qed.

(** ** Success *)

Lemma dispatch_branch_string provider br :
  dispatch_branch provider = Ret br → ∃ id, provider = JStr id.
Proof. destruct provider; simpl; try done. eauto. Qed.

(** X3. A 200 has one history only: the provider is a string naming an own
    entry of [PROVIDERS] whose key is set, the upstream answered the one
    request with an ok status and a JSON body, that body normalized, the
    costs were computed, and the trace is exactly: the processing log, the
    fetch, the completion log. *)
Theorem success_follows_one_upstream_reply (w : world) (reqBody : jsval)
    (r : response) (tr : list event) :
  analyze w reqBody = Responded r tr → status r = 200%Z →
  ∃ responses id cfg apiKey br req st data n c total,
    ready w reqBody responses (JStr id) cfg apiKey
    ∧ assoc id PROVIDERS = Some cfg
    ∧ dispatch_branch (JStr id) = Ret br
    ∧ request_for w br cfg apiKey responses = Some req
    ∧ upstream w req = Reply st (Some data) ∧ response_ok st = true
    ∧ normalize br data = Ret n
    ∧ estimate n cfg = Ret c
    ∧ add (inputTokens n) (outputTokens n) = Ret total
    ∧ r = success w cfg n c total
    ∧ tr = [LogProcessing (JStr id); Fetch req;
            LogCompleted (JStr id) (clock_end w - clock_start w) (cost_total c)].
Proof.
  intros Ha Hs.
  apply analyze_success_inv in Ha as (responses & provider & cfg & apiKey & Hready & Hrun);
    [| done].
  apply run_provider_inv in Hrun as (br & n & c & total & Hbr & Hc & Ht & -> & Hreq).
  destruct (dispatch_branch_string _ _ Hbr) as [id ->].
  pose proof (ready_provider _ _ _ _ _ _ Hready) as Hl.
  rewrite lookup_provider_string in Hl. injection Hl as Hl. unfold lookup_key in Hl.
  destruct (assoc id PROVIDERS) as [cfg' |] eqn:Hid; [| by case_bool_decide].
  injection Hl as ->.
  assert (Hin : id ∈ provider_ids).
  { apply assoc_elem_of in Hid. unfold provider_ids.
    apply list_elem_of_fmap. by exists (id, cfg). }
  destruct (registered_branch _ Hin) as [(_ & _ & Hb) | (_ & _ & Hb)];
    rewrite Hb in Hbr; injection Hbr as <-; simpl in Hreq;
    destruct Hreq as (st & data & Hup & Hok & Hn & ->);
    eexists responses, id, cfg, apiKey, _, _, st, data, n, c, total;
    split_and!; try done.
Qed.

(** ** Failures after dispatch *)

Lemma run_provider_network_failure w provider responses cfg apiKey br req m tr0 :
  dispatch_branch provider = Ret br →
  request_for w br cfg apiKey responses = Some req →
  upstream w req = NetworkFailure m →
  run_provider w provider responses cfg apiKey tr0 =
    (Throw (NetworkError m), (tr0 ++ [LogProcessing provider; Fetch req])%list).
Proof.
  intros Hbr Hreq Hup. unfold run_provider.
  unfold bind at 1 2, emit at 1, lift at 1. rewrite Hbr.
  unfold bind at 1. rewrite Hreq. unfold bind at 1, call_upstream. unfold_M.
  by rewrite Hup, <- app_assoc.
Qed.

Lemma run_provider_unusable w provider responses cfg apiKey br req st payload e tr0 :
  dispatch_branch provider = Ret br →
  request_for w br cfg apiKey responses = Some req →
  upstream w req = Reply st payload → response_ok st = true →
  match payload with
  | Some data => normalize br data = Throw e
  | None => e = SyntaxError
  end →
  run_provider w provider responses cfg apiKey tr0 =
    (Throw e, (tr0 ++ [LogProcessing provider; Fetch req])%list).
Proof.
  intros Hbr Hreq Hup Hok He. unfold run_provider.
  unfold bind at 1 2, emit at 1, lift at 1. rewrite Hbr.
  unfold bind at 1. rewrite Hreq. unfold bind at 1, call_upstream. unfold_M.
  rewrite Hup, Hok, <- app_assoc. destruct payload as [data |].
  - by rewrite He.
  - by rewrite He.
Qed.

(** X4. When [fetch] itself rejects (no connection, DNS failure), the
    route answers 500 "Analysis failed" with the message of the rejection,
    or "An unexpected error occurred" when that message is empty, after the
    processing log, the fetch and the error log. *)
Theorem network_failure_is_500 (w : world) (reqBody responses provider : jsval)
    (cfg : provider_config) (apiKey : string) (br : branch) (req : fetch_request)
    (m : string) :
  ready w reqBody responses provider cfg apiKey →
  dispatch_branch provider = Ret br →
  request_for w br cfg apiKey responses = Some req →
  upstream w req = NetworkFailure m →
  analyze w reqBody =
    Responded {| status := 500;
                 content := ErrorBody "Analysis failed"
                   (Msg (if String.eqb m "" then "An unexpected error occurred" else m))
                   (Some (iso_time w)) |}
              [LogProcessing provider; Fetch req; LogAnalysisError (NetworkError m)].
Proof.
  intros Hready Hbr Hreq Hup. rewrite (analyze_ready _ _ _ _ _ _ Hready).
  rewrite (run_provider_network_failure _ _ _ _ _ _ _ _ _ Hbr Hreq Hup). simpl.
  unfold analysis_failed, catch_message. simpl. by destruct (String.eqb m "").
Qed.

(** X5. An ok upstream status does not make a success.  A body that is not
    JSON gives 500 with the engine's syntax error; a JSON body on which
    normalization throws gives 500 with that exception; and normalization
    does throw on a message-style body whose [content] is missing, [null],
    empty or starts with [null], and on a chat-style body whose [choices] is
    missing, [null], empty, or starts with [null] or with an item whose
    [message] is missing or [null], whatever follows the first item. *)
Theorem unusable_reply_is_500 (w : world) (reqBody responses provider : jsval)
    (cfg : provider_config) (apiKey : string) (br : branch) (req : fetch_request) (st : Z) :
  ready w reqBody responses provider cfg apiKey →
  dispatch_branch provider = Ret br →
  request_for w br cfg apiKey responses = Some req →
  response_ok st = true →
  (upstream w req = Reply st None →
     analyze w reqBody =
       Responded {| status := 500;
                    content := ErrorBody "Analysis failed" (EngineMsg SyntaxError)
                                 (Some (iso_time w)) |}
                 [LogProcessing provider; Fetch req; LogAnalysisError SyntaxError])
  ∧ (∀ data e, upstream w req = Reply st (Some data) → normalize br data = Throw e →
       analyze w reqBody =
         Responded (analysis_failed w e)
                   [LogProcessing provider; Fetch req; LogAnalysisError e])
  ∧ (∀ fields,
       fields !! "content" = None ∨ fields !! "content" = Some JNull
       ∨ fields !! "content" = Some (JArr [])
       ∨ (∃ rest, fields !! "content" = Some (JArr (JNull :: rest))) →
       ∃ what, normalize ClaudeBranch (JObj fields) = Throw (TypeError what))
  ∧ (∀ fields,
       fields !! "choices" = None ∨ fields !! "choices" = Some JNull
       ∨ fields !! "choices" = Some (JArr [])
       ∨ (∃ rest, fields !! "choices" = Some (JArr (JNull :: rest)))
       ∨ (∃ item rest,
            fields !! "choices" = Some (JArr (item :: rest))
            ∧ (get item "message" = Ret JUndefined ∨ get item "message" = Ret JNull)) →
       ∃ what, normalize OpenRouterBranch (JObj fields) = Throw (TypeError what)).
Proof.
  intros Hready Hbr Hreq Hok. rewrite (analyze_ready _ _ _ _ _ _ Hready).
  split; [| split; [| split]].
  - intros Hup.
    by rewrite (run_provider_unusable _ _ _ _ _ _ _ _ None SyntaxError _ Hbr Hreq Hup Hok).
  - intros data e Hup He.
    by rewrite (run_provider_unusable _ _ _ _ _ _ _ _ (Some data) e _ Hbr Hreq Hup Hok).
  - intros fields [H | [H | [H | [rest H]]]]; simpl; rewrite H; simpl; eauto.
  - intros fields [H | [H | [H | [[rest H] | (item & rest & H & [Hm | Hm])]]]];
      simpl; rewrite H; simpl; eauto; rewrite Hm; simpl; eauto.
Qed.

(** ** Providers that are not strings *)

(** X6. A provider sent as a one-element array is converted to its element
    by the property lookup of line 113 and so passes as a registered
    provider with its key; the dispatch of line 356 then calls
    [provider.startsWith], which an array does not have: the route answers
    500 "Analysis failed" after the processing log, and fetches nothing. *)
Theorem array_provider_fails_after_lookup (w : world) (reqBody responses : jsval)
    (id : string) (cfg : provider_config) (apiKey : string) :
  destructure reqBody = Ret (responses, JArr [JStr id]) →
  invalid_responses responses = false →
  assoc id PROVIDERS = Some cfg →
  env_truthy w (envKey cfg) = Some apiKey →
  lookup_provider (JArr [JStr id]) = Ret (Own cfg)
  ∧ analyze w reqBody =
      Responded {| status := 500;
                   content := ErrorBody "Analysis failed"
                     (EngineMsg (TypeError "provider.startsWith is not a function"))
                     (Some (iso_time w)) |}
                [LogProcessing (JArr [JStr id]);
                 LogAnalysisError (TypeError "provider.startsWith is not a function")].
Proof.
  intros Hd Hv Hid Hk.
  assert (Hl : lookup_provider (JArr [JStr id]) = Ret (Own cfg)).
  { change (lookup_provider (JArr [JStr id])) with (Ret (lookup_key id)).
    unfold lookup_key. by rewrite Hid. }
  split; [done |].
  rewrite (analyze_ready w reqBody responses (JArr [JStr id]) cfg apiKey) by (by constructor).
  reflexivity.
Qed.

(** ** Validation of [provider] (line 114) *)

Lemma lookup_key_absent id :
  lookup_key id = Absent ↔ (id ∉ provider_ids) ∧ (id ∉ object_prototype_keys).
Proof.
  unfold lookup_key. destruct (assoc id PROVIDERS) as [cfg |] eqn:Ha.
  - split; [done |]. intros [Hn _]. exfalso. apply Hn.
    apply assoc_elem_of in Ha. unfold provider_ids. apply list_elem_of_fmap. by exists (id, cfg).
  - case_bool_decide as Hin.
    + split; [done | naive_solver].
    + split; [| done]. intros _. split; [| done].
      unfold provider_ids. intros Hp. apply list_elem_of_fmap in Hp as ([id' cfg] & -> & Hp).
      simpl in Ha. unfold PROVIDERS in Hp.
      repeat (apply elem_of_cons in Hp as [[= -> ->] | Hp]; [done |]).
      by apply elem_of_nil in Hp.
Qed.

(** X7. The route answers 400 "Invalid provider" exactly when the body
    destructures, [responses] pass line 105 and [PROVIDERS[provider]] is
    undefined, and then nothing is logged or fetched.  For a string that
    means: neither an id of the table nor a property name of
    [Object.prototype].  Every number, [null], every boolean and every object
    without a [toString] field of its own is rejected this way. *)
Theorem invalid_provider_exactly (w : world) (reqBody : jsval) (tr : list event) :
  (analyze w reqBody = Responded invalid_provider tr ↔
   tr = [] ∧ ∃ responses provider,
     destructure reqBody = Ret (responses, provider)
     ∧ invalid_responses responses = false
     ∧ lookup_provider provider = Ret Absent)
  ∧ (∀ id, lookup_provider (JStr id) = Ret Absent ↔
           (id ∉ provider_ids) ∧ (id ∉ object_prototype_keys))
  ∧ (∀ x, lookup_provider (JNum x) = Ret Absent)
  ∧ lookup_provider JNull = Ret Absent
  ∧ (∀ b, lookup_provider (JBool b) = Ret Absent)
  ∧ (∀ fields, fields !! "toString" = None → lookup_provider (JObj fields) = Ret Absent).
Proof.
  split; [| split; [| split; [| split; [| split]]]].
  - split.
    + intros Ha.
      destruct (analyze_cases w reqBody)
        as [(e & _ & H) | [(_ & H) | [(? & ? & _ & _ & H) | (responses & provider & Hd & Hv & H)]]];
        rewrite H in Ha; try done.
      destruct (analyze_valid w responses provider []) as [x tr1] eqn:Hav.
      apply settle_inv in Ha as [(-> & ->) | (e & -> & ? & ->)]; [| done].
      apply analyze_valid_inv in Hav
        as [(_ & -> & Hl) | [(? & _) | (cfg & apiKey & _ & _ & Hrun)]]; try done.
      * split; [done |]. eauto.
      * by apply run_provider_status in Hrun.
    + intros (-> & responses & provider & Hd & Hv & Hl).
      rewrite (analyze_unfold _ _ _ _ Hd), Hv.
      unfold analyze_valid. unfold bind at 1, lift at 1. by rewrite Hl.
  - intros id. rewrite lookup_provider_string, <- lookup_key_absent.
    split; [by intros [= ->] | by intros ->].
  - done.
  - done.
  - by intros [].
  - intros fields Hf. unfold lookup_provider. simpl. by rewrite Hf.
Qed.

(** ** Replies without text *)

(** X8. On the direct arm, an ok reply whose first content block is an
    object without [text] (a tool-use block, say) and that has no [usage] is
    a success: the route answers 200 and its [analysis] is [undefined]. *)
Theorem textless_block_succeeds (w : world) (reqBody responses provider : jsval)
    (cfg : provider_config) (apiKey : string) (req : fetch_request) (st : Z)
    (fields block : gmap string jsval) (rest : list jsval) :
  ready w reqBody responses provider cfg apiKey →
  dispatch_branch provider = Ret ClaudeBranch →
  request_for w ClaudeBranch cfg apiKey responses = Some req →
  upstream w req = Reply st (Some (JObj fields)) → response_ok st = true →
  fields !! "content" = Some (JArr (JObj block :: rest)) →
  block !! "text" = None →
  fields !! "usage" = None →
  ∃ meta tr,
    analyze w reqBody =
      Responded {| status := 200; content := SuccessBody JUndefined meta |} tr.
Proof.
  intros Hready Hbr Hreq Hup Hok Hc Ht Hu.
  assert (Hn : normalize ClaudeBranch (JObj fields)
               = Ret {| analysisText := JUndefined; inputTokens := JNum 0;
                        outputTokens := JNum 0 |}).
  { simpl. rewrite Hc. simpl. rewrite Ht, Hu. reflexivity. }
  rewrite (analyze_ready _ _ _ _ _ _ Hready).
  erewrite (run_provider_success _ _ _ _ _ _ _ _ _ _ _ (JNum 0) _ Hbr Hreq Hup Hok Hn);
    [| reflexivity | reflexivity].
  simpl. eauto.
Qed.

(** ** The key stays inside the outbound request *)

Lemma request_for_same_but_headers w1 w2 br cfg k1 k2 responses req1 :
  request_for w1 br cfg k1 responses = Some req1 →
  ∃ req2, request_for w2 br cfg k2 responses = Some req2 ∧ same_but_headers req1 req2.
Proof.
  destruct br; simpl; intros [= <-]; eexists; (split; [reflexivity | done]).
Qed.

Lemma request_for_none w1 w2 br cfg k1 k2 responses :
  request_for w1 br cfg k1 responses = None → request_for w2 br cfg k2 responses = None.
Proof. by destruct br. Qed.

Lemma run_provider_observable w1 w2 provider responses cfg k1 k2 :
  clock_start w1 = clock_start w2 → clock_end w1 = clock_end w2 → iso_time w1 = iso_time w2 →
  (∀ req1 req2, same_but_headers req1 req2 → upstream w1 req1 = upstream w2 req2) →
  (run_provider w1 provider responses cfg k1 []).1
  = (run_provider w2 provider responses cfg k2 []).1
  ∧ console (run_provider w1 provider responses cfg k1 []).2
    = console (run_provider w2 provider responses cfg k2 []).2.
Proof.
  intros Hs He Hi Hup. unfold run_provider, call_upstream, success. unfold_M.
  rewrite Hs, He, Hi.
  destruct (dispatch_branch provider) as [br | e |]; [| done | done].
  destruct (request_for w1 br cfg k1 responses) as [req1 |] eqn:Hr1.
  - destruct (request_for_same_but_headers w1 w2 _ _ _ k2 _ _ Hr1) as (req2 & -> & Hsame).
    rewrite <- (Hup _ _ Hsame).
    destruct (upstream w1 req1) as [m | st payload]; [done |].
    destruct (response_ok st).
    + destruct payload as [data |]; [| done].
      destruct (normalize br data) as [n | |]; [| done | done].
      destruct (estimate n cfg) as [c | |]; [| done | done].
      by destruct (add (inputTokens n) (outputTokens n)) as [total | |].
    + by destruct (upstream_error_message st payload).
  - rewrite (request_for_none w1 w2 _ _ _ k2 _ Hr1).
    destruct (estimate unassigned cfg) as [c | |]; [| done | done].
    by destruct (add (inputTokens unassigned) (outputTokens unassigned)) as [total | |].
Qed.

Lemma observable_settle w1 w2 (x1 x2 : step response) tr1 tr2 :
  iso_time w1 = iso_time w2 → x1 = x2 → console tr1 = console tr2 →
  observable (settle w1 (x1, tr1)) = observable (settle w2 (x2, tr2)).
Proof.
  intros Hi <- Htr. destruct x1 as [r | e |]; simpl; [by rewrite Htr | | done].
  unfold analysis_failed, console. rewrite !List.filter_app. fold (console tr1) (console tr2).
  by rewrite Hi, Htr.
Qed.

Lemma analyze_valid_eq w responses provider tr0 :
  analyze_valid w responses provider tr0 =
    match lookup_provider provider with
    | Ret (Own cfg) =>
        match env_truthy w (envKey cfg) with
        | Some apiKey => run_provider w provider responses cfg apiKey tr0
        | None => (Ret configuration_error, (tr0 ++ [LogMissingKey provider])%list)
        end
    | Ret (Inherited _) =>
        match env_truthy w "undefined" with
        | Some _ =>
            (match dispatch_branch provider with
             | Ret _ => Throw (TypeError "Cannot read properties of undefined (reading 'input')")
             | Throw e => Throw e
             | Unmodelled => Unmodelled
             end, (tr0 ++ [LogProcessing provider])%list)
        | None => (Ret configuration_error, (tr0 ++ [LogMissingKey provider])%list)
        end
    | Ret Absent => (Ret invalid_provider, tr0)
    | Throw e => (Throw e, tr0)
    | Unmodelled => (Unmodelled, tr0)
    end.
Proof.
  unfold analyze_valid. unfold bind at 1, lift at 1.
  destruct (lookup_provider provider) as [[cfg | key |] | |]; try done.
  - by destruct (env_truthy w (envKey cfg)).
  - destruct (env_truthy w "undefined"); [| done].
    unfold_M. by destruct (dispatch_branch provider).
Qed.

Lemma analyze_eq w reqBody :
  analyze w reqBody =
    match destructure reqBody with
    | Ret (responses, provider) =>
        if invalid_responses responses then Responded invalid_request []
        else settle w (analyze_valid w responses provider [])
    | Throw e => Responded (analysis_failed w e) [LogAnalysisError e]
    | Unmodelled => OutsideModel
    end.
Proof.
  destruct (destructure reqBody) as [[responses provider] | e |] eqn:Hd.
  - by apply analyze_unfold.
  - unfold analyze, analyze_try. unfold bind at 1, lift at 1. by rewrite Hd.
  - unfold analyze, analyze_try. unfold bind at 1, lift at 1. by rewrite Hd.
Qed.

(** X9. The response and the console of a run depend on which environment
    variables are set, not on the values of the keys: two deployments with
    the same variables set, the same clock, and upstreams that answer alike
    requests differing at most in their headers, give the same response and
    the same console lines for every request body. *)
Theorem key_values_invisible (w1 w2 : world) (reqBody : jsval) :
  (∀ k, env_truthy w1 k = None ↔ env_truthy w2 k = None) →
  clock_start w1 = clock_start w2 → clock_end w1 = clock_end w2 → iso_time w1 = iso_time w2 →
  (∀ req1 req2, same_but_headers req1 req2 → upstream w1 req1 = upstream w2 req2) →
  observable (analyze w1 reqBody) = observable (analyze w2 reqBody).
Proof.
  intros Hkeys Hs He Hi Hup. rewrite !analyze_eq.
  destruct (destructure reqBody) as [[responses provider] | e |];
    [| by unfold analysis_failed; rewrite Hi | done].
  destruct (invalid_responses responses); [done |].
  rewrite !analyze_valid_eq.
  destruct (lookup_provider provider) as [[cfg | key |] | e |];
    [| | done | by simpl; unfold analysis_failed; rewrite Hi | done].
  - pose proof (Hkeys (envKey cfg)) as Hk.
    destruct (env_truthy w1 (envKey cfg)) as [k1 |], (env_truthy w2 (envKey cfg)) as [k2 |];
      try done; try (exfalso; naive_solver).
    destruct (run_provider_observable w1 w2 provider responses cfg k1 k2 Hs He Hi Hup)
      as [Hx Htr].
    destruct (run_provider w1 provider responses cfg k1 []) as [x1 tr1].
    destruct (run_provider w2 provider responses cfg k2 []) as [x2 tr2].
    by apply observable_settle.
  - pose proof (Hkeys "undefined") as Hk.
    destruct (env_truthy w1 "undefined") as [k1 |], (env_truthy w2 "undefined") as [k2 |];
      try done; try (exfalso; naive_solver).
    destruct (dispatch_branch provider); simpl; try done;
      unfold analysis_failed; by rewrite Hi.
Qed.

(** ** Token counts *)

Lemma estimate_unmodelled n cfg :
  estimate n cfg = Unmodelled →
  to_number (inputTokens n) = Unmodelled ∨ to_number (outputTokens n) = Unmodelled.
Proof.
  unfold estimate.
  destruct (to_number (inputTokens n)) as [x | e |] eqn:Hi; cbn [mbind step_bind];
    [| done | by left].
  destruct (to_number (outputTokens n)) as [y | e |] eqn:Ho; cbn [mbind step_bind];
    [done | done | by right].
Qed.

Lemma destructure_modelled reqBody : destructure reqBody ≠ Unmodelled.
Proof. by destruct reqBody. Qed.

Lemma dispatch_branch_modelled provider : dispatch_branch provider ≠ Unmodelled.
Proof. by destruct provider. Qed.

Lemma lookup_provider_modelled provider : lookup_provider provider ≠ Unmodelled.
Proof.
  unfold lookup_provider. pose proof (to_string_modelled provider).
  destruct provider; try done; by destruct (to_string _).
Qed.

Lemma run_provider_unmodelled w provider responses cfg apiKey tr0 tr :
  run_provider w provider responses cfg apiKey tr0 = (Unmodelled, tr) →
  ∃ br req st data n,
    dispatch_branch provider = Ret br
    ∧ request_for w br cfg apiKey responses = Some req
    ∧ upstream w req = Reply st (Some data) ∧ response_ok st = true
    ∧ normalize br data = Ret n ∧ estimate n cfg = Unmodelled.
Proof.
  unfold run_provider. unfold bind at 1 2, emit at 1, lift at 1.
  pose proof (dispatch_branch_modelled provider) as Hbm.
  destruct (dispatch_branch provider) as [br | e |] eqn:Hbr; [| done | done].
  unfold bind at 1.
  destruct (request_for w br cfg apiKey responses) as [req |] eqn:Hreq.
  - unfold bind at 1, call_upstream. unfold_M.
    destruct (upstream w req) as [m | st payload] eqn:Hup; [done |].
    destruct (response_ok st) eqn:Hok.
    + destruct payload as [data |]; [| done].
      pose proof (normalize_modelled br data) as Hnm.
      destruct (normalize br data) as [n | e |] eqn:Hn; [| done | done].
      destruct (estimate n cfg) as [c | e |] eqn:Hc; [| done |].
      * apply estimate_inv in Hc as Hc'.
        destruct Hc' as (x & y & Hx & Hy & _).
        destruct (add_of_numbers _ _ _ _ Hx Hy) as [total ->]. done.
      * intros _. by exists br, req, st, data, n.
    + pose proof (upstream_error_message_modelled st payload).
      by destruct (upstream_error_message st payload).
  - by destruct br.
Qed.

Lemma analyze_outside_model w reqBody :
  analyze w reqBody = OutsideModel →
  ∃ responses provider cfg apiKey br req st data n,
    ready w reqBody responses provider cfg apiKey
    ∧ dispatch_branch provider = Ret br
    ∧ request_for w br cfg apiKey responses = Some req
    ∧ upstream w req = Reply st (Some data) ∧ response_ok st = true
    ∧ normalize br data = Ret n ∧ estimate n cfg = Unmodelled.
Proof.
  rewrite analyze_eq. pose proof (destructure_modelled reqBody) as Hdm.
  destruct (destructure reqBody) as [[responses provider] | e |] eqn:Hd; [| done | done].
  destruct (invalid_responses responses) eqn:Hv; [done |].
  rewrite analyze_valid_eq. pose proof (lookup_provider_modelled provider) as Hlm.
  destruct (lookup_provider provider) as [[cfg | key |] | e |] eqn:Hl; [| | done ..].
  - destruct (env_truthy w (envKey cfg)) as [apiKey |] eqn:Hk; [| done].
    destruct (run_provider w provider responses cfg apiKey []) as [x tr] eqn:Hrun.
    destruct x as [r | e |]; [done | done |]. intros _.
    apply run_provider_unmodelled in Hrun as (br & req & st & data & n & ?).
    exists responses, provider, cfg, apiKey, br, req, st, data, n.
    split; [by constructor | done].
  - destruct (env_truthy w "undefined"); [| done].
    pose proof (dispatch_branch_modelled provider).
    by destruct (dispatch_branch provider).
Qed.

(** C8. When the upstream answers a dispatched request with an ok status
    and a JSON body from which the arm reads the text, and the two counters
    the arm reads ([input_tokens] and [output_tokens], or [prompt_tokens] and
    [completion_tokens]) are missing or falsy, the route answers 200 with that
    text and with input, output and total tokens all 0; when each counter
    is a number or missing, the tokens are those numbers, 0 for a missing
    one, and the total is their sum.  In every success response the total is
    the [+] of line 434 applied to the input and the output shown: the sum of
    two numbers, and the joined texts as soon as one of them is a string.
    The only runs this embedding leaves out are those in which a division
    of lines 417-418 is applied to a counter whose text cannot be made. *)
Theorem missing_usage_defaults_to_zero :
  let reads (br : branch) (data text : jsval) : Prop :=
    match br with
    | ClaudeBranch =>
        ∃ blocks first,
          get data "content" = Ret blocks ∧ get_index blocks 0 = Ret first
          ∧ get first "text" = Ret text
    | OpenRouterBranch =>
        ∃ choices first msg,
          get data "choices" = Ret choices ∧ get_index choices 0 = Ret first
          ∧ get first "message" = Ret msg ∧ get msg "content" = Ret text
    | NoBranch => False
    end in
  let counters (br : branch) : string * string :=
    match br with
    | ClaudeBranch => ("input_tokens", "output_tokens")
    | OpenRouterBranch => ("prompt_tokens", "completion_tokens")
    | NoBranch => ("", "")
    end in
  (∀ w reqBody responses provider cfg apiKey br req st data text usage vi vo,
     ready w reqBody responses provider cfg apiKey →
     dispatch_branch provider = Ret br →
     request_for w br cfg apiKey responses = Some req →
     upstream w req = Reply st (Some data) →
     response_ok st = true →
     reads br data text →
     get data "usage" = Ret usage →
     get_opt usage (counters br).1 = Ret vi →
     get_opt usage (counters br).2 = Ret vo →
     (truthy vi = false → truthy vo = false →
        ∃ meta tr,
          analyze w reqBody
          = Responded {| status := 200; content := SuccessBody text meta |} tr
          ∧ tokens_input (meta_tokens meta) = JNum 0
          ∧ tokens_output (meta_tokens meta) = JNum 0
          ∧ tokens_total (meta_tokens meta) = JNum 0)
     ∧ (∀ x y, or_else vi (JNum 0) = JNum x → or_else vo (JNum 0) = JNum y →
        ∃ meta tr,
          analyze w reqBody
          = Responded {| status := 200; content := SuccessBody text meta |} tr
          ∧ tokens_input (meta_tokens meta) = JNum x
          ∧ tokens_output (meta_tokens meta) = JNum y
          ∧ tokens_total (meta_tokens meta) = JNum (x + y)%float))
  ∧ (∀ w reqBody text meta tr,
       analyze w reqBody = Responded {| status := 200; content := SuccessBody text meta |} tr →
       let i := tokens_input (meta_tokens meta) in
       let o := tokens_output (meta_tokens meta) in
       let t := tokens_total (meta_tokens meta) in
       add i o = Ret t
       ∧ (∀ x y, i = JNum x → o = JNum y → t = JNum (x + y)%float)
       ∧ (∀ s, i = JStr s → ∃ u, to_string o = Ret u ∧ t = JStr (s ++ u))
       ∧ (∀ u, o = JStr u → ∃ s, to_string i = Ret s ∧ t = JStr (s ++ u)))
  ∧ (∀ w reqBody,
       analyze w reqBody = OutsideModel →
       ∃ responses provider cfg apiKey br req st data n v e,
         ready w reqBody responses provider cfg apiKey
         ∧ dispatch_branch provider = Ret br
         ∧ request_for w br cfg apiKey responses = Some req
         ∧ upstream w req = Reply st (Some data) ∧ response_ok st = true
         ∧ normalize br data = Ret n
         ∧ (v = inputTokens n ∨ v = outputTokens n)
         ∧ to_string v = Throw e).
Proof.
  intros reads counters.
  assert (Hnum : ∀ w reqBody responses provider cfg apiKey br req st data text usage
                   vi vo x y,
     ready w reqBody responses provider cfg apiKey →
     dispatch_branch provider = Ret br →
     request_for w br cfg apiKey responses = Some req →
     upstream w req = Reply st (Some data) →
     response_ok st = true →
     reads br data text →
     get data "usage" = Ret usage →
     get_opt usage (counters br).1 = Ret vi →
     get_opt usage (counters br).2 = Ret vo →
     or_else vi (JNum 0) = JNum x → or_else vo (JNum 0) = JNum y →
     ∃ meta tr,
       analyze w reqBody
       = Responded {| status := 200; content := SuccessBody text meta |} tr
       ∧ tokens_input (meta_tokens meta) = JNum x
       ∧ tokens_output (meta_tokens meta) = JNum y
       ∧ tokens_total (meta_tokens meta) = JNum (x + y)%float).
  { intros w reqBody responses provider cfg apiKey br req st data text usage vi vo x y
      Hready Hbr Hreq Hup Hok Hreads Hu Hi Ho Hx Hy.
    assert (Hn : normalize br data
                 = Ret {| analysisText := text;
                          inputTokens := JNum x; outputTokens := JNum y |}).
    { rewrite <- Hx, <- Hy. destruct br; simpl in Hreads, Hi, Ho; [| | done].
      - destruct Hreads as (blocks & first & ? & ? & ?).
        by eapply normalize_message_style.
      - destruct Hreads as (choices & first & msg & ? & ? & ? & ?).
        by eapply normalize_chat_style. }
    rewrite (analyze_ready _ _ _ _ _ _ Hready).
    erewrite (run_provider_success _ _ _ _ _ _ _ _ _ _ _ _ _ Hbr Hreq Hup Hok Hn);
      [| reflexivity | reflexivity].
    simpl. eexists _, _. split; [reflexivity |]. done. }
  split_and!.
  - intros w reqBody responses provider cfg apiKey br req st data text usage vi vo
      Hready Hbr Hreq Hup Hok Hreads Hu Hi Ho.
    split; [| by eauto].
    intros Hfi Hfo.
    destruct (Hnum w reqBody responses provider cfg apiKey br req st data text usage
                vi vo 0%float 0%float) as (meta & tr & Ha & Hti & Hto & Htt); try done.
    + unfold or_else. by rewrite Hfi.
    + unfold or_else. by rewrite Hfo.
    + exists meta, tr. split_and!; [done | done | done |]. rewrite Htt. reflexivity.
  - intros w reqBody text meta tr Ha i o t.
    apply analyze_success_inv in Ha as (responses & provider & cfg & apiKey & _ & Hrun);
      [| done].
    apply run_provider_inv in Hrun as (br & n & c & total & _ & _ & Ht & Hr & _).
    injection Hr as -> ->. subst i o t. cbn [meta_tokens tokens_input tokens_output
                                             tokens_total].
    split_and!; [done | | |].
    + intros x y Hx Hy. rewrite Hx, Hy in Ht. by injection Ht as <-.
    + intros s Hs. rewrite Hs in Ht. by apply add_string_left.
    + intros u Hu. rewrite Hu in Ht. by apply add_string_right.
  - intros w reqBody Ha.
    apply analyze_outside_model in Ha
      as (responses & provider & cfg & apiKey & br & req & st & data & n
          & ? & ? & ? & ? & ? & ? & He).
    apply estimate_unmodelled in He as [He | He];
      apply to_number_unmodelled in He as [e He];
      eexists responses, provider, cfg, apiKey, br, req, st, data, n, _, e;
      split_and!; try done; [by left | by right].
Qed.

(** A message-style reply without [usage]; the one with 500 and 800 tokens;
    and one whose input counter is the string "5" beside the number 7. *)
Lemma missing_usage_defaults_to_zero_witness :
  (∃ meta tr,
     analyze (Samples.world_with Samples.keys (Reply 200 (Some Samples.message_reply_no_usage)))
       Samples.request_claude
     = Responded {| status := 200; content := SuccessBody (JStr "Report body") meta |} tr
     ∧ tokens_input (meta_tokens meta) = JNum 0
     ∧ tokens_output (meta_tokens meta) = JNum 0
     ∧ tokens_total (meta_tokens meta) = JNum 0)
  ∧ (∃ meta tr,
       analyze (Samples.world_with Samples.keys (Reply 200 (Some Samples.message_reply)))
         Samples.request_claude
       = Responded {| status := 200; content := SuccessBody (JStr "Report body") meta |} tr
       ∧ tokens_input (meta_tokens meta) = JNum 500
       ∧ tokens_output (meta_tokens meta) = JNum 800
       ∧ tokens_total (meta_tokens meta) = JNum 1300)
  ∧ (∃ meta tr,
       analyze (Samples.world_with Samples.keys (Reply 200 (Some Scenarios.text_counter)))
         Samples.request_claude
       = Responded {| status := 200; content := SuccessBody (JStr "Report body") meta |} tr
       ∧ tokens_input (meta_tokens meta) = JStr "5"
       ∧ tokens_output (meta_tokens meta) = JNum 7
       ∧ tokens_total (meta_tokens meta) = JStr "57").
Proof.
  split_and!.
  - refine (proj1 (proj1 missing_usage_defaults_to_zero
      (Samples.world_with Samples.keys (Reply 200 (Some Samples.message_reply_no_usage)))
      Samples.request_claude Samples.answers (JStr "claude") Scenarios.claude_config
      "sk-ant-test" ClaudeBranch _ 200%Z Samples.message_reply_no_usage
      (JStr "Report body") JUndefined JUndefined JUndefined
      _ _ _ _ _ _ _ _ _) _ _).
    + constructor; reflexivity.
    + reflexivity.
    + reflexivity.
    + reflexivity.
    + reflexivity.
    + eexists _, _. split_and!; reflexivity.
    + reflexivity.
    + reflexivity.
    + reflexivity.
    + reflexivity.
    + reflexivity.
  - refine (proj2 (proj1 missing_usage_defaults_to_zero
      (Samples.world_with Samples.keys (Reply 200 (Some Samples.message_reply)))
      Samples.request_claude Samples.answers (JStr "claude") Scenarios.claude_config
      "sk-ant-test" ClaudeBranch _ 200%Z Samples.message_reply
      (JStr "Report body") _ (JNum 500) (JNum 800)
      _ _ _ _ _ _ _ _ _) 500%float 800%float _ _).
    + constructor; reflexivity.
    + reflexivity.
    + reflexivity.
    + reflexivity.
    + reflexivity.
    + eexists _, _. split_and!; reflexivity.
    + reflexivity.
    + reflexivity.
    + reflexivity.
    + reflexivity.
    + reflexivity.
  - eexists _, _. split; [vm_compute; reflexivity |].
    split; [reflexivity |]. split; [reflexivity |].
    match goal with
    | |- tokens_total (meta_tokens ?m) = _ =>
        destruct (proj1 (proj2 (proj2 (proj1 (proj2 missing_usage_defaults_to_zero)
          (Samples.world_with Samples.keys (Reply 200 (Some Scenarios.text_counter)))
          Samples.request_claude (JStr "Report body") m _
          ltac:(vm_compute; reflexivity)))) "5" eq_refl) as (u & Hu & Ht)
    end.
    vm_compute in Hu. injection Hu as <-. exact Ht.
Defined.

(** * The questionnaire *)

Section questionnaire.
Import Frontend.

(** ** Recording an answer *)

Lemma is_value_fmap (value : string) (values : list string) :
  existsb (is_value value) (JStr <$> values) = bool_decide (value ∈ values).
Proof.
  induction values as [| v rest IH]; [done |].
  cbn [fmap list_fmap existsb is_value]. rewrite IH.
  destruct (String.eqb_spec v value) as [-> | Hne]; cbn [orb].
  - symmetry. apply bool_decide_eq_true_2, list_elem_of_here.
  - apply bool_decide_ext. rewrite elem_of_cons. naive_solver.
Qed.

Lemma filter_absent (value : string) (values : list string) :
  value ∉ values → filter (λ v, v ≠ value) values = values.
Proof.
  induction values as [| v rest IH]; [done |].
  rewrite not_elem_of_cons. intros [Hne Hrest].
  rewrite filter_cons_True by done. by rewrite IH.
Qed.

Lemma filter_value_fmap (value : string) (values : list string) :
  List.filter (λ x, negb (is_value value x)) (JStr <$> values)
  = JStr <$> filter (λ v, v ≠ value) values.
Proof.
  induction values as [| v rest IH]; [done |].
  cbn [fmap list_fmap List.filter is_value].
  destruct (String.eqb_spec v value) as [-> | Hne]; cbn [negb].
  - by rewrite filter_cons_False by naive_solver.
  - rewrite filter_cons_True by done. cbn [fmap list_fmap]. by rewrite <- IH.
Qed.

(** The list of values the toggle leaves. *)
Lemma handleResponse_multiple (questionId value : string) (values : list string)
    (prev : gmap string jsval) :
  prev !! questionId = Some (JArr (JStr <$> values)) →
  handleResponse questionId value true prev =
    Ret (<[questionId := JArr (JStr <$> (if bool_decide (value ∈ values)
                                          then filter (λ v, v ≠ value) values
                                          else (values ++ [value])%list))]> prev).
Proof.
  intros Hp. unfold handleResponse. rewrite Hp. simpl.
  rewrite is_value_fmap. case_bool_decide.
  - by rewrite filter_value_fmap.
  - by rewrite fmap_app.
Qed.

(** X10. [handleResponse] on a question with several choices toggles the
    option clicked: starting from a recorded list of strings (or from no
    answer), the new list holds the clicked value exactly when the old one
    did not, holds every other value exactly when the old one did, has no
    duplicate when the old one had none, and a second click on a value that
    was absent restores the old list. *)
Theorem handleResponse_toggles (questionId value : string) (values : list string)
    (prev : gmap string jsval) :
  prev !! questionId = Some (JArr (JStr <$> values))
  ∨ (prev !! questionId = None ∧ (questionId ∉ object_prototype_keys) ∧ values = []) →
  ∃ values' : list string,
    handleResponse questionId value true prev
    = Ret (<[questionId := JArr (JStr <$> values')]> prev)
    ∧ (value ∈ values' ↔ value ∉ values)
    ∧ (∀ other, other ≠ value → other ∈ values' ↔ other ∈ values)
    ∧ (NoDup values → NoDup values')
    ∧ (value ∉ values →
       handleResponse questionId value true (<[questionId := JArr (JStr <$> values')]> prev)
       = Ret (<[questionId := JArr (JStr <$> values)]> prev)).
Proof.
  intros Hp.
  exists (if bool_decide (value ∈ values)
          then filter (λ v, v ≠ value) values else (values ++ [value])%list).
  split.
  { destruct Hp as [Hp | (Hp & Hq & ->)]; [by apply handleResponse_multiple |].
    unfold handleResponse. rewrite Hp. by rewrite bool_decide_eq_false_2. }
  case_bool_decide as Hin.
  - split_and!.
    + rewrite list_elem_of_filter. naive_solver.
    + intros other Hne. rewrite list_elem_of_filter. naive_solver.
    + apply NoDup_filter.
    + done.
  - split_and!.
    + rewrite elem_of_app, list_elem_of_singleton. naive_solver.
    + intros other Hne. rewrite elem_of_app, list_elem_of_singleton. naive_solver.
    + intros Hnd. apply NoDup_app. split_and!; [done | | apply NoDup_singleton].
      intros x Hx Hx'. apply list_elem_of_singleton in Hx'. by subst.
    + intros _. rewrite (handleResponse_multiple _ _ (values ++ [value])%list);
        [| by rewrite lookup_insert_eq].
      rewrite bool_decide_eq_true_2 by (rewrite elem_of_app, list_elem_of_singleton; auto).
      rewrite insert_insert_eq. do 4 f_equal.
      rewrite filter_app, filter_cons_False, filter_nil, app_nil_r by naive_solver.
      by apply filter_absent.
Qed.

(** ** The states of a session *)

Lemma questions_ids_NoDup : NoDup questions.*1.
Proof. apply (bool_decide_unpack _). vm_compute. reflexivity. Qed.

Lemma question_index_unique i j id m m' :
  questions !! i = Some (id, m) → questions !! j = Some (id, m') → i = j.
Proof.
  intros Hi Hj. apply (NoDup_lookup _ i j id questions_ids_NoDup);
    rewrite list_lookup_fmap; [by rewrite Hi | by rewrite Hj].
Qed.

Lemma question_type_unique i id m m' :
  questions !! i = Some (id, m) → (id, m') ∈ questions → m = m'.
Proof.
  intros Hi Hin. apply list_elem_of_lookup in Hin as [j Hj].
  assert (i = j) as -> by eauto using question_index_unique. congruence.
Qed.

Lemma question_not_builtin id m : (id, m) ∈ questions → id ∉ object_prototype_keys.
Proof.
  unfold questions. intros Hin.
  repeat (apply elem_of_cons in Hin as [[= -> ->] | Hin];
          [by apply (bool_decide_unpack _) |]).
  by apply elem_of_nil in Hin.
Qed.

(** The answer to the current question after a click on one of its options. *)
Lemma handleResponse_well_formed id multiple value prev next :
  (id, multiple) ∈ questions →
  (∀ v, prev !! id = Some v → well_formed multiple v) →
  handleResponse id value multiple prev = Ret next →
  ∃ v, next = <[id := v]> prev ∧ well_formed multiple v.
Proof.
  intros Hq Hwf. destruct multiple.
  - destruct (prev !! id) as [v |] eqn:Hp.
    + destruct (Hwf v eq_refl) as (values & -> & Hnd).
      rewrite (handleResponse_multiple _ _ values) by done. intros [= <-].
      eexists. split; [done |]. eexists. split; [done |].
      case_bool_decide; [by apply NoDup_filter |].
      apply NoDup_app. split_and!; [done | | apply NoDup_singleton].
      intros x Hx Hx'. apply list_elem_of_singleton in Hx'. by subst.
    + unfold handleResponse. rewrite Hp.
      rewrite bool_decide_eq_false_2 by by eapply question_not_builtin.
      intros [= <-]. eexists. split; [done |]. exists [value].
      split; [done | apply NoDup_singleton].
  - unfold handleResponse. intros [= <-]. eexists. split; [done |]. by exists value.
Qed.

(** An enabled "Next" or "Generate" means the current question is answered. *)
Lemma canProceed_answered st id multiple :
  consistent st → currentQuestion st = Some (id, multiple) → canProceed st = Ret true →
  answered multiple (responses st !! id).
Proof.
  intros Hc Hq. unfold canProceed, currentResponse. rewrite Hq.
  pose proof (answers_well_formed st Hc id) as Hwf.
  assert (Hin : (id, multiple) ∈ questions) by by eapply list_elem_of_lookup_2.
  destruct (responses st !! id) as [v |] eqn:Hr; simpl.
  - destruct (Hwf v eq_refl) as (m' & Hin' & Hv).
    assert (multiple = m') as <- by eauto using question_type_unique.
    destruct multiple; simpl in Hv.
    + destruct Hv as (values & -> & _). simpl.
      destruct values as [| first others]; [done |]. intros _. by exists first, others.
    + destruct Hv as (value & ->). intros _. by exists value.
  - by destruct multiple.
Qed.

Lemma consistent_initial : consistent initial.
Proof.
  split.
  - simpl. lia.
  - simpl. lia.
  - intros id v Hv. change (responses initial) with (∅ : gmap string jsval) in Hv.
    by rewrite lookup_empty in Hv.
Qed.

(** [consistent] reads the step and the answers only. *)
Lemma consistent_same st st' :
  currentStep st' = currentStep st → responses st' = responses st →
  consistent st → consistent st'.
Proof. intros Hs Hr [H1 H2 H3]. split; rewrite ?Hs, ?Hr; done. Qed.

Lemma react_consistent a st st' :
  consistent st → react a st = Some st' → consistent st'.
Proof.
  intros Hc. destruct a as [value | | | i | | reply | reply |]; simpl.
  - (* an option *)
    destruct (showReport st || loading st); [done |].
    destruct (currentQuestion st) as [[id multiple] |] eqn:Hq; [| done].
    destruct (handleResponse id value multiple (responses st)) as [next | |] eqn:Hh;
      [| done | done].
    intros [= <-].
    assert (Hin : (id, multiple) ∈ questions) by by eapply list_elem_of_lookup_2.
    apply handleResponse_well_formed in Hh as (v & -> & Hv); [| done |].
    2:{ intros v Hr. destruct (answers_well_formed st Hc id v Hr) as (m' & Hin' & Hv).
        by assert (multiple = m') as <- by eauto using question_type_unique. }
    split; simpl.
    + apply Hc.
    + intros i id' m' Hi Hq'. rewrite lookup_insert_ne; [by eapply earlier_answered |].
      intros <-. unfold currentQuestion in Hq.
      assert (currentStep st = i) by eauto using question_index_unique. lia.
    + intros id' v'. destruct (decide (id = id')) as [<- | Hne].
      * rewrite lookup_insert_eq. intros [= <-]. eauto.
      * rewrite lookup_insert_ne by done. by apply answers_well_formed.
  - (* Next *)
    destruct (showReport st || isLastStep st) eqn:Hl; [done |].
    destruct (canProceed st) as [[|] | |] eqn:Hp; try done. intros [= <-].
    apply orb_false_iff in Hl as [_ Hl]. unfold isLastStep in Hl.
    apply Nat.eqb_neq in Hl. pose proof (step_in_range st Hc) as Hr.
    split; simpl.
    + simpl in *. lia.
    + intros i id m Hi Hq. destruct (decide (i = currentStep st)) as [-> | Hne].
      * by eapply canProceed_answered.
      * eapply earlier_answered; [done | | done]. lia.
    + apply Hc.
  - (* Previous *)
    destruct (showReport st || (currentStep st =? 0)%nat); [done |]. intros [= <-].
    pose proof (step_in_range st Hc) as Hr. split; simpl.
    + simpl in *. lia.
    + intros i id m Hi Hq. eapply earlier_answered; [done | | done]. lia.
    + apply Hc.
  - (* a provider *)
    destruct (showReport st || negb (isLastStep st)); [done |].
    destruct (availableProviders st !! i) as [p |]; [| done].
    destruct (get p "id"); try done. intros [= <-]. by apply (consistent_same st).
  - (* Generate *)
    destruct (showReport st || negb (isLastStep st)); [done |].
    destruct (canProceed st) as [[|] | |]; try done. intros [= <-].
    by apply (consistent_same st).
  - (* the analysis arrives *)
    unfold analyze_settled. destruct (read_analysis reply) as [[a m] | e |]; try done;
      intros [= <-]; by apply (consistent_same st).
  - (* the providers arrive *)
    unfold providers_settled. destruct reply as [m | status payload]; [by intros [= <-] |].
    destruct (response_ok status); [| by intros [= <-]].
    destruct payload as [data |]; [| by intros [= <-]].
    destruct (_ ← _; _) as [kept | e |]; try done; intros [= <-]; [| done].
    by apply (consistent_same st).
  - (* Start New Assessment *)
    destruct (showReport st); [| done]. intros [= <-].
    by apply (consistent_same initial), consistent_initial.
Qed.

Lemma session_consistent actions : ∀ st st',
  consistent st → session actions st = Some st' → consistent st'.
Proof.
  induction actions as [| a rest IH]; simpl; intros st st' Hc.
  - by intros [= <-].
  - destruct (react a st) as [st1 |] eqn:Hr; [| done].
    apply IH. by eapply react_consistent.
Qed.

Lemma jsonify_strings (values : list string) :
  map (λ x, match x with JUndefined => JNull | _ => jsonify x end) (JStr <$> values)
  = JStr <$> values.
Proof. induction values as [| v rest IH]; [done |]. cbn. by rewrite IH. Qed.

Lemma jsonify_well_formed multiple v : well_formed multiple v → jsonify v = v.
Proof.
  destruct multiple; simpl.
  - intros (values & -> & _). cbn. by rewrite jsonify_strings.
  - by intros (value & ->).
Qed.

(** The answers of a consistent state reach the server as they are. *)
Lemma jsonify_responses st :
  consistent st → jsonify (JObj (responses st)) = JObj (responses st).
Proof.
  intros Hc. cbn. f_equal. apply map_eq. intros id. rewrite lookup_omap.
  destruct (responses st !! id) as [v |] eqn:Hr; [| done]. simpl.
  destruct (answers_well_formed st Hc id v Hr) as (m & _ & Hv).
  rewrite (jsonify_well_formed m v Hv).
  destruct m; simpl in Hv; [by destruct Hv as (? & -> & _) | by destruct Hv as (? & ->)].
Qed.

(** X11. In every session of clicks and arrivals from the initial state,
    the current step names a question, every earlier question is answered,
    and each recorded answer belongs to a question and has the form of its
    type.  So when "Generate My Report" is enabled all eleven questions are
    answered, the recorded keys are exactly the question ids, and the
    [responses] of the request body are the recorded answers unchanged. *)
Theorem session_keeps_answers_in_order (actions : list action) (st : ui) :
  session actions initial = Some st →
  consistent st
  ∧ (can_generate st →
       (∀ id multiple, (id, multiple) ∈ questions → answered multiple (responses st !! id))
       ∧ dom (responses st) = list_to_set questions.*1
       ∧ get (request_body st) "responses" = Ret (JObj (responses st))).
Proof.
  intros Hs. assert (Hc : consistent st) by eauto using session_consistent, consistent_initial.
  split; [done |]. intros (Hshow & Hlast & Hp).
  assert (Hall : ∀ id multiple, (id, multiple) ∈ questions →
                   answered multiple (responses st !! id)).
  { intros id m Hin. apply list_elem_of_lookup in Hin as [i Hi].
    unfold isLastStep in Hlast. apply Nat.eqb_eq in Hlast.
    pose proof (lookup_lt_Some _ _ _ Hi) as Hlt.
    destruct (decide (i = currentStep st)) as [-> | Hne].
    - by eapply canProceed_answered.
    - eapply earlier_answered; [done | | done]. simpl in *. lia. }
  split; [done |]. split.
  - apply set_eq. intros id. rewrite elem_of_dom, elem_of_list_to_set, list_elem_of_fmap.
    split.
    + intros [v Hv]. destruct (answers_well_formed st Hc id v Hv) as (m & Hin & _).
      by exists (id, m).
    + intros ([id' m] & -> & Hin). specialize (Hall _ _ Hin). simpl.
      destruct m; simpl in Hall; [destruct Hall as (? & ? & ->) | destruct Hall as (? & ->)];
        eauto.
  - unfold request_body.
    change (jsonify (JObj {["responses" := JObj (responses st);
                            "provider" := selectedProvider st]}))
      with (JObj (omap (λ x, match x with JUndefined => None | _ => Some (jsonify x) end)
                    ({["responses" := JObj (responses st);
                       "provider" := selectedProvider st]} : gmap string jsval))).
    unfold get. rewrite lookup_omap, lookup_insert_eq. simpl.
    change (JObj (omap _ (responses st))) with (jsonify (JObj (responses st))).
    by rewrite jsonify_responses.
Qed.
End questionnaire.

(** ** The provider sent with a request *)

Section provider_choice.
Import Frontend.
Context (w : world).

Lemma jsonify_entry_id id cfg :
  get (jsonify (provider_entry w id cfg)) "id" = Ret (JStr id).
Proof. reflexivity. Qed.

Lemma jsonify_entry_available id cfg :
  get (jsonify (provider_entry w id cfg)) "available" = Ret (JBool (available w cfg)).
Proof. reflexivity. Qed.

Lemma keep_available_entries (l : list (string * provider_config)) :
  keep_available (map (λ p, jsonify (provider_entry w p.1 p.2)) l)
  = Ret (map (λ p, jsonify (provider_entry w p.1 p.2))
           (List.filter (λ p, available w p.2) l)).
Proof.
  induction l as [| [id cfg] rest IH]; [done |].
  cbn [map keep_available List.filter fst snd].
  rewrite jsonify_entry_available, IH. by destruct (available w cfg).
Qed.

Lemma listing_providers :
  get (jsonify (providers_listing w)) "providers"
  = Ret (JArr (map (λ p, jsonify (provider_entry w p.1 p.2)) PROVIDERS)).
Proof. reflexivity. Qed.

Lemma listing_default :
  get (jsonify (providers_listing w)) "default" = Ret (JStr "claude").
Proof. reflexivity. Qed.

(** The state after the list of the server has arrived. *)
Lemma listing_settled st :
  providers_settled (Reply 200 (Some (jsonify (providers_listing w)))) st
  = Some {| currentStep := currentStep st; responses := responses st;
            loading := loading st; analysis := analysis st;
            showReport := showReport st;
            selectedProvider := JStr "claude";
            availableProviders :=
              map (λ p, jsonify (provider_entry w p.1 p.2))
                (List.filter (λ p, available w p.2) PROVIDERS);
            analysisMetadata := analysisMetadata st |}.
Proof.
  unfold providers_settled. change (response_ok 200) with true. cbv iota.
  rewrite listing_providers, listing_default. cbn [mbind step_bind filter_available].
  by rewrite keep_available_entries.
Qed.

Lemma listing_settled_offered st st' :
  providers_settled (Reply 200 (Some (jsonify (providers_listing w)))) st = Some st' →
  selectedProvider st' = JStr "claude" ∧ Forall (offered w) (availableProviders st').
Proof.
  rewrite listing_settled. intros Hs. apply (inj Some) in Hs. subst st'.
  split; [done |]. cbn [availableProviders].
  apply Forall_forall. intros p Hp. apply list_elem_of_fmap in Hp as ([id cfg] & -> & Hp).
  apply list_elem_of_In, List.filter_In in Hp as [Hin Hav]. simpl in Hav.
  exists id, cfg. split_and!; [by apply list_elem_of_In | done | apply jsonify_entry_id].
Qed.

Lemma provider_consistent_initial : provider_consistent w initial.
Proof. split; [by left | by apply Forall_nil]. Qed.

Lemma provider_consistent_same st st' :
  selectedProvider st' = selectedProvider st →
  availableProviders st' = availableProviders st →
  provider_consistent w st → provider_consistent w st'.
Proof. intros Hs Ha [H1 H2]. split; rewrite ?Hs, ?Ha; done. Qed.

Lemma react_provider_consistent a st st' :
  match a with
  | ProvidersSettle (Reply status payload) =>
      status = 200%Z ∧ payload = Some (jsonify (providers_listing w))
  | _ => True
  end →
  provider_consistent w st → react a st = Some st' → provider_consistent w st'.
Proof.
  intros Ha Hc. destruct a as [value | | | i | | reply | reply |]; cbn [react].
  - destruct (showReport st || loading st); [done |].
    destruct (currentQuestion st) as [[id multiple] |]; [| done].
    destruct (handleResponse id value multiple (responses st)); try done.
    intros [= <-]. by apply (provider_consistent_same st).
  - destruct (showReport st || isLastStep st); [done |].
    destruct (canProceed st) as [[|] | |]; try done.
    intros [= <-]. by apply (provider_consistent_same st).
  - destruct (showReport st || (currentStep st =? 0)%nat); [done |].
    intros [= <-]. by apply (provider_consistent_same st).
  - destruct (showReport st || negb (isLastStep st)); [done |].
    destruct (availableProviders st !! i) as [p |] eqn:Hp; [| done].
    destruct (get p "id") as [v | |] eqn:Hid; try done. intros [= <-].
    pose proof (offered_available w st Hc) as Hall.
    rewrite Forall_lookup in Hall. destruct (Hall i p Hp) as (id & cfg & Hin & Hav & Hg).
    rewrite Hg in Hid. injection Hid as <-.
    split; simpl; [right; eauto | apply Hc].
  - destruct (showReport st || negb (isLastStep st)); [done |].
    destruct (canProceed st) as [[|] | |]; try done.
    intros [= <-]. by apply (provider_consistent_same st).
  - unfold analyze_settled. destruct (read_analysis reply) as [[x m] | e |]; try done;
      intros [= <-]; by apply (provider_consistent_same st).
  - destruct reply as [m | status payload]; [by intros [= <-] |].
    destruct Ha as [-> ->]. intros Hs.
    apply listing_settled_offered in Hs as [Hsel Hall]. split; [by left | done].
  - destruct (showReport st); [| done]. intros [= <-].
    by apply (provider_consistent_same st).
Qed.

Lemma session_provider_consistent actions : ∀ st st',
  served_by w actions → provider_consistent w st →
  session actions st = Some st' → provider_consistent w st'.
Proof.
  induction actions as [| a rest IH]; simpl; intros st st' Hserved Hc.
  - by intros [= <-].
  - apply Forall_cons in Hserved as [Ha Hrest].
    destruct (react a st) as [st1 |] eqn:Hr; [| done].
    apply IH; [done |]. eapply react_provider_consistent; [| done | done].
    destruct a as [| | | | | | [|] |]; done.
Qed.

Lemma registered_lookup id cfg :
  (id, cfg) ∈ PROVIDERS → lookup_provider (JStr id) = Ret (Own cfg).
Proof.
  unfold PROVIDERS. intros Hin.
  repeat (apply elem_of_cons in Hin as [[= -> ->] | Hin]; [reflexivity |]).
  by apply elem_of_nil in Hin.
Qed.

Lemma request_body_provider st id :
  selectedProvider st = JStr id → get (request_body st) "provider" = Ret (JStr id).
Proof.
  intros Hs. unfold request_body.
  change (jsonify (JObj {["responses" := JObj (responses st);
                          "provider" := selectedProvider st]}))
    with (JObj (omap (λ x, match x with JUndefined => None | _ => Some (jsonify x) end)
                  ({["responses" := JObj (responses st);
                     "provider" := selectedProvider st]} : gmap string jsval))).
  unfold get. rewrite lookup_omap, lookup_insert_ne by done.
  rewrite lookup_singleton_eq, Hs. done.
Qed.

Lemma request_body_responses st :
  get (request_body st) "responses" = Ret (jsonify (JObj (responses st))).
Proof.
  unfold request_body.
  change (jsonify (JObj {["responses" := JObj (responses st);
                          "provider" := selectedProvider st]}))
    with (JObj (omap (λ x, match x with JUndefined => None | _ => Some (jsonify x) end)
                  ({["responses" := JObj (responses st);
                     "provider" := selectedProvider st]} : gmap string jsval))).
  unfold get. by rewrite lookup_omap, lookup_insert_eq.
Qed.

Lemma request_body_destructure st id :
  selectedProvider st = JStr id →
  destructure (request_body st) = Ret (jsonify (JObj (responses st)), JStr id).
Proof.
  intros Hs. unfold destructure.
  by rewrite request_body_responses, (request_body_provider _ _ Hs).
Qed.

(** A request that passed both validations is never answered with 400. *)
Lemma own_provider_not_400 reqBody responses provider cfg r tr :
  destructure reqBody = Ret (responses, provider) →
  invalid_responses responses = false →
  lookup_provider provider = Ret (Own cfg) →
  analyze w reqBody = Responded r tr →
  (status r = 200 ∨ status r = 500)%Z
  ∧ (r = configuration_error → env_truthy w (envKey cfg) = None).
Proof.
  intros Hd Hv Hl. rewrite (analyze_unfold _ _ _ _ Hd), Hv, analyze_valid_eq, Hl.
  destruct (env_truthy w (envKey cfg)) as [apiKey |] eqn:Hk.
  - destruct (run_provider w provider responses cfg apiKey []) as [x tr1] eqn:Hrun.
    intros Hs. apply settle_inv in Hs as [(-> & ->) | (e & -> & -> & ->)].
    + apply run_provider_inv in Hrun as (? & ? & ? & ? & _ & _ & _ & -> & _).
      split; [by left | done].
    + split; [by right | done].
  - intros [= <- <-]. split; [by right | done].
Qed.

(** X12. When the list of providers comes from the server, every request
    the page can send from "Generate My Report" destructures on the server
    into the recorded answers and a provider id that is an own entry of
    [PROVIDERS]; the id is the default "claude" or one the server listed as
    available.  The route never answers it with 400, and answers
    "Configuration error" only for the default when the Anthropic key is
    not set. *)
Theorem questionnaire_requests_are_valid (actions : list action) (st : ui) :
  served_by w actions → session actions initial = Some st → can_generate st →
  ∃ id cfg,
    destructure (request_body st) = Ret (JObj (responses st), JStr id)
    ∧ invalid_responses (JObj (responses st)) = false
    ∧ lookup_provider (JStr id) = Ret (Own cfg)
    ∧ (id = "claude" ∨ available w cfg = true)
    ∧ ∀ r tr, analyze w (request_body st) = Responded r tr →
        (status r = 200 ∨ status r = 500)%Z
        ∧ (r = configuration_error → id = "claude" ∧ env_truthy w "ANTHROPIC_API_KEY" = None).
Proof.
  intros Hserved Hs Hgen.
  assert (Hc : consistent st) by eauto using session_consistent, consistent_initial.
  assert (Hp : provider_consistent w st)
    by eauto using session_provider_consistent, provider_consistent_initial.
  assert (Hsel : ∃ id cfg, selectedProvider st = JStr id
                   ∧ lookup_provider (JStr id) = Ret (Own cfg)
                   ∧ (id = "claude" ∨ available w cfg = true)).
  { destruct (selected_known w st Hp) as [Hsel | (id & cfg & Hsel & Hin & Hav)].
    - eexists "claude", _. split; [done |]. split; [reflexivity | by left].
    - exists id, cfg. split; [done |]. split; [by apply registered_lookup | by right]. }
  destruct Hsel as (id & cfg & Hsel & Hl & Hav).
  pose proof (request_body_destructure st id Hsel) as Hd.
  rewrite (jsonify_responses st Hc) in Hd.
  exists id, cfg. split_and!; [done | done | done | done |].
  intros r tr Ha.
  destruct (own_provider_not_400 _ _ _ _ _ _ Hd eq_refl Hl Ha) as [Hst Hcfg].
  split; [done |]. intros Hr. specialize (Hcfg Hr).
  destruct Hav as [-> | Hav].
  - split; [done |]. by injection Hl as <-.
  - unfold available in Hav. by rewrite Hcfg in Hav.
Qed.

(** X13. The page selects [data.default] whatever the list says.  When the
    Anthropic key is not set, the list that arrives offers no "claude"
    (three providers when the OpenRouter key is set), the selection is
    "claude" all the same, and a report requested without choosing another
    provider is answered "Configuration error". *)
Theorem default_selection_ignores_availability (st : ui) :
  env_truthy w "ANTHROPIC_API_KEY" = None →
  ∃ st',
    providers_settled (Reply 200 (Some (jsonify (providers_listing w)))) st = Some st'
    ∧ selectedProvider st' = JStr "claude"
    ∧ Forall (λ p, ∃ id, get p "id" = Ret (JStr id) ∧ id ≠ "claude") (availableProviders st')
    ∧ (env_truthy w "OPENROUTER_API_KEY" ≠ None → List.length (availableProviders st') = 3%nat)
    ∧ analyze w (request_body st')
      = Responded configuration_error [LogMissingKey (JStr "claude")].
Proof.
  intros Hk. rewrite listing_settled. eexists. split; [done |].
  cbn [selectedProvider availableProviders]. split; [done |].
  assert (Ha : ∀ cfg, envKey cfg = "ANTHROPIC_API_KEY" → available w cfg = false).
  { intros cfg Hcfg. unfold available. by rewrite Hcfg, Hk. }
  split; [| split].
  - apply Forall_forall. intros p Hp. apply list_elem_of_fmap in Hp as ([id cfg] & -> & Hp).
    apply list_elem_of_In, List.filter_In in Hp as [Hin Hav]. apply list_elem_of_In in Hin.
    exists id. split; [apply jsonify_entry_id |]. intros ->.
    unfold PROVIDERS in Hin. cbn [snd] in Hav.
    apply elem_of_cons in Hin as [[= ->] | Hin]; [by rewrite Ha in Hav |].
    repeat (apply elem_of_cons in Hin as [[=] | Hin]).
    by apply elem_of_nil in Hin.
  - intros Hor. rewrite length_map. unfold PROVIDERS. cbn [List.filter snd].
    rewrite Ha by done. unfold available. cbn [envKey].
    by destruct (env_truthy w "OPENROUTER_API_KEY").
  - match goal with |- analyze w (request_body ?s) = _ => set (st1 := s) end.
    assert (Hd : destructure (request_body st1)
                 = Ret (jsonify (JObj (responses st)), JStr "claude"))
      by by apply (request_body_destructure st1).
    rewrite (analyze_unfold _ _ _ _ Hd). change (invalid_responses _) with false. cbv iota.
    rewrite analyze_valid_eq. change (lookup_provider (JStr "claude")) with
      (Ret (Own {| name := "Claude (Direct)";
                   apiUrl := "https://api.anthropic.com/v1/messages";
                   model := "claude-sonnet-4-20250514";
                   costPer1M_input := 3.00; costPer1M_output := 15.00;
                   envKey := "ANTHROPIC_API_KEY" |})).
    cbn [envKey]. by rewrite Hk.
Qed.
End provider_choice.

(** ** The page and the server together *)

Section page_and_server.
Import Frontend.

Lemma catch_message_text e text : catch_message e = Msg text → text ≠ "".
Proof.
  unfold catch_message. destruct (exn_message e) as [m |]; [| done].
  destruct (String.eqb_spec m ""); intros [= <-]; done.
Qed.

(** The message of every error body of the route is a non-empty string,
    when it is a string of the model at all. *)
Lemma error_body_message w reqBody r tr error text t :
  analyze w reqBody = Responded r tr →
  content r = ErrorBody error (Msg text) t →
  text ≠ "" ∧ response_ok (status r) = false.
Proof.
  intros Ha Hc. apply analyze_responses in Ha
    as [(-> & _) | [(-> & _) | [-> | [(e & -> & _) | (cfg & n & c & total & ->)]]]];
    simpl in Hc; try done.
  - by injection Hc as <- <- <-.
  - injection Hc as <- <- <-. split; [| done]. by vm_compute.
  - by injection Hc as <- <- <-.
  - injection Hc as <- Hm <-. split; [by eapply catch_message_text | done].
Qed.

Lemma success_body_status w reqBody r tr text meta :
  analyze w reqBody = Responded r tr →
  content r = SuccessBody text meta → status r = 200%Z.
Proof.
  intros Ha Hc. apply analyze_responses in Ha
    as [(-> & _) | [(-> & _) | [-> | [(e & -> & _) | (cfg & n & c & total & ->)]]]];
    simpl in Hc; done.
Qed.

Lemma jsonify_obj (fields : gmap string jsval) :
  jsonify (JObj fields)
  = JObj (omap (λ x, match x with JUndefined => None | _ => Some (jsonify x) end) fields).
Proof. done. Qed.

Lemma get_jsonify_obj (fields : gmap string jsval) k :
  get (jsonify (JObj fields)) k = Ret (jsonify (default JUndefined (fields !! k))).
Proof.
  rewrite jsonify_obj. unfold get. rewrite lookup_omap.
  destruct (fields !! k) as [v |]; [| done]. by destruct v.
Qed.

Lemma get_jsonify_field (fields : gmap string jsval) k v :
  fields !! k = Some v → get (jsonify (JObj fields)) k = Ret (jsonify v).
Proof. intros H. by rewrite get_jsonify_obj, H. Qed.

(** X14. The page and the route agree on the wire format.  For every
    response of the route (whose message is a string of the model),
    [analyzeWithClaude] ends with the loader off and the report shown, the
    step, the answers and the selection untouched; on a success the report
    is the [analysis] sent and the metadata the [metadata] sent, as JSON
    carries them; on an error the page shows the [message] of the body, never
    its [error] title or the "Server error" fallback, and keeps the earlier
    metadata. *)
Theorem report_shows_what_the_server_sent (w : world) (reqBody : jsval)
    (r : response) (tr : list event) (reply : fetch_result) (st : ui) :
  analyze w reqBody = Responded r tr → received r = Some reply →
  ∃ st', analyze_settled reply st = Some st'
    ∧ loading st' = false ∧ showReport st' = true
    ∧ currentStep st' = currentStep st ∧ responses st' = responses st
    ∧ selectedProvider st' = selectedProvider st
    ∧ match content r with
      | SuccessBody text meta =>
          analysis st' = Text (jsonify text)
          ∧ analysisMetadata st' = jsonify (metadata_json meta)
      | ErrorBody _ msg _ =>
          analysis st' = Failure msg ∧ analysisMetadata st' = analysisMetadata st
      end.
Proof.
  intros Ha. unfold received.
  destruct (content r) as [error [text |] t | text meta] eqn:Hc.
  - destruct (error_body_message _ _ _ _ _ _ _ Ha Hc) as [Hne Hok].
    assert (Hb : ∃ fields, body_json (ErrorBody error (Msg text) t) = Some (JObj fields)
                   ∧ fields !! "message" = Some (JStr text)).
    { destruct t; eexists; (split; [reflexivity |]); by simplify_map_eq. }
    destruct Hb as (fields & -> & Hm). intros Hr. apply (inj Some) in Hr. subst reply.
    unfold analyze_settled, read_analysis. rewrite Hok. cbn [default from_option id].
    rewrite !(get_jsonify_field _ _ _ Hm). cbn [jsonify mbind step_bind].
    assert (Ht : truthy (JStr text) = true)
      by (simpl; by destruct (String.eqb_spec text "")).
    rewrite Ht. cbn [to_string mbind step_bind exn_message].
    eexists. split; [reflexivity |]. done.
  - by destruct t.
  - cbn [body_json]. intros Hr. apply (inj Some) in Hr. subst reply.
    rewrite (success_body_status _ _ _ _ _ _ Ha Hc).
    unfold analyze_settled, read_analysis. change (response_ok 200) with true. cbv iota.
    rewrite (get_jsonify_field _ "success" (JBool true)) by by simplify_map_eq.
    rewrite (get_jsonify_field _ "analysis" text) by by simplify_map_eq.
    rewrite (get_jsonify_field _ "metadata" (metadata_json meta)) by by simplify_map_eq.
    cbn [mbind step_bind]. change (truthy (jsonify (JBool true))) with true.
    cbv iota.
    eexists. split; [reflexivity |]. done.
Qed.
End page_and_server.

(** ** The list of providers and the route *)

Section listing.
Import Frontend.

(** With a branch that builds a request, the provider call logs and fetches,
    whatever comes after. *)
Lemma run_provider_calls w provider responses cfg apiKey br req tr0 :
  dispatch_branch provider = Ret br →
  request_for w br cfg apiKey responses = Some req →
  ∃ x tr, run_provider w provider responses cfg apiKey tr0
          = (x, (tr0 ++ LogProcessing provider :: Fetch req :: tr)%list).
Proof.
  intros Hbr Hreq. unfold run_provider. unfold bind at 1 2, emit at 1, lift at 1.
  rewrite Hbr. unfold bind at 1. rewrite Hreq.
  unfold bind at 1, call_upstream. unfold_M.
  destruct (upstream w req) as [m | st payload].
  { eexists _, []. by rewrite <- app_assoc. }
  destruct (response_ok st).
  - destruct payload as [data |]; [| eexists _, []; by rewrite <- app_assoc].
    destruct (normalize br data) as [n | |]; [| eexists _, []; by rewrite <- app_assoc ..].
    destruct (estimate n cfg) as [c | |]; [| eexists _, []; by rewrite <- app_assoc ..].
    destruct (add (inputTokens n) (outputTokens n)) as [total | |];
      eexists _, [_]; by rewrite <- !app_assoc.
  - destruct (upstream_error_message st payload); eexists _, []; by rewrite <- app_assoc.
Qed.

Lemma registered_request w id cfg apiKey responses :
  (id, cfg) ∈ PROVIDERS →
  ∃ br req, dispatch_branch (JStr id) = Ret br
    ∧ request_for w br cfg apiKey responses = Some req
    ∧ url req = apiUrl cfg ∧ body_model req = model cfg ∧ body_answers req = responses
    ∧ (("x-api-key", apiKey) ∈ headers req
       ∨ ("Authorization", "Bearer " ++ apiKey) ∈ headers req).
Proof.
  intros Hin.
  assert (Hid : id ∈ provider_ids).
  { unfold provider_ids. apply list_elem_of_fmap. by exists (id, cfg). }
  destruct (registered_branch id Hid) as [(_ & _ & Hbr) | (_ & _ & Hbr)].
  - exists ClaudeBranch, (claude_request cfg apiKey responses).
    split_and!; try done. left. set_solver.
  - exists OpenRouterBranch, (openrouter_request w cfg apiKey responses).
    split_and!; try done. right. set_solver.
Qed.

Lemma analyze_try_eq w reqBody responses provider :
  destructure reqBody = Ret (responses, provider) →
  invalid_responses responses = false →
  analyze_try w reqBody [] = analyze_valid w responses provider [].
Proof.
  intros Hd Hv. unfold analyze_try. unfold bind at 1, lift at 1.
  rewrite Hd. simpl. by rewrite Hv.
Qed.

(** X15. [GET /api/providers] and [POST /api/analyze] agree about every
    entry of [PROVIDERS].  Either the entry is listed with [available: false]
    and a valid request naming it is answered "Configuration error" with one
    log line and no fetch; or it is listed with [available: true] and such a
    request logs and then fetches the URL of the entry, with its model, the
    answers received, and the key in the header of its arm. *)
Theorem listing_agrees_with_route (w : world) (id : string) (cfg : provider_config)
    (reqBody responses : jsval) :
  (id, cfg) ∈ PROVIDERS →
  destructure reqBody = Ret (responses, JStr id) →
  invalid_responses responses = false →
  (get (jsonify (provider_entry w id cfg)) "available" = Ret (JBool false)
   ∧ analyze w reqBody = Responded configuration_error [LogMissingKey (JStr id)])
  ∨ (get (jsonify (provider_entry w id cfg)) "available" = Ret (JBool true)
     ∧ ∃ apiKey req x tr,
         env_truthy w (envKey cfg) = Some apiKey
         ∧ url req = apiUrl cfg ∧ body_model req = model cfg ∧ body_answers req = responses
         ∧ (("x-api-key", apiKey) ∈ headers req
            ∨ ("Authorization", "Bearer " ++ apiKey) ∈ headers req)
         ∧ analyze_try w reqBody [] = (x, LogProcessing (JStr id) :: Fetch req :: tr)).
Proof.
  intros Hin Hd Hv. rewrite jsonify_entry_available.
  rewrite (analyze_unfold _ _ _ _ Hd), Hv, (analyze_try_eq _ _ _ _ Hd Hv), analyze_valid_eq.
  rewrite (registered_lookup _ _ Hin). unfold available.
  destruct (env_truthy w (envKey cfg)) as [apiKey |] eqn:Hk.
  - right. split; [done |].
    destruct (registered_request w id cfg apiKey responses Hin)
      as (br & req & Hbr & Hreq & Hu & Hm & Hb & Hh).
    destruct (run_provider_calls w (JStr id) responses cfg apiKey br req [] Hbr Hreq)
      as (x & tr & Hrun).
    exists apiKey, req, x, tr. by rewrite Hrun.
  - left. done.
Qed.

(** X16. The list of providers tells whether each key is set and nothing
    else about the environment: two deployments in which the same keys of
    the table are set send the same list. *)
Theorem listing_reveals_only_availability (w w' : world) :
  (∀ id cfg, (id, cfg) ∈ PROVIDERS →
     (env_truthy w (envKey cfg) = None ↔ env_truthy w' (envKey cfg) = None)) →
  providers_listing w = providers_listing w'.
Proof.
  intros Hsame. unfold providers_listing. do 3 f_equal.
  apply map_ext_in. intros [id cfg] Hin%list_elem_of_In. cbn [fst snd].
  unfold provider_entry. do 6 f_equal. unfold available.
  specialize (Hsame id cfg Hin).
  destruct (env_truthy w (envKey cfg)), (env_truthy w' (envKey cfg)); naive_solver.
Qed.
End listing.

(** ** Scenarios *)

Import Frontend Scenarios.

(** A served request: one fetch. *)
Lemma upstream_called_only_when_ready_witness :
  ∃ r tr, analyze served Samples.request_claude = Responded r tr
    ∧ (List.length (List.filter is_fetch tr) ≤ 1)%nat.
Proof.
  eexists _, _. split; [reflexivity |].
  refine (proj1 (upstream_called_only_when_ready served Samples.request_claude _ _ _)).
  reflexivity.
Defined.

Lemma route_status_codes_witness :
  ∃ r tr, analyze offline Samples.request_haiku = Responded r tr
    ∧ (status r = 200 ∨ status r = 400 ∨ status r = 500)%Z.
Proof.
  eexists _, _. split; [reflexivity |].
  refine (proj1 (route_status_codes offline Samples.request_haiku _ _ _)).
  reflexivity.
Defined.

Lemma success_follows_one_upstream_reply_witness :
  ∃ r tr, analyze served Samples.request_claude = Responded r tr
    ∧ status r = 200%Z
    ∧ ∃ req c, tr = [LogProcessing (JStr "claude"); Fetch req;
                     LogCompleted (JStr "claude") 3000 (cost_total c)].
Proof.
  eexists _, _. split; [reflexivity |]. split; [reflexivity |].
  destruct (success_follows_one_upstream_reply served Samples.request_claude _ _
              eq_refl eq_refl)
    as (responses & id & cfg & apiKey & br & req & st & data & n & c & total
        & [Hd _ _ _] & _ & _ & _ & _ & _ & _ & _ & _ & _ & Htr).
  injection Hd as _ <-. exists req, c. exact Htr.
Defined.

Lemma rotated_keys_set k :
  env_truthy served k = None ↔ env_truthy rotated k = None.
Proof.
  unfold env_truthy, served, rotated, Samples.world_with, Samples.keys, rotated_keys.
  cbn [env].
  destruct (decide (k = "ANTHROPIC_API_KEY")) as [-> | Ha]; [done |].
  destruct (decide (k = "OPENROUTER_API_KEY")) as [-> | Ho]; [done |].
  by rewrite !lookup_insert_ne, !lookup_singleton_ne.
Qed.

(** Replacing both keys changes neither the response nor the console. *)
Lemma key_values_invisible_witness :
  observable (analyze served Samples.request_claude)
  = observable (analyze rotated Samples.request_claude).
Proof.
  refine (key_values_invisible served rotated Samples.request_claude
            rotated_keys_set _ _ _ _).
  - reflexivity.
  - reflexivity.
  - reflexivity.
  - intros req1 req2 _. reflexivity.
Defined.

Lemma network_failure_is_500_witness :
  analyze offline Samples.request_claude
  = Responded {| status := 500;
                 content := ErrorBody "Analysis failed" (Msg "fetch failed")
                              (Some "2025-01-01T00:00:00.000Z") |}
      [LogProcessing (JStr "claude");
       Fetch (claude_request claude_config "sk-ant-test" Samples.answers);
       LogAnalysisError (NetworkError "fetch failed")].
Proof.
  refine (network_failure_is_500 offline Samples.request_claude Samples.answers
            (JStr "claude") claude_config "sk-ant-test" ClaudeBranch _ "fetch failed"
            _ _ _ _).
  - constructor; reflexivity.
  - reflexivity.
  - reflexivity.
  - reflexivity.
Defined.

(** A 200 whose body is not JSON. *)
Lemma unusable_reply_is_500_witness :
  analyze garbled Samples.request_claude
  = Responded {| status := 500;
                 content := ErrorBody "Analysis failed" (EngineMsg SyntaxError)
                              (Some "2025-01-01T00:00:00.000Z") |}
      [LogProcessing (JStr "claude");
       Fetch (claude_request claude_config "sk-ant-test" Samples.answers);
       LogAnalysisError SyntaxError].
Proof.
  refine (proj1 (unusable_reply_is_500 garbled Samples.request_claude Samples.answers
            (JStr "claude") claude_config "sk-ant-test" ClaudeBranch _ 200%Z
            _ _ _ _) _).
  - constructor; reflexivity.
  - reflexivity.
  - reflexivity.
  - reflexivity.
  - reflexivity.
Defined.

Lemma array_provider_fails_after_lookup_witness :
  lookup_provider (JArr [JStr "claude"]) = Ret (Own claude_config)
  ∧ analyze served request_array
    = Responded {| status := 500;
                   content := ErrorBody "Analysis failed"
                     (EngineMsg (TypeError "provider.startsWith is not a function"))
                     (Some "2025-01-01T00:00:00.000Z") |}
        [LogProcessing (JArr [JStr "claude"]);
         LogAnalysisError (TypeError "provider.startsWith is not a function")].
Proof.
  refine (array_provider_fails_after_lookup served request_array Samples.answers
            "claude" claude_config "sk-ant-test" _ _ _ _).
  - reflexivity.
  - reflexivity.
  - reflexivity.
  - reflexivity.
Defined.

Lemma textless_block_succeeds_witness :
  ∃ meta tr,
    analyze textless Samples.request_claude
    = Responded {| status := 200; content := SuccessBody JUndefined meta |} tr.
Proof.
  refine (textless_block_succeeds textless Samples.request_claude Samples.answers
            (JStr "claude") claude_config "sk-ant-test" _ 200%Z
            textless_fields tool_block [] _ _ _ _ _ _ _ _).
  - constructor; reflexivity.
  - reflexivity.
  - reflexivity.
  - reflexivity.
  - reflexivity.
  - reflexivity.
  - reflexivity.
  - reflexivity.
Defined.

(** Choosing a second industry, then taking it back. *)
Lemma handleResponse_toggles_witness :
  ∃ values' : list string,
    handleResponse "industry" "saas" true {[ "industry" := JArr [JStr "fintech"] ]}
    = Ret (<["industry" := JArr (JStr <$> values')]> {[ "industry" := JArr [JStr "fintech"] ]})
    ∧ ("saas" ∈ values' ↔ "saas" ∉ ["fintech"]).
Proof.
  assert (Hp : ({[ "industry" := JArr [JStr "fintech"] ]} : gmap string jsval) !! "industry"
               = Some (JArr (JStr <$> ["fintech"]))
               ∨ ({[ "industry" := JArr [JStr "fintech"] ]} : gmap string jsval) !! "industry"
                 = None
                 ∧ ("industry" ∉ object_prototype_keys) ∧ ["fintech"] = [])
    by (left; reflexivity).
  destruct (handleResponse_toggles "industry" "saas" ["fintech"]
              {[ "industry" := JArr [JStr "fintech"] ]} Hp)
    as (values' & Hr & Hv & _).
  exists values'. split; [exact Hr | exact Hv].
Defined.

Lemma session_keeps_answers_in_order_witness :
  ∃ st, session all_answers initial = Some st
    ∧ can_generate st
    ∧ get (request_body st) "responses" = Ret (JObj (responses st)).
Proof.
  eexists. split; [vm_compute; reflexivity |].
  match goal with |- can_generate ?s ∧ _ =>
    assert (Hg : can_generate s) by (split_and!; vm_compute; reflexivity)
  end.
  split; [exact Hg |].
  refine (proj2 (proj2 (proj2 (session_keeps_answers_in_order all_answers _ _) Hg))).
  vm_compute; reflexivity.
Defined.

Lemma served_by_visit w : served_by w (visit w).
Proof.
  unfold served_by, visit. constructor; [done |].
  apply Forall_app. split; [| by repeat constructor].
  unfold all_answers. by repeat constructor.
Qed.

(** With the OpenRouter key alone, a visitor who picks the second provider
    offered sends a request the server takes to its upstream. *)
Lemma questionnaire_requests_are_valid_witness :
  ∃ st, session (visit openrouter_only) initial = Some st
    ∧ can_generate st
    ∧ ∃ id cfg,
        destructure (request_body st) = Ret (JObj (responses st), JStr id)
        ∧ invalid_responses (JObj (responses st)) = false
        ∧ lookup_provider (JStr id) = Ret (Own cfg)
        ∧ (id = "claude" ∨ available openrouter_only cfg = true)
        ∧ ∀ r tr, analyze openrouter_only (request_body st) = Responded r tr →
            (status r = 200 ∨ status r = 500)%Z
            ∧ (r = configuration_error →
               id = "claude" ∧ env_truthy openrouter_only "ANTHROPIC_API_KEY" = None).
Proof.
  eexists. split; [vm_compute; reflexivity |].
  split; [split_and!; vm_compute; reflexivity |].
  refine (questionnaire_requests_are_valid openrouter_only (visit openrouter_only) _
            (served_by_visit openrouter_only) _ _).
  - vm_compute; reflexivity.
  - split_and!; vm_compute; reflexivity.
Defined.

(** With the OpenRouter key alone, the page keeps the default it is sent. *)
Lemma default_selection_ignores_availability_witness :
  ∃ st',
    providers_settled (Reply 200 (Some (jsonify (providers_listing openrouter_only)))) initial
    = Some st'
    ∧ selectedProvider st' = JStr "claude"
    ∧ List.length (availableProviders st') = 3%nat
    ∧ analyze openrouter_only (request_body st')
      = Responded configuration_error [LogMissingKey (JStr "claude")].
Proof.
  destruct (default_selection_ignores_availability openrouter_only initial eq_refl)
    as (st' & Hs & Hsel & _ & Hlen & Ha).
  exists st'. split_and!; [exact Hs | exact Hsel | | exact Ha].
  apply Hlen. discriminate.
Defined.

(** A failed upstream call as the visitor reads it. *)
Lemma report_shows_what_the_server_sent_witness :
  ∃ reply st',
    received {| status := 500;
                content := ErrorBody "Analysis failed" (Msg "fetch failed")
                             (Some "2025-01-01T00:00:00.000Z") |} = Some reply
    ∧ analyze_settled reply initial = Some st'
    ∧ loading st' = false ∧ showReport st' = true
    ∧ analysis st' = Failure (Msg "fetch failed").
Proof.
  eexists. 
  destruct (report_shows_what_the_server_sent offline Samples.request_claude _ _ _ initial
              eq_refl eq_refl)
    as (st' & Hs & Hl & Hr & _ & _ & _ & Ha & _).
  exists st'. split; [reflexivity |]. split_and!; [exact Hs | exact Hl | exact Hr | exact Ha].
Defined.

Lemma claude_registered : ("claude", claude_config) ∈ PROVIDERS.
Proof. apply list_elem_of_In. simpl. by left. Qed.

(** Listed as available, and called. *)
Lemma listing_agrees_with_route_witness :
  ∃ req x tr,
    get (jsonify (provider_entry served "claude" claude_config)) "available"
    = Ret (JBool true)
    ∧ url req = "https://api.anthropic.com/v1/messages"
    ∧ analyze_try served Samples.request_claude []
      = (x, LogProcessing (JStr "claude") :: Fetch req :: tr).
Proof.
  destruct (listing_agrees_with_route served "claude" claude_config Samples.request_claude
              Samples.answers claude_registered eq_refl eq_refl)
    as [[Hn _] | (Hav & apiKey & req & x & tr & _ & Hu & _ & _ & _ & Ht)].
  - discriminate Hn.
  - exists req, x, tr. split_and!; [exact Hav | exact Hu | exact Ht].
Defined.

Lemma listing_reveals_only_availability_witness :
  providers_listing served = providers_listing rotated.
Proof.
  refine (listing_reveals_only_availability served rotated _).
  intros id cfg _. apply rotated_keys_set.
Defined.
